(** * Pi 500+ keyboard / mouse to USB HID gadget bridge

    A shallow embedding of [pi500-hid-bridge.py] (and of the two stand-alone
    scripts [hid-keyboard-bridge.py] and [hid-mouse-bridge.py] where they
    differ), together with the properties of its report codec, its endpoint
    writer, its keyboard translator and its mouse lifecycle manager.

    Python integers are unbounded and are modelled by [Z]; a [bytes] value is
    a list of integers each in [0, 255]; a Python [set] of integers is a
    [gset Z] and a [dict] is a [gmap Z Z]. *)

From stdpp Require Import gmap sorting list lexico strings.
From Stdlib Require Import ZArith Lia.

Local Open Scope Z_scope.

(** * Part I: the program and the vocabulary of its properties *)

(** ** Constants of the platform

    [errno] and [evdev.ecodes] are not part of the repository: the numeric
    values are those of Linux ([errno.h], [input-event-codes.h]). *)

Module errno.
Definition EAGAIN : Z := 11.
Definition EPIPE : Z := 32.
Definition ENOTCONN : Z := 107.
Definition EIO : Z := 5.
Definition ENODEV : Z := 19.
End errno.

Module ecodes.
Definition EV_SYN : Z := 0.
Definition EV_KEY : Z := 1.
Definition EV_REL : Z := 2.
Definition SYN_REPORT : Z := 0.
Definition REL_X : Z := 0.
Definition REL_Y : Z := 1.
Definition REL_HWHEEL : Z := 6.
Definition REL_WHEEL : Z := 8.
Definition BTN_LEFT : Z := 272.
Definition BTN_RIGHT : Z := 273.
Definition BTN_MIDDLE : Z := 274.

Definition KEY_ESC : Z := 1.
Definition KEY_1 : Z := 2.
Definition KEY_2 : Z := 3.
Definition KEY_3 : Z := 4.
Definition KEY_4 : Z := 5.
Definition KEY_5 : Z := 6.
Definition KEY_6 : Z := 7.
Definition KEY_7 : Z := 8.
Definition KEY_8 : Z := 9.
Definition KEY_9 : Z := 10.
Definition KEY_0 : Z := 11.
Definition KEY_MINUS : Z := 12.
Definition KEY_EQUAL : Z := 13.
Definition KEY_BACKSPACE : Z := 14.
Definition KEY_TAB : Z := 15.
Definition KEY_Q : Z := 16.
Definition KEY_W : Z := 17.
Definition KEY_E : Z := 18.
Definition KEY_R : Z := 19.
Definition KEY_T : Z := 20.
Definition KEY_Y : Z := 21.
Definition KEY_U : Z := 22.
Definition KEY_I : Z := 23.
Definition KEY_O : Z := 24.
Definition KEY_P : Z := 25.
Definition KEY_LEFTBRACE : Z := 26.
Definition KEY_RIGHTBRACE : Z := 27.
Definition KEY_ENTER : Z := 28.
Definition KEY_LEFTCTRL : Z := 29.
Definition KEY_A : Z := 30.
Definition KEY_S : Z := 31.
Definition KEY_D : Z := 32.
Definition KEY_F : Z := 33.
Definition KEY_G : Z := 34.
Definition KEY_H : Z := 35.
Definition KEY_J : Z := 36.
Definition KEY_K : Z := 37.
Definition KEY_L : Z := 38.
Definition KEY_SEMICOLON : Z := 39.
Definition KEY_APOSTROPHE : Z := 40.
Definition KEY_GRAVE : Z := 41.
Definition KEY_LEFTSHIFT : Z := 42.
Definition KEY_BACKSLASH : Z := 43.
Definition KEY_Z : Z := 44.
Definition KEY_X : Z := 45.
Definition KEY_C : Z := 46.
Definition KEY_V : Z := 47.
Definition KEY_B : Z := 48.
Definition KEY_N : Z := 49.
Definition KEY_M : Z := 50.
Definition KEY_COMMA : Z := 51.
Definition KEY_DOT : Z := 52.
Definition KEY_SLASH : Z := 53.
Definition KEY_RIGHTSHIFT : Z := 54.
Definition KEY_KPASTERISK : Z := 55.
Definition KEY_LEFTALT : Z := 56.
Definition KEY_SPACE : Z := 57.
Definition KEY_CAPSLOCK : Z := 58.
Definition KEY_F1 : Z := 59.
Definition KEY_F2 : Z := 60.
Definition KEY_F3 : Z := 61.
Definition KEY_F4 : Z := 62.
Definition KEY_F5 : Z := 63.
Definition KEY_F6 : Z := 64.
Definition KEY_F7 : Z := 65.
Definition KEY_F8 : Z := 66.
Definition KEY_F9 : Z := 67.
Definition KEY_F10 : Z := 68.
Definition KEY_NUMLOCK : Z := 69.
Definition KEY_SCROLLLOCK : Z := 70.
Definition KEY_KP7 : Z := 71.
Definition KEY_KP8 : Z := 72.
Definition KEY_KP9 : Z := 73.
Definition KEY_KPMINUS : Z := 74.
Definition KEY_KP4 : Z := 75.
Definition KEY_KP5 : Z := 76.
Definition KEY_KP6 : Z := 77.
Definition KEY_KPPLUS : Z := 78.
Definition KEY_KP1 : Z := 79.
Definition KEY_KP2 : Z := 80.
Definition KEY_KP3 : Z := 81.
Definition KEY_KP0 : Z := 82.
Definition KEY_KPDOT : Z := 83.
Definition KEY_ZENKAKUHANKAKU : Z := 85.
Definition KEY_F11 : Z := 87.
Definition KEY_F12 : Z := 88.
Definition KEY_RO : Z := 89.
Definition KEY_HENKAN : Z := 92.
Definition KEY_KATAKANAHIRAGANA : Z := 93.
Definition KEY_MUHENKAN : Z := 94.
Definition KEY_KPENTER : Z := 96.
Definition KEY_RIGHTCTRL : Z := 97.
Definition KEY_KPSLASH : Z := 98.
Definition KEY_SYSRQ : Z := 99.
Definition KEY_RIGHTALT : Z := 100.
Definition KEY_HOME : Z := 102.
Definition KEY_UP : Z := 103.
Definition KEY_PAGEUP : Z := 104.
Definition KEY_LEFT : Z := 105.
Definition KEY_RIGHT : Z := 106.
Definition KEY_END : Z := 107.
Definition KEY_DOWN : Z := 108.
Definition KEY_PAGEDOWN : Z := 109.
Definition KEY_INSERT : Z := 110.
Definition KEY_DELETE : Z := 111.
Definition KEY_MUTE : Z := 113.
Definition KEY_PAUSE : Z := 119.
Definition KEY_YEN : Z := 124.
Definition KEY_LEFTMETA : Z := 125.
Definition KEY_RIGHTMETA : Z := 126.
Definition KEY_COMPOSE : Z := 127.
Definition KEY_MENU : Z := 139.
End ecodes.

(** ** Usage tables *)

(** A Python dict display: entries are inserted left to right, so a later
    entry for an equal key replaces an earlier one. *)
Definition dict_of (entries : list (Z * Z)) : gmap Z Z :=
  fold_left (fun d kv => <[kv.1 := kv.2]> d) entries ∅.

Definition MODIFIER_KEYS : gmap Z Z := dict_of [
  (ecodes.KEY_LEFTCTRL, 0x01);
  (ecodes.KEY_LEFTSHIFT, 0x02);
  (ecodes.KEY_LEFTALT, 0x04);
  (ecodes.KEY_LEFTMETA, 0x08);
  (ecodes.KEY_RIGHTCTRL, 0x10);
  (ecodes.KEY_RIGHTSHIFT, 0x20);
  (ecodes.KEY_RIGHTALT, 0x40);
  (ecodes.KEY_RIGHTMETA, 0x80)
].

Definition KEY_TO_HID : gmap Z Z := dict_of [
  (ecodes.KEY_A, 0x04); (ecodes.KEY_B, 0x05); (ecodes.KEY_C, 0x06); (ecodes.KEY_D, 0x07);
  (ecodes.KEY_E, 0x08); (ecodes.KEY_F, 0x09); (ecodes.KEY_G, 0x0A); (ecodes.KEY_H, 0x0B);
  (ecodes.KEY_I, 0x0C); (ecodes.KEY_J, 0x0D); (ecodes.KEY_K, 0x0E); (ecodes.KEY_L, 0x0F);
  (ecodes.KEY_M, 0x10); (ecodes.KEY_N, 0x11); (ecodes.KEY_O, 0x12); (ecodes.KEY_P, 0x13);
  (ecodes.KEY_Q, 0x14); (ecodes.KEY_R, 0x15); (ecodes.KEY_S, 0x16); (ecodes.KEY_T, 0x17);
  (ecodes.KEY_U, 0x18); (ecodes.KEY_V, 0x19); (ecodes.KEY_W, 0x1A); (ecodes.KEY_X, 0x1B);
  (ecodes.KEY_Y, 0x1C); (ecodes.KEY_Z, 0x1D);
  (ecodes.KEY_1, 0x1E); (ecodes.KEY_2, 0x1F); (ecodes.KEY_3, 0x20); (ecodes.KEY_4, 0x21);
  (ecodes.KEY_5, 0x22); (ecodes.KEY_6, 0x23); (ecodes.KEY_7, 0x24); (ecodes.KEY_8, 0x25);
  (ecodes.KEY_9, 0x26); (ecodes.KEY_0, 0x27);
  (ecodes.KEY_ENTER, 0x28);
  (ecodes.KEY_ESC, 0x29);
  (ecodes.KEY_BACKSPACE, 0x2A);
  (ecodes.KEY_TAB, 0x2B);
  (ecodes.KEY_SPACE, 0x2C);
  (ecodes.KEY_MINUS, 0x2D);
  (ecodes.KEY_EQUAL, 0x2E);
  (ecodes.KEY_LEFTBRACE, 0x2F);
  (ecodes.KEY_RIGHTBRACE, 0x30);
  (ecodes.KEY_BACKSLASH, 0x31);
  (ecodes.KEY_SEMICOLON, 0x33);
  (ecodes.KEY_APOSTROPHE, 0x34);
  (ecodes.KEY_GRAVE, 0x35);
  (ecodes.KEY_COMMA, 0x36);
  (ecodes.KEY_DOT, 0x37);
  (ecodes.KEY_SLASH, 0x38);
  (ecodes.KEY_CAPSLOCK, 0x39);
  (ecodes.KEY_F1, 0x3A); (ecodes.KEY_F2, 0x3B); (ecodes.KEY_F3, 0x3C); (ecodes.KEY_F4, 0x3D);
  (ecodes.KEY_F5, 0x3E); (ecodes.KEY_F6, 0x3F); (ecodes.KEY_F7, 0x40); (ecodes.KEY_F8, 0x41);
  (ecodes.KEY_F9, 0x42); (ecodes.KEY_F10, 0x43); (ecodes.KEY_F11, 0x44); (ecodes.KEY_F12, 0x45);
  (ecodes.KEY_SYSRQ, 0x46);
  (ecodes.KEY_SCROLLLOCK, 0x47);
  (ecodes.KEY_PAUSE, 0x48);
  (ecodes.KEY_INSERT, 0x49);
  (ecodes.KEY_HOME, 0x4A);
  (ecodes.KEY_PAGEUP, 0x4B);
  (ecodes.KEY_DELETE, 0x4C);
  (ecodes.KEY_END, 0x4D);
  (ecodes.KEY_PAGEDOWN, 0x4E);
  (ecodes.KEY_RIGHT, 0x4F);
  (ecodes.KEY_LEFT, 0x50);
  (ecodes.KEY_DOWN, 0x51);
  (ecodes.KEY_UP, 0x52);
  (ecodes.KEY_NUMLOCK, 0x53);
  (ecodes.KEY_KPSLASH, 0x54);
  (ecodes.KEY_KPASTERISK, 0x55);
  (ecodes.KEY_KPMINUS, 0x56);
  (ecodes.KEY_KPPLUS, 0x57);
  (ecodes.KEY_KPENTER, 0x58);
  (ecodes.KEY_KP1, 0x59); (ecodes.KEY_KP2, 0x5A); (ecodes.KEY_KP3, 0x5B);
  (ecodes.KEY_KP4, 0x5C); (ecodes.KEY_KP5, 0x5D); (ecodes.KEY_KP6, 0x5E);
  (ecodes.KEY_KP7, 0x5F); (ecodes.KEY_KP8, 0x60); (ecodes.KEY_KP9, 0x61);
  (ecodes.KEY_KP0, 0x62);
  (ecodes.KEY_KPDOT, 0x63);
  (ecodes.KEY_COMPOSE, 0x65);
  (ecodes.KEY_MENU, 0x65);
  (ecodes.KEY_HENKAN, 0x8A);
  (ecodes.KEY_MUHENKAN, 0x8B);
  (ecodes.KEY_KATAKANAHIRAGANA, 0x88);
  (ecodes.KEY_YEN, 0x89);
  (ecodes.KEY_RO, 0x87);
  (ecodes.KEY_ZENKAKUHANKAKU, 0x94)
].

Definition BUTTON_MAP : gmap Z Z := dict_of [
  (ecodes.BTN_LEFT, 0x01);
  (ecodes.BTN_RIGHT, 0x02);
  (ecodes.BTN_MIDDLE, 0x04)
].

(** ** Exceptions and results *)

Inductive exn : Type :=
  | BlockingIOError (e : Z)
  | BrokenPipeError (e : Z)
  | OSError (e : Z)
  | ValueError
  | RuntimeError
  | KeyboardInterrupt.

Inductive result (A : Type) : Type :=
  | Ok (a : A)
  | Raise (x : exn).
Arguments Ok {A} a.
Arguments Raise {A} x.

(** [isinstance(x, OSError)]: the first three are subclasses of [OSError]. *)
Definition is_OSError (x : exn) : bool :=
  match x with
  | BlockingIOError _ | BrokenPipeError _ | OSError _ => true
  | _ => false
  end.

(** [isinstance(x, Exception)]: [KeyboardInterrupt] derives from
    [BaseException] only. *)
Definition is_Exception (x : exn) : bool :=
  match x with
  | KeyboardInterrupt => false
  | _ => true
  end.

(** ** Report codec *)

(** [bytes(l)]: raises [ValueError] unless every item is in [range(256)]. *)
Definition bytes (l : list Z) : result (list Z) :=
  if forallb (fun b => (0 <=? b) && (b <? 256)) l then Ok l else Raise ValueError.

(** [sorted(s)] for a set of integers. *)
Definition sorted (s : gset Z) : list Z := merge_sort Z.le (elements s).

(** [while len(keys) < 6: keys.append(0)] *)
Definition pad6 (keys : list Z) : list Z :=
  keys ++ replicate (6 - length keys)%nat 0.

Definition build_keyboard_report (mod_mask : Z) (pressed_usages : gset Z)
  : result (list Z) :=
  let keys := take 6 (sorted pressed_usages) in
  let keys := pad6 keys in
  bytes ([Z.land mod_mask 0xFF; 0x00] ++ keys).

Definition clamp (value min_val max_val : Z) : Z :=
  Z.max min_val (Z.min max_val value).

Definition signed_byte (value : Z) : Z :=
  if value <? 0 then Z.land (256 + value) 0xFF else Z.land value 0xFF.

Definition build_mouse_report (buttons dx dy wheel : Z) : result (list Z) :=
  bytes [ Z.land buttons 0xFF;
          signed_byte (clamp dx (-127) 127);
          signed_byte (clamp dy (-127) 127);
          signed_byte (clamp wheel (-127) 127) ].

(** Reading a byte back as a two's-complement signed value. *)
Definition decode_signed (b : Z) : Z := if 128 <=? b then b - 256 else b.

(** ** Vocabulary for the keyboard report *)

(** The number of members of [s] that are strictly smaller than [x]. *)
Definition rank (s : gset Z) (x : Z) : nat := size (filter (λ y, y < x) s).

(** [pressed_usages.add(u)] for each [u] of [l] in turn, from the empty set. *)
Definition add_all (l : list Z) : gset Z :=
  fold_left (fun s u => s ∪ {[u]}) l ∅.

(** Eight usages held at once, inserted in no particular order. *)
Definition eight_usages : gset Z := {[ 9; 4; 30; 7; 5; 200; 6; 8 ]}.

(** ** Vocabulary for the mouse report *)

(** Saturation written out: out-of-range values stick to the nearer bound. *)
Definition saturate (v : Z) : Z :=
  if v <? -127 then -127 else if 127 <? v then 127 else v.

(** ** Endpoint writer *)

(** The gadget endpoint is scripted: [pending] lists what the next calls of
    [os.write] will do, [None] for a write that is accepted and [Some x] for
    one that raises [x]; once the script is exhausted every write is
    accepted.  [calls] records each call of [write_report] with its result
    and [slept] the durations, in milliseconds, of the calls of
    [time.sleep]. *)
Record endpoint : Type := Endpoint {
  pending : list (option exn);
  calls : list (list Z * result unit);
  slept : list Z
}.

Definition fresh_endpoint (script : list (option exn)) : endpoint :=
  {| pending := script; calls := []; slept := [] |}.

(** The reports that reached the host: those whose write returned. *)
Definition delivered (ep : endpoint) : list (list Z) :=
  omap (λ c, match c.2 with Ok _ => Some c.1 | Raise _ => None end) (calls ep).

Definition max_retries : nat := 100.

(** The [while True] loop of [write_report]: the result, the sleeps it made
    and what is left of the script. *)
Fixpoint write_loop (script : list (option exn)) (retry_count : nat)
  : result unit * list Z * list (option exn) :=
  match script with
  | [] => (Ok (), [], [])
  | None :: rest => (Ok (), [], rest)
  | Some x :: rest =>
      match x with
      | BlockingIOError e =>
          if negb (e =? errno.EAGAIN) then (Raise x, [], rest)
          else
            let '(r, sl, rest') := write_loop rest retry_count in
            (r, 10 :: sl, rest')
      | BrokenPipeError e =>
          if negb ((e =? errno.EPIPE) || (e =? errno.ENOTCONN))
          then (Raise x, [], rest)
          else
            let retry_count := S retry_count in
            if (max_retries <=? retry_count)%nat then (Raise x, [], rest)
            else
              let '(r, sl, rest') := write_loop rest retry_count in
              (r, 100 :: sl, rest')
      | _ => (Raise x, [], rest)
      end
  end.

Definition write_report (report : list Z) (ep : endpoint)
  : result unit * endpoint :=
  let '(r, sl, rest) := write_loop (pending ep) 0 in
  (r, {| pending := rest;
         calls := calls ep ++ [(report, r)];
         slept := slept ep ++ sl |}).

(** The writer of the stand-alone scripts ([hid-keyboard-bridge.py],
    [hid-mouse-bridge.py]) retries [EAGAIN] only. *)
Module Standalone.
Fixpoint write_loop (script : list (option exn))
  : result unit * list Z * list (option exn) :=
  match script with
  | [] => (Ok (), [], [])
  | None :: rest => (Ok (), [], rest)
  | Some x :: rest =>
      match x with
      | BlockingIOError e =>
          if negb (e =? errno.EAGAIN) then (Raise x, [], rest)
          else
            let '(r, sl, rest') := write_loop rest in
            (r, 10 :: sl, rest')
      | _ => (Raise x, [], rest)
      end
  end.

Definition write_report (report : list Z) (ep : endpoint)
  : result unit * endpoint :=
  let '(r, sl, rest) := write_loop (pending ep) in
  (r, {| pending := rest;
         calls := calls ep ++ [(report, r)];
         slept := slept ep ++ sl |}).
End Standalone.

Definition not_ready : option exn := Some (BlockingIOError errno.EAGAIN).
Definition disconnected : option exn := Some (BrokenPipeError errno.EPIPE).

(** What [write_report] retries. *)
Definition retried (x : exn) : bool :=
  match x with
  | BlockingIOError e => e =? errno.EAGAIN
  | BrokenPipeError e => (e =? errno.EPIPE) || (e =? errno.ENOTCONN)
  | _ => false
  end.

(** ** Computations with a state that may raise *)

Definition ST (S A : Type) : Type := S → result A * S.

Global Instance ST_ret {S : Type} : MRet (ST S) := λ A a s, (Ok a, s).

Global Instance ST_bind {S : Type} : MBind (ST S) := λ A B f m s,
  match m s with
  | (Ok a, s') => f a s'
  | (Raise x, s') => (Raise x, s')
  end.

Definition raise {S A : Type} (x : exn) : ST S A := λ s, (Raise x, s).

(** A pure computation that may raise. *)
Definition lift {S A : Type} (r : result A) : ST S A := λ s, (r, s).

(** [try: m  except <handles>: h] *)
Definition try_except {S A : Type} (m : ST S A) (handles : exn → bool)
    (h : ST S A) : ST S A := λ s,
  match m s with
  | (Ok a, s') => (Ok a, s')
  | (Raise x, s') => if handles x then h s' else (Raise x, s')
  end.

(** [try: m  finally: f]: [f] always runs; what [f] raises replaces the
    outcome of [m]. *)
Definition try_finally {S A : Type} (m : ST S A) (f : ST S unit)
  : ST S A := λ s,
  let '(r, s') := m s in
  match f s' with
  | (Ok _, s'') => (r, s'')
  | (Raise x, s'') => (Raise x, s'')
  end.

(** Computations on one gadget endpoint. *)
Abbreviation M := (ST endpoint).

(** ** Keyboard translator *)

Record input_event : Type := InputEvent {
  type : Z;
  code : Z;
  value : Z
}.

(** What the generator [dev.read_loop()] does next: it yields an event or
    raises ([KeyboardInterrupt] when the process is interrupted while waiting,
    [OSError] when the device goes away).  A list that ends is a generator
    that returns. *)
Inductive read_item : Type :=
  | Yields (e : input_event)
  | Raises (x : exn).

(** The local variables of [run_keyboard_bridge]. *)
Record KeyboardState : Type := {
  pressed_keys : gset Z;
  pressed_usages : gset Z;
  mod_mask : Z
}.

Definition all_released : KeyboardState :=
  {| pressed_keys := ∅; pressed_usages := ∅; mod_mask := 0 |}.

(** [write_report(hidfd, build_keyboard_report(mod_mask, pressed_usages))] *)
Definition send_keyboard_report (mod_mask : Z) (pressed_usages : gset Z)
  : M unit :=
  report ← lift (build_keyboard_report mod_mask pressed_usages);
  write_report report.

(** One iteration of the [for e in dev.read_loop()] loop body (the debug
    output of [--show] is left out). *)
Definition keyboard_event (e : input_event) (st : KeyboardState)
  : M KeyboardState :=
  if negb (type e =? ecodes.EV_KEY) then mret st
  else
    let is_down := value e =? 1 in
    let is_up := value e =? 0 in
    let is_repeat := value e =? 2 in
    if is_repeat then mret st
    else
      match MODIFIER_KEYS !! code e with
      | Some bit =>
          let mod_mask' :=
            if is_down then Z.lor (mod_mask st) bit
            else if is_up then Z.land (mod_mask st) (Z.land (Z.lnot bit) 0xFF)
            else mod_mask st in
          send_keyboard_report mod_mask' (pressed_usages st);;
          mret {| pressed_keys := pressed_keys st;
                  pressed_usages := pressed_usages st;
                  mod_mask := mod_mask' |}
      | None =>
          match KEY_TO_HID !! code e with
          | None => mret st
          | Some hid_usage =>
              let st' :=
                if is_down then
                  {| pressed_keys := pressed_keys st ∪ {[code e]};
                     pressed_usages := pressed_usages st ∪ {[hid_usage]};
                     mod_mask := mod_mask st |}
                else if is_up then
                  {| pressed_keys := pressed_keys st ∖ {[code e]};
                     pressed_usages := pressed_usages st ∖ {[hid_usage]};
                     mod_mask := mod_mask st |}
                else st in
              send_keyboard_report (mod_mask st') (pressed_usages st');;
              mret st'
          end
      end.

(** The [for] loop, started in state [st]. *)
Fixpoint keyboard_loop (items : list read_item) (st : KeyboardState)
  : M KeyboardState :=
  match items with
  | [] => mret st
  | Raises x :: _ => raise x
  | Yields e :: items =>
      st' ← keyboard_event e st;
      keyboard_loop items st'
  end.

(** [run_keyboard_bridge]: [acquire] stands for opening the device and
    grabbing it (lines before the first report), which may raise; the
    [ungrab] in the [finally] block has its errors swallowed and does not
    touch the endpoint. *)
Definition run_keyboard_bridge (acquire : result unit)
    (items : list read_item) : M unit :=
  lift acquire;;
  send_keyboard_report 0 ∅;;
  try_finally
    (try_except
       (keyboard_loop items all_released;; mret ())
       (λ x, match x with KeyboardInterrupt => true | _ => false end)
       (mret ()))
    (try_except (send_keyboard_report 0 ∅) is_Exception (mret ())).

Definition Down (c : Z) : input_event := InputEvent ecodes.EV_KEY c 1.
Definition Up (c : Z) : input_event := InputEvent ecodes.EV_KEY c 0.
Definition Repeat (c : Z) : input_event := InputEvent ecodes.EV_KEY c 2.

(** *** The state reached by one event *)

(** The state an iteration leaves behind when it does not raise. *)
Definition next_state (e : input_event) (st : KeyboardState) : KeyboardState :=
  if negb (type e =? ecodes.EV_KEY) then st
  else if value e =? 2 then st
  else
    match MODIFIER_KEYS !! code e with
    | Some bit =>
        {| pressed_keys := pressed_keys st;
           pressed_usages := pressed_usages st;
           mod_mask :=
             if value e =? 1 then Z.lor (mod_mask st) bit
             else if value e =? 0
                  then Z.land (mod_mask st) (Z.land (Z.lnot bit) 0xFF)
                  else mod_mask st |}
    | None =>
        match KEY_TO_HID !! code e with
        | None => st
        | Some hid_usage =>
            if value e =? 1 then
              {| pressed_keys := pressed_keys st ∪ {[code e]};
                 pressed_usages := pressed_usages st ∪ {[hid_usage]};
                 mod_mask := mod_mask st |}
            else if value e =? 0 then
              {| pressed_keys := pressed_keys st ∖ {[code e]};
                 pressed_usages := pressed_usages st ∖ {[hid_usage]};
                 mod_mask := mod_mask st |}
            else st
        end
    end.

(** Whether an iteration reaches a [write_report]. *)
Definition reports (e : input_event) : bool :=
  (type e =? ecodes.EV_KEY) && negb (value e =? 2)
  && (bool_decide (is_Some (MODIFIER_KEYS !! code e))
      || bool_decide (is_Some (KEY_TO_HID !! code e))).

(** *** Reachable states *)

(** The states the loop can be in: the initial one, and any state left by an
    iteration that returned. *)
Inductive reachable : KeyboardState → Prop :=
  | reachable_init : reachable all_released
  | reachable_step (st st' : KeyboardState) (e : input_event)
        (ep ep' : endpoint) :
      reachable st →
      keyboard_event e st ep = (Ok st', ep') →
      reachable st'.

Definition wf_state (st : KeyboardState) : Prop :=
  0 ≤ mod_mask st ≤ 255 ∧ ∀ u, u ∈ pressed_usages st → 1 ≤ u ≤ 255.

(** *** Key down followed by key up *)

(** A key down followed by a key up of the same code gives back the
    modifier mask and the pressed usages, whenever both iterations return. *)
Definition round_trip (st : KeyboardState) (c : Z) : Prop :=
  ∀ (ep : endpoint) (st1 : KeyboardState) (ep1 : endpoint)
    (st2 : KeyboardState) (ep2 : endpoint),
    keyboard_event (Down c) st ep = (Ok st1, ep1) →
    keyboard_event (Up c) st1 ep1 = (Ok st2, ep2) →
    mod_mask st2 = mod_mask st ∧ pressed_usages st2 = pressed_usages st.

(** The key [c] contributes nothing to the state: its modifier bit is clear,
    or its usage is not among the pressed usages. *)
Definition key_idle (st : KeyboardState) (c : Z) : Prop :=
  match MODIFIER_KEYS !! c with
  | Some bit => Z.land (mod_mask st) bit = 0
  | None =>
      match KEY_TO_HID !! c with
      | Some u => u ∉ pressed_usages st
      | None => True
      end
  end.

(** Left shift is held. *)
Definition shift_held : KeyboardState :=
  {| pressed_keys := ∅; pressed_usages := ∅; mod_mask := 2 |}.

(** The Compose key is held. *)
Definition compose_held : KeyboardState :=
  {| pressed_keys := {[ecodes.KEY_COMPOSE]};
     pressed_usages := {[0x65]};
     mod_mask := 0 |}.

(** *** The shift-A scenario *)

(** The reports that reach the host while the loop processes a stream on an
    endpoint that accepts every write, from the all-released state. *)
Definition reports_of (stream : list input_event) : list (list Z) :=
  delivered (keyboard_loop (Yields <$> stream) all_released
               (fresh_endpoint [])).2.

Definition shift_a_stream : list input_event :=
  [ Down ecodes.KEY_LEFTSHIFT; Down ecodes.KEY_A;
    Up ecodes.KEY_A; Up ecodes.KEY_LEFTSHIFT ].

(** *** Two keys, one usage *)

(** Both Compose and Menu are held. *)
Definition compose_menu_held : KeyboardState :=
  {| pressed_keys := {[ecodes.KEY_COMPOSE; ecodes.KEY_MENU]};
     pressed_usages := {[0x65]};
     mod_mask := 0 |}.

(** *** Leaving the keyboard bridge *)

Definition released_report : list Z := [0; 0; 0; 0; 0; 0; 0; 0].

(** What [run_keyboard_bridge] makes of the outcome of its loop: a
    [KeyboardInterrupt] is caught, anything else is passed on. *)
Definition exit_of (rl : result KeyboardState) : result unit :=
  match rl with
  | Ok _ => Ok ()
  | Raise KeyboardInterrupt => Ok ()
  | Raise x => Raise x
  end.

(** Shift and A are held when the process is interrupted, and the endpoint
    fails the final write with [EIO]. *)
Definition interrupted_stream : list read_item :=
  [ Yields (Down ecodes.KEY_LEFTSHIFT); Yields (Down ecodes.KEY_A);
    Raises KeyboardInterrupt ].

(** ** Mouse translator *)

(** The local variables of [_process_mouse_events]. *)
Record MouseState : Type := {
  buttons : Z;
  prev_buttons : Z;
  dx_accum : Z;
  dy_accum : Z;
  wheel_accum : Z
}.

Definition mouse_initial : MouseState :=
  {| buttons := 0; prev_buttons := 0;
     dx_accum := 0; dy_accum := 0; wheel_accum := 0 |}.

(** [write_report(self.hidfd, build_mouse_report(buttons, dx, dy, wheel))] *)
Definition send_mouse_report (buttons dx dy wheel : Z) : M unit :=
  report ← lift (build_mouse_report buttons dx dy wheel);
  write_report report.

(** The body of the [for e in dev.read_loop()] loop after the test of
    [self.running] (the debug output of [--show] is left out). *)
Definition mouse_event (e : input_event) (st : MouseState) : M MouseState :=
  if type e =? ecodes.EV_REL then
    if code e =? ecodes.REL_X then
      mret {| buttons := buttons st; prev_buttons := prev_buttons st;
              dx_accum := dx_accum st + value e;
              dy_accum := dy_accum st; wheel_accum := wheel_accum st |}
    else if code e =? ecodes.REL_Y then
      mret {| buttons := buttons st; prev_buttons := prev_buttons st;
              dx_accum := dx_accum st;
              dy_accum := dy_accum st + value e;
              wheel_accum := wheel_accum st |}
    else if code e =? ecodes.REL_WHEEL then
      mret {| buttons := buttons st; prev_buttons := prev_buttons st;
              dx_accum := dx_accum st; dy_accum := dy_accum st;
              wheel_accum := wheel_accum st + value e |}
    else mret st
  else if type e =? ecodes.EV_KEY then
    match BUTTON_MAP !! code e with
    | Some bit =>
        if value e =? 1 then
          mret {| buttons := Z.lor (buttons st) bit;
                  prev_buttons := prev_buttons st;
                  dx_accum := dx_accum st; dy_accum := dy_accum st;
                  wheel_accum := wheel_accum st |}
        else if value e =? 0 then
          mret {| buttons := Z.land (buttons st) (Z.lnot bit);
                  prev_buttons := prev_buttons st;
                  dx_accum := dx_accum st; dy_accum := dy_accum st;
                  wheel_accum := wheel_accum st |}
        else mret st
    | None => mret st
    end
  else if (type e =? ecodes.EV_SYN) && (code e =? ecodes.SYN_REPORT) then
    if negb (dx_accum st =? 0) || negb (dy_accum st =? 0)
       || negb (wheel_accum st =? 0) || negb (buttons st =? prev_buttons st)
    then
      send_mouse_report (buttons st) (dx_accum st) (dy_accum st)
                        (wheel_accum st);;
      mret {| buttons := buttons st; prev_buttons := buttons st;
              dx_accum := 0; dy_accum := 0; wheel_accum := 0 |}
    else mret st
  else mret st.

(** *** The mouse bridge and its surroundings

    The mouse bridge runs in a thread of its own.  Its world is the mouse
    endpoint, the flag [self.running] (cleared by [stop()] from the main
    thread), the calls made to [grab] and [ungrab] of device objects and the
    sleeps of the manager loop, in milliseconds. *)

Inductive dev_action : Type :=
  | Grab (id : nat) (r : result unit)
  | Ungrab (id : nat) (r : result unit).

Record mouse_world : Type := MouseWorld {
  hid : endpoint;
  running : bool;
  dev_log : list dev_action;
  naps : list Z
}.

Abbreviation MW := (ST mouse_world).

Definition on_hid {A : Type} (m : M A) : MW A := λ w,
  let '(r, ep) := m (hid w) in
  (r, MouseWorld ep (running w) (dev_log w) (naps w)).

Definition get_running : MW bool := λ w, (Ok (running w), w).

Definition set_running (b : bool) : MW unit := λ w,
  (Ok (), MouseWorld (hid w) b (dev_log w) (naps w)).

(** [time.sleep] in the manager loop. *)
Definition nap (ms : Z) : MW unit := λ w,
  (Ok (), MouseWorld (hid w) (running w) (dev_log w) (naps w ++ [ms])).

(** What the mouse device does next: it yields an event or raises, or the
    main thread calls [stop()] before the next event arrives. *)
Inductive mouse_item : Type :=
  | Item (i : read_item)
  | StopRequested.

(** An [InputDevice] object as [pick_mouse_device] returns it: its identity,
    its path, what its [grab] and [ungrab] do and what its [read_loop]
    does. *)
Record device : Type := {
  dev_id : nat;
  dev_path : Z;
  grab_result : result unit;
  ungrab_result : result unit;
  read_loop : list mouse_item
}.

Definition dev_grab (d : device) : MW unit := λ w,
  (grab_result d,
   MouseWorld (hid w) (running w)
     (dev_log w ++ [Grab (dev_id d) (grab_result d)]) (naps w)).

Definition dev_ungrab (d : device) : MW unit := λ w,
  (ungrab_result d,
   MouseWorld (hid w) (running w)
     (dev_log w ++ [Ungrab (dev_id d) (ungrab_result d)]) (naps w)).

(** The [for] loop of [_process_mouse_events]. *)
Fixpoint mouse_loop (items : list mouse_item) (st : MouseState) : MW unit :=
  match items with
  | [] => mret ()
  | StopRequested :: items => set_running false;; mouse_loop items st
  | Item (Raises x) :: _ => raise x
  | Item (Yields e) :: items =>
      r ← get_running;
      if negb r then mret ()
      else
        st' ← on_hid (mouse_event e st);
        mouse_loop items st'
  end.

Definition process_mouse_events (dev : device) : MW unit :=
  on_hid (send_mouse_report 0 0 0 0);;
  mouse_loop (read_loop dev) mouse_initial.

(** *** Mouse lifecycle manager *)

(** One turn of the [while self.running] loop as the surroundings script it:
    whether [stop()] was called before the loop test, and what
    [pick_mouse_device()] does. *)
Record round : Type := {
  stop_before : bool;
  picked : result (option device)
}.

(** [Finished]: the loop was left and the cleanup done.  [ScriptEnded]: the
    manager is still looping when the script of rounds runs out. *)
Inductive run_status : Type :=
  | Finished
  | ScriptEnded.

(** [try: mouse_dev = pick_mouse_device()  except Exception: mouse_dev = None] *)
Definition pick_mouse (r : result (option device)) : MW (option device) :=
  try_except (lift r) is_Exception (mret None).

(** [self.current_device is None or
     self.current_device.path != mouse_dev.path] *)
Definition is_new_device (current_device : option device) (mouse_dev : device)
  : bool :=
  match current_device with
  | None => true
  | Some c => negb (dev_path c =? dev_path mouse_dev)
  end.

(** The block "New mouse device found"; returns [self.current_device]. *)
Definition attach (grab : bool) (current_device : option device)
    (mouse_dev : device) : MW (option device) :=
  if is_new_device current_device mouse_dev then
    (if grab
     then try_except (dev_grab mouse_dev) is_Exception (mret ())
     else mret ());;
    mret (Some mouse_dev)
  else mret current_device.

(** The handler [except OSError]; returns [self.current_device]. *)
Definition on_device_error (grab : bool) (current_device : option device)
  : MW (option device) :=
  match current_device with
  | Some c =>
      try_except (if grab then dev_ungrab c else mret ())
                 is_Exception (mret ());;
      nap 500;;
      mret None
  | None =>
      nap 500;;
      mret None
  end.

(** [try: self._process_mouse_events(mouse_dev)] with its two handlers. *)
Definition guarded_process (grab : bool) (current_device : option device)
    (mouse_dev : device) : MW (option device) := λ w,
  match process_mouse_events mouse_dev w with
  | (Ok _, w') => (Ok current_device, w')
  | (Raise x, w') =>
      if is_OSError x then on_device_error grab current_device w'
      else if is_Exception x then (nap 500;; mret current_device) w'
      else (Raise x, w')
  end.

(** "Cleanup on exit". *)
Definition cleanup (grab : bool) (current_device : option device) : MW unit :=
  match current_device with
  | Some c =>
      try_except (on_hid (send_mouse_report 0 0 0 0)) is_Exception (mret ());;
      try_except (if grab then dev_ungrab c else mret ())
                 is_Exception (mret ())
  | None => mret ()
  end.

(** [MouseBridge.run], from the loop test on. *)
Fixpoint run_loop (grab : bool) (rounds : list round)
    (current_device : option device) : MW run_status :=
  match rounds with
  | [] =>
      r ← get_running;
      if (r : bool) then mret ScriptEnded
      else cleanup grab current_device;; mret Finished
  | rd :: rounds =>
      (if stop_before rd then set_running false else mret ());;
      r ← get_running;
      if negb r then cleanup grab current_device;; mret Finished
      else
        mouse_dev ← pick_mouse (picked rd);
        match mouse_dev with
        | None =>
            nap 1000;;
            run_loop grab rounds None
        | Some d =>
            current_device ← attach grab current_device d;
            current_device ← guarded_process grab current_device d;
            run_loop grab rounds current_device
        end
  end.

Definition run (grab : bool) (rounds : list round) : MW run_status :=
  run_loop grab rounds None.

Definition fresh_world (script : list (option exn)) : mouse_world :=
  MouseWorld (fresh_endpoint script) true [] [].

Definition Rel (c v : Z) : input_event := InputEvent ecodes.EV_REL c v.
Definition Sync : input_event :=
  InputEvent ecodes.EV_SYN ecodes.SYN_REPORT 0.

(** A mouse whose left button goes down and which is then unplugged. *)
Definition unplugged_mouse : device :=
  {| dev_id := 1; dev_path := 9;
     grab_result := Ok (); ungrab_result := Raise (OSError errno.ENODEV);
     read_loop :=
       [ Item (Yields (Down ecodes.BTN_LEFT)); Item (Yields Sync);
         Item (Raises (OSError errno.ENODEV)) ] |}.

(** The mouse is found, lost, not found again, and the bridge is stopped. *)
Definition unplugged_rounds : list round :=
  [ {| stop_before := false; picked := Ok (Some unplugged_mouse) |};
    {| stop_before := false; picked := Ok None |};
    {| stop_before := true; picked := Ok None |} ].

(** *** Reports at a sync marker *)

(** Something to report: motion was accumulated, or the buttons differ from
    those of the last emitted report. *)
Definition changed (st : MouseState) : Prop :=
  dx_accum st ≠ 0 ∨ dy_accum st ≠ 0 ∨ wheel_accum st ≠ 0
  ∨ buttons st ≠ prev_buttons st.

(** The bytes of the report of a state. *)
Definition mouse_report_of (st : MouseState) : list Z :=
  [ Z.land (buttons st) 0xFF;
    signed_byte (clamp (dx_accum st) (-127) 127);
    signed_byte (clamp (dy_accum st) (-127) 127);
    signed_byte (clamp (wheel_accum st) (-127) 127) ].

(** The state once a report went out: accumulators at zero, the buttons as
    the new baseline. *)
Definition after_report (st : MouseState) : MouseState :=
  {| buttons := buttons st; prev_buttons := buttons st;
     dx_accum := 0; dy_accum := 0; wheel_accum := 0 |}.

(** The reports that reach the host while the loop of
    [_process_mouse_events] processes a stream, the bridge running and the
    endpoint accepting every write. *)
Definition mouse_reports_of (stream : list input_event) : list (list Z) :=
  delivered
    (hid (mouse_loop ((λ e, Item (Yields e)) <$> stream) mouse_initial
            (fresh_world [])).2).

(** Five to the right and three up have been accumulated. *)
Definition moved : MouseState :=
  {| buttons := 0; prev_buttons := 0;
     dx_accum := 5; dy_accum := -3; wheel_accum := 0 |}.

(** *** The manager survives every ordinary failure *)

(** An exception that [except Exception] catches. *)
Definition benign (x : exn) : Prop := is_Exception x = true.

Definition benign_result {A : Type} (r : result A) : Prop :=
  ∀ x, r = Raise x → benign x.

(** A stream without a stop request, whose failures are benign. *)
Definition tame_item (i : mouse_item) : Prop :=
  match i with
  | StopRequested => False
  | Item (Raises x) => benign x
  | Item (Yields _) => True
  end.

Definition tame_device (d : device) : Prop :=
  benign_result (grab_result d) ∧ benign_result (ungrab_result d)
  ∧ Forall tame_item (read_loop d).

Definition tame_current (current_device : option device) : Prop :=
  match current_device with
  | Some c => tame_device c
  | None => True
  end.

Definition tame_round (rd : round) : Prop :=
  stop_before rd = false
  ∧ match picked rd with
    | Ok (Some d) => tame_device d
    | Ok None => True
    | Raise x => benign x
    end.

Definition calm_endpoint (ep : endpoint) : Prop :=
  Forall (λ o, ∀ x, o = Some x → benign x) (pending ep).

(** The bridge has not been stopped and the endpoint fails benignly. *)
Definition calm (w : mouse_world) : Prop :=
  running w = true ∧ calm_endpoint (hid w).

(** [m] keeps the endpoint calm and raises benign exceptions only. *)
Definition gentle_hid {A : Type} (m : M A) : Prop :=
  ∀ ep, calm_endpoint ep → calm_endpoint (m ep).2 ∧ benign_result (m ep).1.

(** The same for computations of the manager. *)
Definition gentle {A : Type} (m : MW A) : Prop :=
  ∀ w, calm w → calm (m w).2 ∧ benign_result (m w).1.

(** [m] keeps the world calm and returns a value satisfying [P]. *)
Definition steady {A : Type} (P : A → Prop) (m : MW A) : Prop :=
  ∀ w, calm w → calm (m w).2 ∧ ∃ a, (m w).1 = Ok a ∧ P a.

(** ** Vocabulary for the further properties *)

(** The sleep that follows a retried failure of [os.write], in
    milliseconds. *)
Definition pause_after (o : option exn) : Z :=
  match o with
  | Some (BlockingIOError _) => 10
  | _ => 100
  end.

(** A scripted failure that [write_report] retries. *)
Definition is_retried (o : option exn) : bool :=
  match o with
  | Some x => retried x
  | None => false
  end.

(** A scripted failure that counts against [max_retries]. *)
Definition is_disconnect (o : option exn) : bool :=
  match o with
  | Some (BrokenPipeError e) => (e =? errno.EPIPE) || (e =? errno.ENOTCONN)
  | _ => false
  end.

(** Seven usages: the six lowest are valid, the seventh is not a byte. *)
Definition seven_usages : gset Z := {[ 4; 5; 6; 7; 8; 9; 300 ]}.

(** The state after a stream of events, when no iteration raises. *)
Definition state_after (st : KeyboardState) (es : list input_event)
  : KeyboardState :=
  fold_left (λ st e, next_state e st) es st.

(** The bytes of the report of a keyboard state. *)
Definition report_of (st : KeyboardState) : list Z :=
  Z.land (mod_mask st) 0xFF :: 0
  :: pad6 (take 6 (sorted (pressed_usages st))).

(** The reports of the states after each reporting event of a stream. *)
Fixpoint snapshots (st : KeyboardState) (es : list input_event)
  : list (list Z) :=
  match es with
  | [] => []
  | e :: es =>
      (if reports e then [report_of (next_state e st)] else [])
      ++ snapshots (next_state e st) es
  end.

(** A down or up event of a regular key whose usage is [u]. *)
Definition acts_on_usage (u : Z) (e : input_event) : bool :=
  (type e =? ecodes.EV_KEY) && ((value e =? 1) || (value e =? 0))
  && bool_decide (MODIFIER_KEYS !! code e = None)
  && bool_decide (KEY_TO_HID !! code e = Some u).

(** A down or up event of the key [k]. *)
Definition acts_on_key (k : Z) (e : input_event) : bool :=
  (type e =? ecodes.EV_KEY) && ((value e =? 1) || (value e =? 0))
  && (code e =? k).

(** The sum of the values of the relative-motion events of axis [c]. *)
Definition rel_sum (c : Z) (es : list input_event) : Z :=
  foldr (λ e acc,
           if (type e =? ecodes.EV_REL) && (code e =? c)
           then value e + acc else acc) 0 es.

(** The state with the motion of the events added to the accumulators. *)
Definition add_motion (st : MouseState) (es : list input_event) : MouseState :=
  {| buttons := buttons st; prev_buttons := prev_buttons st;
     dx_accum := dx_accum st + rel_sum ecodes.REL_X es;
     dy_accum := dy_accum st + rel_sum ecodes.REL_Y es;
     wheel_accum := wheel_accum st + rel_sum ecodes.REL_WHEEL es |}.

(** The states the mouse loop can be in. *)
Inductive mouse_reachable : MouseState → Prop :=
  | mouse_reachable_init : mouse_reachable mouse_initial
  | mouse_reachable_step (st st' : MouseState) (e : input_event)
        (ep ep' : endpoint) :
      mouse_reachable st →
      mouse_event e st ep = (Ok st', ep') →
      mouse_reachable st'.

(** A stop request is part of the script of a round. *)
Definition stop_in (rd : round) : Prop :=
  stop_before rd = true
  ∨ ∃ d, picked rd = Ok (Some d) ∧ StopRequested ∈ read_loop d.

(** A round in which no mouse is found. *)
Definition no_mouse (rd : round) : Prop :=
  stop_before rd = false
  ∧ (picked rd = Ok None ∨ ∃ x, picked rd = Raise x ∧ is_Exception x = true).


(** ** Choosing the input device

    A Python [str] is the list of its code points; Python compares strings,
    and tuples, lexicographically, which is [lexico] on lists and pairs
    ([False < True] on booleans). *)
Abbreviation str := (list N).

(** [s.startswith(word)] and [word in s]. *)
Fixpoint starts_with (word s : str) : bool :=
  match word, s with
  | [], _ => true
  | _ :: _, [] => false
  | c :: word, c' :: s => (c =? c')%N && starts_with word s
  end.

Fixpoint contains (word s : str) : bool :=
  starts_with word s
  || match s with
     | [] => false
     | _ :: s' => contains word s'
     end.

(** ["keyboard"] and ["mouse"]. *)
Definition keyboard_word : str := [107; 101; 121; 98; 111; 97; 114; 100]%N.
Definition mouse_word : str := [109; 111; 117; 115; 101]%N.

(** [ecodes.BTN_MOUSE], 0x110 in [input-event-codes.h]: the code of
    [BTN_LEFT]. *)
Definition BTN_MOUSE : Z := 272.

(** An opened [InputDevice] as the pickers see it: its [path], its [name]
    and what [capabilities()] does, return the dict from event type to event
    codes or raise. *)
Record node : Type := Node {
  node_path : str;
  node_name : option str;
  node_capabilities : result (gmap Z (list Z))
}.

(** [[InputDevice(p) for p in list_devices()]]: each listed path opens to a
    device or raises; the first failure ends the comprehension. *)
Fixpoint open_devices (listed : list (result node)) : result (list node) :=
  match listed with
  | [] => Ok []
  | Raise x :: _ => Raise x
  | Ok d :: listed =>
      match open_devices listed with
      | Ok devs => Ok (d :: devs)
      | Raise x => Raise x
      end
  end.

(** The test of [pick_keyboard_device] on the capabilities of a device. *)
Definition keyboard_like (caps : gmap Z (list Z)) : bool :=
  let caps := default [] (caps !! ecodes.EV_KEY) in
  bool_decide (ecodes.KEY_A ∈ caps) && bool_decide (ecodes.KEY_ENTER ∈ caps)
  && bool_decide (ecodes.KEY_SPACE ∈ caps).

(** The test of [pick_mouse_device]. *)
Definition mouse_like (caps : gmap Z (list Z)) : bool :=
  let rel_caps := default [] (caps !! ecodes.EV_REL) in
  let key_caps := default [] (caps !! ecodes.EV_KEY) in
  let has_rel_xy :=
    bool_decide (ecodes.REL_X ∈ rel_caps)
    && bool_decide (ecodes.REL_Y ∈ rel_caps) in
  let has_buttons :=
    existsb (λ btn, bool_decide (btn ∈ key_caps))
            [ecodes.BTN_LEFT; ecodes.BTN_RIGHT; BTN_MOUSE] in
  has_rel_xy && has_buttons.

(** The loop [for d in devs: ... if <test>: found.append(d)]: the devices
    are asked for their capabilities in order, and a call that raises ends
    the loop. *)
Fixpoint select (test : gmap Z (list Z) → bool) (devs : list node)
  : result (list node) :=
  match devs with
  | [] => Ok []
  | d :: devs =>
      match node_capabilities d with
      | Raise x => Raise x
      | Ok caps =>
          match select test devs with
          | Raise x => Raise x
          | Ok found => Ok (if test caps then d :: found else found)
          end
      end
  end.

(** [list.sort(key=...)] is stable and orders by [<] on the keys: the result
    is that of the insertion sort that puts an element behind the elements
    with a smaller key only. *)
Fixpoint insert_by {A K : Type} `{Lexico K}
    `{∀ k1 k2 : K, Decision (lexico k1 k2)} (key : A → K) (a : A)
    (l : list A) : list A :=
  match l with
  | [] => [a]
  | b :: l' =>
      if bool_decide (lexico (key b) (key a)) then b :: insert_by key a l'
      else a :: l
  end.

Definition sort_by {A K : Type} `{Lexico K}
    `{∀ k1 k2 : K, Decision (lexico k1 k2)} (key : A → K) (l : list A)
  : list A :=
  foldr (insert_by key) [] l.

Section picking.
(** [str.lower], of Python. *)
Variable lower : str → str.

(** [lambda d: (word not in (d.name or "").lower(), d.path)] *)
Definition sort_key (word : str) (d : node) : bool * str :=
  (negb (contains word (lower (default [] (node_name d)))), node_path d).

(** [found.sort(key=...); return found[0]], for a list that is not empty:
    the sorted list has the length of [found]. *)
Definition first_sorted (word : str) (d0 : node) (found : list node) : node :=
  default d0 (head (sort_by (sort_key word) (d0 :: found))).

(** [pick_keyboard_device], the same in [pi500-hid-bridge.py] and in
    [hid-keyboard-bridge.py]. *)
Definition pick_keyboard_device (listed : list (result node)) : result node :=
  match open_devices listed with
  | Raise x => Raise x
  | Ok devs =>
      match select keyboard_like devs with
      | Raise x => Raise x
      | Ok [] => Raise RuntimeError
      | Ok (d0 :: keyboards) => Ok (first_sorted keyboard_word d0 keyboards)
      end
  end.

(** [pick_mouse_device] of [pi500-hid-bridge.py]: [None] when no mouse is
    found. *)
Definition pick_mouse_device (listed : list (result node))
  : result (option node) :=
  match open_devices listed with
  | Raise x => Raise x
  | Ok devs =>
      match select mouse_like devs with
      | Raise x => Raise x
      | Ok [] => Ok None
      | Ok (d0 :: mice) => Ok (Some (first_sorted mouse_word d0 mice))
      end
  end.

(** [pick_mouse_device] of [hid-mouse-bridge.py]: [RuntimeError] when no
    mouse is found. *)
Definition standalone_pick_mouse_device (listed : list (result node))
  : result node :=
  match open_devices listed with
  | Raise x => Raise x
  | Ok devs =>
      match select mouse_like devs with
      | Raise x => Raise x
      | Ok [] => Raise RuntimeError
      | Ok (d0 :: mice) => Ok (first_sorted mouse_word d0 mice)
      end
  end.
End picking.

(** ASCII lower-casing, the restriction of [str.lower] to ASCII names. *)
Definition ascii_lower (s : str) : str :=
  (λ c, if (65 <=? c)%N && (c <=? 90)%N then (c + 32)%N else c) <$> s.

(** A device that qualifies for the test [test]. *)
Definition qualifies (test : gmap Z (list Z) → bool) (d : node) : Prop :=
  ∃ caps, node_capabilities d = Ok caps ∧ test caps = true.

(** Whether [word] is in the lower-cased name of a device. *)
Definition named (lower : str → str) (word : str) (d : node) : bool :=
  contains word (lower (default [] (node_name d))).

(** *** Devices of a Pi 500+ with a USB keyboard and two pointing devices *)

(** ["/dev/input/event"] followed by [digits]. *)
Definition event_path (digits : str) : str :=
  [47; 100; 101; 118; 47; 105; 110; 112; 117; 116; 47;
   101; 118; 101; 110; 116]%N ++ digits.

(** [/dev/input/event0], "gpio-keys": the power button. *)
Definition power_button : node :=
  Node (event_path [48]%N)
       (Some [103; 112; 105; 111; 45; 107; 101; 121; 115]%N)
       (Ok {[ ecodes.EV_KEY := [116] ]}).

(** [/dev/input/event1], "Consumer Control": has the three keys of the
    test, but no "keyboard" in its name. *)
Definition consumer_control : node :=
  Node (event_path [49]%N)
       (Some [67; 111; 110; 115; 117; 109; 101; 114; 32;
              67; 111; 110; 116; 114; 111; 108]%N)
       (Ok {[ ecodes.EV_KEY :=
                [ecodes.KEY_ENTER; ecodes.KEY_A; ecodes.KEY_SPACE;
                 ecodes.KEY_MUTE] ]}).

(** [/dev/input/event2], "Pi 500 Keyboard". *)
Definition pi_keyboard : node :=
  Node (event_path [50]%N)
       (Some [80; 105; 32; 53; 48; 48; 32;
              75; 101; 121; 98; 111; 97; 114; 100]%N)
       (Ok {[ ecodes.EV_KEY :=
                [ecodes.KEY_ESC; ecodes.KEY_ENTER; ecodes.KEY_A;
                 ecodes.KEY_SPACE] ]}).

(** [/dev/input/event10], "USB KEYBOARD". *)
Definition usb_keyboard : node :=
  Node (event_path [49; 48]%N)
       (Some [85; 83; 66; 32; 75; 69; 89; 66; 79; 65; 82; 68]%N)
       (Ok {[ ecodes.EV_KEY :=
                [ecodes.KEY_A; ecodes.KEY_ENTER; ecodes.KEY_SPACE] ]}).

(** [/dev/input/event3], "TrackPoint": a pointing device without "mouse"
    in its name. *)
Definition trackpoint : node :=
  Node (event_path [51]%N)
       (Some [84; 114; 97; 99; 107; 80; 111; 105; 110; 116]%N)
       (Ok {[ ecodes.EV_REL := [ecodes.REL_X; ecodes.REL_Y];
              ecodes.EV_KEY := [ecodes.BTN_LEFT] ]}).

(** [/dev/input/event5], "Optical Mouse". *)
Definition optical_mouse : node :=
  Node (event_path [53]%N)
       (Some [79; 112; 116; 105; 99; 97; 108; 32;
              77; 111; 117; 115; 101]%N)
       (Ok {[ ecodes.EV_REL :=
                [ecodes.REL_X; ecodes.REL_Y; ecodes.REL_WHEEL];
              ecodes.EV_KEY :=
                [ecodes.BTN_LEFT; ecodes.BTN_RIGHT; ecodes.BTN_MIDDLE] ]}).

(** [/dev/input/event7], unplugged between being opened and being asked
    for its capabilities. *)
Definition vanished : node :=
  Node (event_path [55]%N) None (Raise (OSError errno.ENODEV)).

Definition attached : list node :=
  [power_button; consumer_control; pi_keyboard; usb_keyboard;
   trackpoint; optical_mouse].

(** ** The stand-alone mouse bridge, [hid-mouse-bridge.py]

    Its codec ([clamp], [signed_byte], [build_mouse_report]) and its
    [BUTTON_MAP] are those of the combined bridge; its writer is
    [Standalone.write_report]. *)
Module StandaloneMouse.

(** [write_report(hidfd, build_mouse_report(buttons, dx, dy, wheel))] *)
Definition send_mouse_report (buttons dx dy wheel : Z) : M unit :=
  report ← lift (build_mouse_report buttons dx dy wheel);
  Standalone.write_report report.

(** The body of the [for e in dev.read_loop()] loop of [main] (the debug
    output of [--show] is left out). *)
Definition mouse_event (e : input_event) (st : MouseState) : M MouseState :=
  if type e =? ecodes.EV_REL then
    if code e =? ecodes.REL_X then
      mret {| buttons := buttons st; prev_buttons := prev_buttons st;
              dx_accum := dx_accum st + value e;
              dy_accum := dy_accum st; wheel_accum := wheel_accum st |}
    else if code e =? ecodes.REL_Y then
      mret {| buttons := buttons st; prev_buttons := prev_buttons st;
              dx_accum := dx_accum st;
              dy_accum := dy_accum st + value e;
              wheel_accum := wheel_accum st |}
    else if code e =? ecodes.REL_WHEEL then
      mret {| buttons := buttons st; prev_buttons := prev_buttons st;
              dx_accum := dx_accum st; dy_accum := dy_accum st;
              wheel_accum := wheel_accum st + value e |}
    else if code e =? ecodes.REL_HWHEEL then mret st
    else mret st
  else if type e =? ecodes.EV_KEY then
    match BUTTON_MAP !! code e with
    | Some bit =>
        if value e =? 1 then
          mret {| buttons := Z.lor (buttons st) bit;
                  prev_buttons := prev_buttons st;
                  dx_accum := dx_accum st; dy_accum := dy_accum st;
                  wheel_accum := wheel_accum st |}
        else if value e =? 0 then
          mret {| buttons := Z.land (buttons st) (Z.lnot bit);
                  prev_buttons := prev_buttons st;
                  dx_accum := dx_accum st; dy_accum := dy_accum st;
                  wheel_accum := wheel_accum st |}
        else mret st
    | None => mret st
    end
  else if (type e =? ecodes.EV_SYN) && (code e =? ecodes.SYN_REPORT) then
    if negb (dx_accum st =? 0) || negb (dy_accum st =? 0)
       || negb (wheel_accum st =? 0) || negb (buttons st =? prev_buttons st)
    then
      send_mouse_report (buttons st) (dx_accum st) (dy_accum st)
                        (wheel_accum st);;
      mret {| buttons := buttons st; prev_buttons := buttons st;
              dx_accum := 0; dy_accum := 0; wheel_accum := 0 |}
    else mret st
  else mret st.

(** The [for] loop, started in state [st]. *)
Fixpoint mouse_loop (items : list read_item) (st : MouseState)
  : M MouseState :=
  match items with
  | [] => mret st
  | Raises x :: _ => raise x
  | Yields e :: items =>
      st' ← mouse_event e st;
      mouse_loop items st'
  end.

(** [main]: [acquire] stands for the lines before the first report
    (parsing the arguments, picking or opening the device, grabbing it,
    opening the gadget node), which may raise; closing the gadget node and
    the [ungrab] in the [finally] block come after the last write, have
    their errors swallowed and do not touch the endpoint.  The result is the
    exit status. *)
Definition main (acquire : result unit) (items : list read_item) : M Z :=
  lift acquire;;
  send_mouse_report 0 0 0 0;;
  try_finally
    (try_except
       (mouse_loop items mouse_initial;; mret ())
       (λ x, match x with KeyboardInterrupt => true | _ => false end)
       (mret ()))
    (try_except (send_mouse_report 0 0 0 0) is_Exception (mret ()));;
  mret 0.
End StandaloneMouse.

Definition neutral_report : list Z := [0; 0; 0; 0].

(** The left button goes down, then the mouse is unplugged. *)
Definition unplugged_stream : list read_item :=
  [ Yields (InputEvent ecodes.EV_KEY ecodes.BTN_LEFT 1);
    Yields (InputEvent ecodes.EV_SYN ecodes.SYN_REPORT 0);
    Raises (OSError errno.ENODEV) ].

(** What [StandaloneMouse.main] makes of the outcome of its loop. *)
Definition status_of (rl : result MouseState) : result Z :=
  match rl with
  | Ok _ => Ok 0
  | Raise KeyboardInterrupt => Ok 0
  | Raise x => Raise x
  end.

(** ** The stand-alone keyboard bridge, [hid-keyboard-bridge.py]

    Its [MODIFIER_KEYS], its report builder and its event loop are those of
    the combined bridge; its usage table has no entry for the
    Zenkaku/Hankaku key until the aliases are merged. *)
Module StandaloneKeyboard.
Definition KEY_TO_HID : gmap Z Z := dict_of [
  (ecodes.KEY_A, 0x04); (ecodes.KEY_B, 0x05); (ecodes.KEY_C, 0x06);
  (ecodes.KEY_D, 0x07); (ecodes.KEY_E, 0x08); (ecodes.KEY_F, 0x09);
  (ecodes.KEY_G, 0x0A); (ecodes.KEY_H, 0x0B); (ecodes.KEY_I, 0x0C);
  (ecodes.KEY_J, 0x0D); (ecodes.KEY_K, 0x0E); (ecodes.KEY_L, 0x0F);
  (ecodes.KEY_M, 0x10); (ecodes.KEY_N, 0x11); (ecodes.KEY_O, 0x12);
  (ecodes.KEY_P, 0x13); (ecodes.KEY_Q, 0x14); (ecodes.KEY_R, 0x15);
  (ecodes.KEY_S, 0x16); (ecodes.KEY_T, 0x17); (ecodes.KEY_U, 0x18);
  (ecodes.KEY_V, 0x19); (ecodes.KEY_W, 0x1A); (ecodes.KEY_X, 0x1B);
  (ecodes.KEY_Y, 0x1C); (ecodes.KEY_Z, 0x1D); (ecodes.KEY_1, 0x1E);
  (ecodes.KEY_2, 0x1F); (ecodes.KEY_3, 0x20); (ecodes.KEY_4, 0x21);
  (ecodes.KEY_5, 0x22); (ecodes.KEY_6, 0x23); (ecodes.KEY_7, 0x24);
  (ecodes.KEY_8, 0x25); (ecodes.KEY_9, 0x26); (ecodes.KEY_0, 0x27);
  (ecodes.KEY_ENTER, 0x28); (ecodes.KEY_ESC, 0x29);
  (ecodes.KEY_BACKSPACE, 0x2A); (ecodes.KEY_TAB, 0x2B);
  (ecodes.KEY_SPACE, 0x2C); (ecodes.KEY_MINUS, 0x2D);
  (ecodes.KEY_EQUAL, 0x2E); (ecodes.KEY_LEFTBRACE, 0x2F);
  (ecodes.KEY_RIGHTBRACE, 0x30); (ecodes.KEY_BACKSLASH, 0x31);
  (ecodes.KEY_SEMICOLON, 0x33); (ecodes.KEY_APOSTROPHE, 0x34);
  (ecodes.KEY_GRAVE, 0x35); (ecodes.KEY_COMMA, 0x36); (ecodes.KEY_DOT, 0x37);
  (ecodes.KEY_SLASH, 0x38); (ecodes.KEY_CAPSLOCK, 0x39);
  (ecodes.KEY_F1, 0x3A); (ecodes.KEY_F2, 0x3B); (ecodes.KEY_F3, 0x3C);
  (ecodes.KEY_F4, 0x3D); (ecodes.KEY_F5, 0x3E); (ecodes.KEY_F6, 0x3F);
  (ecodes.KEY_F7, 0x40); (ecodes.KEY_F8, 0x41); (ecodes.KEY_F9, 0x42);
  (ecodes.KEY_F10, 0x43); (ecodes.KEY_F11, 0x44); (ecodes.KEY_F12, 0x45);
  (ecodes.KEY_SYSRQ, 0x46); (ecodes.KEY_SCROLLLOCK, 0x47);
  (ecodes.KEY_PAUSE, 0x48); (ecodes.KEY_INSERT, 0x49);
  (ecodes.KEY_HOME, 0x4A); (ecodes.KEY_PAGEUP, 0x4B);
  (ecodes.KEY_DELETE, 0x4C); (ecodes.KEY_END, 0x4D);
  (ecodes.KEY_PAGEDOWN, 0x4E); (ecodes.KEY_RIGHT, 0x4F);
  (ecodes.KEY_LEFT, 0x50); (ecodes.KEY_DOWN, 0x51); (ecodes.KEY_UP, 0x52);
  (ecodes.KEY_NUMLOCK, 0x53); (ecodes.KEY_KPSLASH, 0x54);
  (ecodes.KEY_KPASTERISK, 0x55); (ecodes.KEY_KPMINUS, 0x56);
  (ecodes.KEY_KPPLUS, 0x57); (ecodes.KEY_KPENTER, 0x58);
  (ecodes.KEY_KP1, 0x59); (ecodes.KEY_KP2, 0x5A); (ecodes.KEY_KP3, 0x5B);
  (ecodes.KEY_KP4, 0x5C); (ecodes.KEY_KP5, 0x5D); (ecodes.KEY_KP6, 0x5E);
  (ecodes.KEY_KP7, 0x5F); (ecodes.KEY_KP8, 0x60); (ecodes.KEY_KP9, 0x61);
  (ecodes.KEY_KP0, 0x62); (ecodes.KEY_KPDOT, 0x63);
  (ecodes.KEY_COMPOSE, 0x65); (ecodes.KEY_MENU, 0x65);
  (ecodes.KEY_HENKAN, 0x8A); (ecodes.KEY_MUHENKAN, 0x8B);
  (ecodes.KEY_KATAKANAHIRAGANA, 0x88); (ecodes.KEY_YEN, 0x89);
  (ecodes.KEY_RO, 0x87)
].

Definition JIS_ALIASES : list (string * Z) :=
  [ ("KEY_ZENKAKUHANKAKU"%string, 0x35) ].

(** The loop at the start of [main]:
    [code = getattr(ecodes, name, None)], and the alias is added when [code]
    is an integer that has no entry yet.  [getattr] is the lookup in the
    installed [evdev.ecodes], [None] for a name it does not define. *)
Definition add_aliases (getattr : string → option Z)
    (aliases : list (string * Z)) (table : gmap Z Z) : gmap Z Z :=
  fold_left (λ table alias,
               match getattr alias.1 with
               | Some code =>
                   match table !! code with
                   | None => <[code := alias.2]> table
                   | Some _ => table
                   end
               | None => table
               end) aliases table.
(** [write_report(hidfd, build_report(mod_mask, pressed_usages))];
    [build_report] is [build_keyboard_report] under its earlier name. *)
Definition send_report (mod_mask : Z) (pressed_usages : gset Z) : M unit :=
  report ← lift (build_keyboard_report mod_mask pressed_usages);
  Standalone.write_report report.

(** One iteration of the [for e in dev.read_loop()] loop of [main], which
    looks keys up in the global [KEY_TO_HID] as the alias loop left it,
    [table] (the debug output of [--show] is left out). *)
Definition keyboard_event (table : gmap Z Z) (e : input_event)
    (st : KeyboardState) : M KeyboardState :=
  if negb (type e =? ecodes.EV_KEY) then mret st
  else
    let is_down := value e =? 1 in
    let is_up := value e =? 0 in
    let is_repeat := value e =? 2 in
    if is_repeat then mret st
    else
      match MODIFIER_KEYS !! code e with
      | Some bit =>
          let mod_mask' :=
            if is_down then Z.lor (mod_mask st) bit
            else if is_up then Z.land (mod_mask st) (Z.land (Z.lnot bit) 0xFF)
            else mod_mask st in
          send_report mod_mask' (pressed_usages st);;
          mret {| pressed_keys := pressed_keys st;
                  pressed_usages := pressed_usages st;
                  mod_mask := mod_mask' |}
      | None =>
          match table !! code e with
          | None => mret st
          | Some hid_usage =>
              let st' :=
                if is_down then
                  {| pressed_keys := pressed_keys st ∪ {[code e]};
                     pressed_usages := pressed_usages st ∪ {[hid_usage]};
                     mod_mask := mod_mask st |}
                else if is_up then
                  {| pressed_keys := pressed_keys st ∖ {[code e]};
                     pressed_usages := pressed_usages st ∖ {[hid_usage]};
                     mod_mask := mod_mask st |}
                else st in
              send_report (mod_mask st') (pressed_usages st');;
              mret st'
          end
      end.

Fixpoint keyboard_loop (table : gmap Z Z) (items : list read_item)
    (st : KeyboardState) : M KeyboardState :=
  match items with
  | [] => mret st
  | Raises x :: _ => raise x
  | Yields e :: items =>
      st' ← keyboard_event table e st;
      keyboard_loop table items st'
  end.

(** [main]: the alias loop, then [acquire] for the other lines before the
    first report (opening and grabbing the device, opening the gadget node),
    which may raise; closing the gadget node and the [ungrab] in the
    [finally] block come after the last write, have their errors swallowed
    and do not touch the endpoint.  The result is the exit status. *)
Definition main (getattr : string → option Z) (acquire : result unit)
    (items : list read_item) : M Z :=
  let table := add_aliases getattr JIS_ALIASES KEY_TO_HID in
  lift acquire;;
  send_report 0 ∅;;
  try_finally
    (try_except
       (keyboard_loop table items all_released;; mret ())
       (λ x, match x with KeyboardInterrupt => true | _ => false end)
       (mret ()))
    (try_except (send_report 0 ∅) is_Exception (mret ()));;
  mret 0.
End StandaloneKeyboard.

(** An [evdev.ecodes] that defines [KEY_ZENKAKUHANKAKU], and one that does
    not define it. *)
Definition ecodes_getattr (name : string) : option Z :=
  if bool_decide (name = "KEY_ZENKAKUHANKAKU"%string)
  then Some ecodes.KEY_ZENKAKUHANKAKU else None.

Definition old_ecodes_getattr (name : string) : option Z := None.

(** The exit status of the stand-alone keyboard bridge that corresponds to
    an outcome of [run_keyboard_bridge]. *)
Definition exit_status (r : result unit) : result Z :=
  match r with
  | Ok _ => Ok 0
  | Raise x => Raise x
  end.

(** An item of a device stream that does not concern the key [k]. *)
Definition spares (k : Z) (it : read_item) : Prop :=
  match it with
  | Yields e => code e ≠ k
  | Raises _ => True
  end.

(** * Part II: properties *)

(** ** Report codec *)

Example build_keyboard_report_ex :
  build_keyboard_report 2 {[ 9; 4; 30; 7; 5; 200; 6; 8 ]}
  = Ok [2; 0; 4; 5; 6; 7; 8; 9].
Proof. vm_compute. reflexivity. Qed.

Example build_mouse_report_ex :
  build_mouse_report 1 5 (-3) 1000 = Ok [1; 5; 253; 127].
Proof. vm_compute. reflexivity. Qed.

Example MODIFIER_KEYS_ex : MODIFIER_KEYS !! ecodes.KEY_LEFTSHIFT = Some 2.
Proof. vm_compute. reflexivity. Qed.

Example KEY_TO_HID_ex : KEY_TO_HID !! ecodes.KEY_A = Some 4.
Proof. vm_compute. reflexivity. Qed.

(** ** Facts about [sorted] *)

Section sorted_facts.
Implicit Types (s : gset Z) (l : list Z) (x : Z).

Lemma sorted_perm s : sorted s ≡ₚ elements s.
Proof. apply merge_sort_Permutation. Qed.

Lemma sorted_NoDup s : NoDup (sorted s).
Proof. rewrite sorted_perm. apply NoDup_elements. Qed.

Lemma sorted_elem s x : x ∈ sorted s ↔ x ∈ s.
Proof. rewrite sorted_perm. apply elem_of_elements. Qed.

Lemma sorted_length s : length (sorted s) = size s.
Proof. unfold size, set_size. simpl. by rewrite sorted_perm. Qed.

Lemma le_NoDup_strict l :
  StronglySorted Z.le l → NoDup l → StronglySorted Z.lt l.
Proof.
  induction 1 as [|a l Hl IH Ha]; intros Hnd; [constructor|].
  apply NoDup_cons in Hnd as [Hnotin Hnd].
  constructor; [auto|].
  rewrite Forall_forall in Ha |- *. intros y Hy.
  specialize (Ha y Hy).
  assert (a ≠ y) by (intros ->; done).
  lia.
Qed.

Lemma sorted_strict s : StronglySorted Z.lt (sorted s).
Proof.
  apply le_NoDup_strict; [|apply sorted_NoDup].
  apply StronglySorted_merge_sort; apply _.
Qed.

(** In a strictly ascending list, an element is among the first [n] iff
    fewer than [n] elements of the list are smaller. *)
Lemma take_strict l n x :
  StronglySorted Z.lt l →
  x ∈ take n l ↔ x ∈ l ∧ (length (filter (λ y, (y < x)%Z) l) < n)%nat.
Proof.
  intros Hl. revert n.
  induction Hl as [|a l Hl IH Ha]; intros n.
  { rewrite take_nil. split; [by intros ?%elem_of_nil | by intros [?%elem_of_nil _]]. }
  rewrite Forall_forall in Ha.
  destruct n as [|n]; simpl.
  { split; [by intros ?%elem_of_nil | intros [_ ?]; lia]. }
  rewrite !elem_of_cons, IH.
  destruct (decide (x = a)) as [->|Hne].
  - rewrite filter_cons_False by lia.
    assert (filter (λ y, y < a) l = []) as ->.
    { destruct (filter (λ y, y < a) l) as [|y k] eqn:Hf; [done|].
      assert (y ∈ filter (λ y, y < a) l) as Hy by (rewrite Hf; left).
      apply list_elem_of_filter in Hy as [Hlt Hy].
      specialize (Ha y Hy). lia. }
    simpl. split; [intros _; split; [by left | lia] | intros _; by left].
  - split.
    + intros [?|[Hin Hlen]]; [done|].
      split; [by right|].
      rewrite filter_cons_True by (specialize (Ha x Hin); lia).
      simpl. lia.
    + intros [[?|Hin] Hlen]; [done|]. right. split; [done|].
      rewrite filter_cons_True in Hlen by (specialize (Ha x Hin); lia).
      simpl in Hlen. lia.
Qed.
End sorted_facts.

Lemma rank_sorted (s : gset Z) (x : Z) :
  rank s x = length (filter (λ y, y < x) (sorted s)).
Proof.
  unfold rank, filter at 1, set_filter.
  rewrite size_list_to_set by apply NoDup_filter, NoDup_elements.
  by rewrite sorted_perm.
Qed.

Lemma bytes_Ok (l : list Z) :
  Forall (λ b, 0 ≤ b ≤ 255) l → bytes l = Ok l.
Proof.
  intros Hl. unfold bytes.
  assert (forallb (λ b, (0 <=? b) && (b <? 256)) l = true) as ->; [|done].
  apply forallb_forall. intros b Hb%list_elem_of_In.
  rewrite Forall_forall in Hl. specialize (Hl b Hb).
  apply andb_true_iff. split; [apply Z.leb_le | apply Z.ltb_lt]; lia.
Qed.

Lemma bytes_inv (l r : list Z) :
  bytes l = Ok r → r = l ∧ Forall (λ b, 0 ≤ b ≤ 255) l.
Proof.
  unfold bytes. destruct (forallb _ l) eqn:Hall; [|done].
  intros [= <-]. split; [done|].
  apply Forall_forall. intros b Hb%list_elem_of_In.
  rewrite forallb_forall in Hall. specialize (Hall b Hb).
  apply andb_true_iff in Hall as [?%Z.leb_le ?%Z.ltb_lt]. lia.
Qed.

Lemma add_all_elem (l : list Z) (x : Z) : x ∈ add_all l ↔ x ∈ l.
Proof.
  unfold add_all.
  assert (∀ s : gset Z, x ∈ fold_left (λ s u, s ∪ {[u]}) l s ↔ x ∈ s ∨ x ∈ l) as H.
  { induction l as [|a l IH]; intros s; simpl.
    - rewrite elem_of_nil. tauto.
    - rewrite IH, elem_of_union, elem_of_singleton, elem_of_cons. tauto. }
  rewrite H, elem_of_empty. tauto.
Qed.

Lemma add_all_perm (l1 l2 : list Z) : l1 ≡ₚ l2 → add_all l1 = add_all l2.
Proof.
  intros Hp. apply set_eq. intros x. rewrite !add_all_elem. by rewrite Hp.
Qed.

Lemma land_255 (m : Z) : Z.land m 0xFF = m `mod` 256.
Proof. change 0xFF with (Z.ones 8). by rewrite Z.land_ones by lia. Qed.

Lemma land_255_small (m : Z) : 0 ≤ m ≤ 255 → Z.land m 0xFF = m.
Proof. intros. rewrite land_255. apply Z.mod_small. lia. Qed.

Lemma land_255_range (m : Z) : 0 ≤ Z.land m 0xFF ≤ 255.
Proof. rewrite land_255. pose proof (Z.mod_pos_bound m 256). lia. Qed.

Lemma build_keyboard_report_Ok (m : Z) (S : gset Z) :
  (∀ u, u ∈ S → 0 ≤ u ≤ 255) →
  build_keyboard_report m S
  = Ok (Z.land m 0xFF :: 0 :: pad6 (take 6 (sorted S))).
Proof.
  intros HS. unfold build_keyboard_report. simpl.
  apply bytes_Ok.
  constructor; [apply land_255_range|].
  constructor; [lia|].
  unfold pad6. apply Forall_app. split.
  - apply Forall_forall. intros u Hu.
    apply HS, sorted_elem. apply elem_of_take in Hu as (i & Hi & _).
    apply list_elem_of_lookup. eauto.
  - apply Forall_replicate. lia.
Qed.

(** C1. For a modifier mask [m] in [0,255] and a set [S] of usages in
    [1..255], [build_keyboard_report m S] is the eight bytes [m], [0], then
    the keys, then zero padding; the keys are min(|S|, 6) in number, strictly
    ascending, and a usage is among them exactly when it belongs to [S] and
    fewer than six members of [S] are smaller (so for |S| > 6 the six lowest
    appear and every other one is absent).  The report depends on the
    membership of the set only, not on the order (or repetition) of the
    insertions that built it. *)
Theorem build_keyboard_report_spec (m : Z) (S : gset Z) :
  0 ≤ m ≤ 255 →
  (∀ u, u ∈ S → 1 ≤ u ≤ 255) →
  ∃ keys : list Z,
    build_keyboard_report m S
      = Ok (m :: 0 :: keys ++ replicate (6 - length keys) 0)
    ∧ length (m :: 0 :: keys ++ replicate (6 - length keys) 0) = 8%nat
    ∧ length keys = (6 `min` size S)%nat
    ∧ StronglySorted Z.lt keys
    ∧ (∀ u, u ∈ keys ↔ u ∈ S ∧ (rank S u < 6)%nat)
    ∧ (∀ l : list Z, (∀ u, u ∈ l ↔ u ∈ S) →
         build_keyboard_report m (add_all l) = build_keyboard_report m S).
Proof.
  intros Hm HS. exists (take 6 (sorted S)).
  assert (length (take 6 (sorted S)) = (6 `min` size S)%nat) as Hlen
    by (by rewrite length_take, sorted_length).
  split; [|split; [|split; [|split; [|split]]]].
  - rewrite build_keyboard_report_Ok by (intros u Hu; specialize (HS u Hu); lia).
    by rewrite land_255_small.
  - simpl. rewrite length_app, length_replicate, Hlen. lia.
  - done.
  - pose proof (sorted_strict S) as Hs.
    rewrite <- (take_drop 6 (sorted S)) in Hs.
    by apply StronglySorted_app_1_l in Hs.
  - intros u. rewrite take_strict by apply sorted_strict.
    by rewrite sorted_elem, rank_sorted.
  - intros l Hl. f_equal. apply set_eq. intros u.
    by rewrite add_all_elem.
Qed.

Lemma build_keyboard_report_spec_witness :
  ∃ keys : list Z,
    build_keyboard_report 2 eight_usages
      = Ok (2 :: 0 :: keys ++ replicate (6 - length keys) 0)
    ∧ length (2 :: 0 :: keys ++ replicate (6 - length keys) 0) = 8%nat
    ∧ length keys = (6 `min` size eight_usages)%nat
    ∧ StronglySorted Z.lt keys
    ∧ (∀ u, u ∈ keys ↔ u ∈ eight_usages ∧ (rank eight_usages u < 6)%nat)
    ∧ (∀ l : list Z, (∀ u, u ∈ l ↔ u ∈ eight_usages) →
         build_keyboard_report 2 (add_all l)
         = build_keyboard_report 2 eight_usages).
Proof.
  apply (build_keyboard_report_spec 2 eight_usages).
  - lia.
  - intros u Hu. unfold eight_usages in Hu.
    repeat (apply elem_of_union in Hu as [Hu|Hu]);
      apply elem_of_singleton in Hu; subst u; lia.
Defined.

Example build_keyboard_report_eight :
  build_keyboard_report 2 eight_usages = Ok [2; 0; 4; 5; 6; 7; 8; 9]
  ∧ build_keyboard_report 2 (add_all [200; 30; 9; 8; 7; 6; 5; 4])
    = Ok [2; 0; 4; 5; 6; 7; 8; 9].
Proof. split; vm_compute; reflexivity. Qed.

(** ** Mouse report *)

Lemma clamp_range (v : Z) : -127 ≤ clamp v (-127) 127 ≤ 127.
Proof. unfold clamp. lia. Qed.

Lemma clamp_saturate (v : Z) : clamp v (-127) 127 = saturate v.
Proof.
  unfold clamp, saturate.
  destruct (Z.ltb_spec v (-127)), (Z.ltb_spec 127 v); lia.
Qed.

Lemma signed_byte_range (c : Z) : 0 ≤ signed_byte c ≤ 255.
Proof. unfold signed_byte. destruct (c <? 0); apply land_255_range. Qed.

Lemma decode_signed_byte (c : Z) :
  -128 ≤ c ≤ 127 → decode_signed (signed_byte c) = c.
Proof.
  intros Hc. unfold signed_byte, decode_signed.
  destruct (Z.ltb_spec c 0).
  - rewrite land_255_small by lia.
    destruct (Z.leb_spec 128 (256 + c)); lia.
  - rewrite land_255_small by lia.
    destruct (Z.leb_spec 128 c); lia.
Qed.

Lemma build_mouse_report_Ok (buttons dx dy wheel : Z) :
  build_mouse_report buttons dx dy wheel
  = Ok [ Z.land buttons 0xFF;
         signed_byte (clamp dx (-127) 127);
         signed_byte (clamp dy (-127) 127);
         signed_byte (clamp wheel (-127) 127) ].
Proof.
  unfold build_mouse_report. apply bytes_Ok.
  repeat constructor;
    try apply land_255_range; try apply signed_byte_range;
    pose proof (signed_byte_range (clamp dx (-127) 127));
    pose proof (signed_byte_range (clamp dy (-127) 127));
    pose proof (signed_byte_range (clamp wheel (-127) 127));
    pose proof (land_255_range buttons); lia.
Qed.

Lemma signed_byte_mod (v : Z) : signed_byte v = v `mod` 256.
Proof.
  unfold signed_byte. destruct (v <? 0); rewrite land_255; [|done].
  rewrite Z.add_comm. change 256 with (1 * 256) at 1.
  by rewrite Z.mod_add.
Qed.

(** C2. For buttons in [0,7] and motions in [-1000,1000],
    [build_mouse_report] returns four bytes, each in [0,255]; byte 0 is
    [buttons] and each motion byte is the two's-complement encoding of
    [clamp v (-127) 127]: it is that value modulo 256 and, read back as a
    signed byte, it is that value.  The clamp saturates at -127 and 127 and
    never wraps. *)
Theorem build_mouse_report_spec (buttons dx dy wheel : Z) :
  0 ≤ buttons ≤ 7 →
  -1000 ≤ dx ≤ 1000 → -1000 ≤ dy ≤ 1000 → -1000 ≤ wheel ≤ 1000 →
  ∃ bx by_ bw : Z,
    build_mouse_report buttons dx dy wheel = Ok [buttons; bx; by_; bw]
    ∧ length [buttons; bx; by_; bw] = 4%nat
    ∧ Forall (λ b, 0 ≤ b ≤ 255) [buttons; bx; by_; bw]
    ∧ bx = clamp dx (-127) 127 `mod` 256
    ∧ by_ = clamp dy (-127) 127 `mod` 256
    ∧ bw = clamp wheel (-127) 127 `mod` 256
    ∧ decode_signed bx = clamp dx (-127) 127
    ∧ decode_signed by_ = clamp dy (-127) 127
    ∧ decode_signed bw = clamp wheel (-127) 127
    ∧ clamp dx (-127) 127 = saturate dx
    ∧ clamp dy (-127) 127 = saturate dy
    ∧ clamp wheel (-127) 127 = saturate wheel.
Proof.
  intros Hb _ _ _.
  exists (signed_byte (clamp dx (-127) 127)),
         (signed_byte (clamp dy (-127) 127)),
         (signed_byte (clamp wheel (-127) 127)).
  rewrite build_mouse_report_Ok, land_255_small by lia.
  pose proof (clamp_range dx). pose proof (clamp_range dy).
  pose proof (clamp_range wheel).
  rewrite !decode_signed_byte by lia.
  rewrite !clamp_saturate.
  split; [done|]. split; [done|]. split.
  { repeat constructor; try apply signed_byte_range; lia. }
  rewrite <- !clamp_saturate, !signed_byte_mod. repeat split.
Qed.

Lemma build_mouse_report_spec_witness :
  ∃ bx by_ bw : Z,
    build_mouse_report 5 300 (-3) (-1000) = Ok [5; bx; by_; bw]
    ∧ length [5; bx; by_; bw] = 4%nat
    ∧ Forall (λ b, 0 ≤ b ≤ 255) [5; bx; by_; bw]
    ∧ bx = clamp 300 (-127) 127 `mod` 256
    ∧ by_ = clamp (-3) (-127) 127 `mod` 256
    ∧ bw = clamp (-1000) (-127) 127 `mod` 256
    ∧ decode_signed bx = clamp 300 (-127) 127
    ∧ decode_signed by_ = clamp (-3) (-127) 127
    ∧ decode_signed bw = clamp (-1000) (-127) 127
    ∧ clamp 300 (-127) 127 = saturate 300
    ∧ clamp (-3) (-127) 127 = saturate (-3)
    ∧ clamp (-1000) (-127) 127 = saturate (-1000).
Proof. apply (build_mouse_report_spec 5 300 (-3) (-1000)); lia. Defined.

Example build_mouse_report_saturates :
  build_mouse_report 5 300 (-3) (-1000) = Ok [5; 127; 253; 129]
  ∧ decode_signed 127 = 127 ∧ decode_signed 253 = -3 ∧ decode_signed 129 = -127.
Proof. repeat split. Qed.

(** ** Endpoint writer *)

Section write_loop_facts.
Implicit Types (script rest : list (option exn)) (rc n k : nat).


Lemma write_loop_disconnected_step rest rc :
  write_loop (disconnected :: rest) rc
  = if (max_retries <=? S rc)%nat
    then (Raise (BrokenPipeError errno.EPIPE), [], rest)
    else let '(r, sl, rest') := write_loop rest (S rc) in
         (r, 100 :: sl, rest').
Proof. reflexivity. Qed.




End write_loop_facts.









(** The specification's scenario: three not-ready failures, then success. *)
Example write_report_three_not_ready :
  write_report [2; 0; 4; 0; 0; 0; 0; 0]
    (fresh_endpoint [not_ready; not_ready; not_ready; None])
  = (Ok (), Endpoint [] [([2; 0; 4; 0; 0; 0; 0; 0], Ok ())] [10; 10; 10]).
Proof. reflexivity. Qed.

(** The stand-alone writer shares the not-ready policy but hands a broken
    pipe to its caller at once. *)
Lemma standalone_write_report (report : list Z)
    (cs : list (list Z * result unit)) (sl0 : list Z)
    (rest : list (option exn)) :
  (∀ n : nat,
     Standalone.write_report report
       (Endpoint (replicate n not_ready ++ None :: rest) cs sl0)
     = (Ok (), Endpoint rest (cs ++ [(report, Ok ())]) (sl0 ++ replicate n 10)))
  ∧ Standalone.write_report report (Endpoint (disconnected :: rest) cs sl0)
    = (Raise (BrokenPipeError errno.EPIPE),
       Endpoint rest (cs ++ [(report, Raise (BrokenPipeError errno.EPIPE))])
                (sl0 ++ [])).
Proof.
  split; [|done].
  intros n. unfold Standalone.write_report. cbn [pending calls slept].
  assert (Standalone.write_loop (replicate n not_ready ++ None :: rest)
          = (Ok (), replicate n 10, rest)) as ->; [|done].
  induction n as [|n IH]; simpl; [done|]. by rewrite IH.
Qed.

(** ** Keyboard translator *)

Example run_keyboard_bridge_ex :
  delivered (run_keyboard_bridge (Ok ())
               [Yields (Down ecodes.KEY_LEFTSHIFT); Yields (Down ecodes.KEY_A);
                Raises KeyboardInterrupt]
               (fresh_endpoint [])).2
  = [ [0; 0; 0; 0; 0; 0; 0; 0]; [2; 0; 0; 0; 0; 0; 0; 0];
      [2; 0; 4; 0; 0; 0; 0; 0]; [0; 0; 0; 0; 0; 0; 0; 0] ].
Proof. vm_compute. reflexivity. Qed.

(** *** The state reached by one event *)

Lemma bind_run {S A B : Type} (m : ST S A) (f : A → ST S B) (s : S) :
  (m ≫= f) s
  = match m s with
    | (Ok a, s') => f a s'
    | (Raise x, s') => (Raise x, s')
    end.
Proof. reflexivity. Qed.

(** An iteration either leaves everything as it is, or builds the report of
    the next state and writes it. *)
Lemma keyboard_event_run (e : input_event) (st : KeyboardState) :
  keyboard_event e st
  = if reports e
    then send_keyboard_report (mod_mask (next_state e st))
                              (pressed_usages (next_state e st));;
         mret (next_state e st)
    else mret st.
Proof.
  unfold keyboard_event, next_state, reports.
  destruct (type e =? ecodes.EV_KEY); [|done]. cbn [negb andb].
  destruct (value e =? 2); [done|]. cbn [negb andb].
  destruct (MODIFIER_KEYS !! code e) as [bit|] eqn:Hmod.
  { rewrite bool_decide_true by eauto. cbn [orb].
    destruct (value e =? 1); [done|]. by destruct (value e =? 0). }
  rewrite bool_decide_false by (by intros [? ?]). cbn [orb].
  destruct (KEY_TO_HID !! code e) as [u|] eqn:Hkey.
  - rewrite bool_decide_true by eauto.
    destruct (value e =? 1); [done|]. by destruct (value e =? 0).
  - by rewrite bool_decide_false by (by intros [? ?]).
Qed.

Lemma next_state_silent (e : input_event) (st : KeyboardState) :
  reports e = false → next_state e st = st.
Proof.
  unfold next_state, reports. intros Hr.
  destruct (type e =? ecodes.EV_KEY); [|done].
  destruct (value e =? 2); [done|]. cbn [negb andb] in Hr.
  apply orb_false_iff in Hr as [H1 H2].
  destruct (MODIFIER_KEYS !! code e) eqn:Hmod.
  { by rewrite bool_decide_true in H1 by eauto. }
  destruct (KEY_TO_HID !! code e) eqn:Hkey; [|done].
  by rewrite bool_decide_true in H2 by eauto.
Qed.

Lemma keyboard_event_Ok_state (e : input_event) (st st' : KeyboardState)
    (ep ep' : endpoint) :
  keyboard_event e st ep = (Ok st', ep') → st' = next_state e st.
Proof.
  rewrite keyboard_event_run. destruct (reports e) eqn:Hr.
  - rewrite bind_run.
    destruct (send_keyboard_report _ _ ep) as [[[]|x] ep1]; [|done].
    by intros [= <- _].
  - intros [= <- _]. by rewrite next_state_silent.
Qed.

(** C9. A key code that is in neither table: whatever the event value
    (down, up or anything else), the iteration returns the state it was
    given, leaves the endpoint untouched (no report is built or written, no
    sleep) and does not raise; the loop goes on with the rest of the
    stream. *)
Theorem unknown_key_ignored (c v : Z) (st : KeyboardState) (ep : endpoint)
    (items : list read_item) :
  MODIFIER_KEYS !! c = None →
  KEY_TO_HID !! c = None →
  keyboard_event (InputEvent ecodes.EV_KEY c v) st ep = (Ok st, ep)
  ∧ keyboard_event (Down c) st ep = (Ok st, ep)
  ∧ keyboard_event (Up c) st ep = (Ok st, ep)
  ∧ keyboard_loop (Yields (Down c) :: Yields (Up c) :: items) st ep
    = keyboard_loop items st ep.
Proof.
  intros Hmod Hkey.
  assert (∀ v', keyboard_event (InputEvent ecodes.EV_KEY c v') st ep
                = (Ok st, ep)) as H.
  { intros v'. unfold keyboard_event. cbn [type code value].
    rewrite Hmod, Hkey. cbn. destruct (v' =? 2); reflexivity. }
  repeat split; try apply H.
  cbn [keyboard_loop]. unfold Down, Up.
  rewrite bind_run, H, bind_run, H. reflexivity.
Qed.

Lemma unknown_key_ignored_witness :
  keyboard_event (InputEvent ecodes.EV_KEY ecodes.KEY_MUTE 1) all_released
    (fresh_endpoint [])
  = (Ok all_released, fresh_endpoint [])
  ∧ keyboard_event (Down ecodes.KEY_MUTE) all_released (fresh_endpoint [])
    = (Ok all_released, fresh_endpoint [])
  ∧ keyboard_event (Up ecodes.KEY_MUTE) all_released (fresh_endpoint [])
    = (Ok all_released, fresh_endpoint [])
  ∧ keyboard_loop
      [Yields (Down ecodes.KEY_MUTE); Yields (Up ecodes.KEY_MUTE);
       Yields (Down ecodes.KEY_A)]
      all_released (fresh_endpoint [])
    = keyboard_loop [Yields (Down ecodes.KEY_A)] all_released
        (fresh_endpoint []).
Proof.
  apply (unknown_key_ignored ecodes.KEY_MUTE 1 all_released (fresh_endpoint [])
           [Yields (Down ecodes.KEY_A)]);
    vm_compute; reflexivity.
Defined.

(** An auto-repeat event changes nothing and writes nothing, whatever the
    key. *)
Lemma repeat_ignored (c : Z) (st : KeyboardState) (ep : endpoint) :
  keyboard_event (Repeat c) st ep = (Ok st, ep).
Proof. reflexivity. Qed.

(** *** Reachable states *)

Lemma MODIFIER_KEYS_range :
  map_Forall (λ _ bit, 0 ≤ bit ≤ 255) MODIFIER_KEYS.
Proof. apply (bool_decide_unpack _). vm_compute. exact I. Qed.

Lemma KEY_TO_HID_range :
  map_Forall (λ _ u, 1 ≤ u ≤ 255) KEY_TO_HID.
Proof. apply (bool_decide_unpack _). vm_compute. exact I. Qed.

Lemma lor_byte (a b : Z) : 0 ≤ a ≤ 255 → 0 ≤ b ≤ 255 → 0 ≤ Z.lor a b ≤ 255.
Proof.
  intros Ha Hb.
  rewrite <- (land_255_small a), <- (land_255_small b) by done.
  rewrite <- Z.land_lor_distr_l. apply land_255_range.
Qed.

Lemma land_byte (a b : Z) : 0 ≤ a ≤ 255 → 0 ≤ Z.land a b ≤ 255.
Proof.
  intros Ha. split; [apply Z.land_nonneg; lia|].
  assert (Z.land a b = Z.land (Z.land a b) 0xFF) as ->.
  { rewrite <- Z.land_assoc, (Z.land_comm b), Z.land_assoc.
    by rewrite land_255_small. }
  apply land_255_range.
Qed.

Lemma next_state_wf (e : input_event) (st : KeyboardState) :
  wf_state st → wf_state (next_state e st).
Proof.
  intros [Hm Hu]. unfold next_state.
  destruct (negb _); [done|]. destruct (value e =? 2); [done|].
  destruct (MODIFIER_KEYS !! code e) as [bit|] eqn:Hmod.
  { pose proof (MODIFIER_KEYS_range _ _ Hmod) as Hbit. cbn in Hbit.
    split; [|done]. cbn [mod_mask].
    destruct (value e =? 1); [by apply lor_byte|].
    destruct (value e =? 0); [by apply land_byte|done]. }
  destruct (KEY_TO_HID !! code e) as [u|] eqn:Hkey; [|done].
  pose proof (KEY_TO_HID_range _ _ Hkey) as Hrange. cbn in Hrange.
  destruct (value e =? 1).
  { split; [done|]. cbn [pressed_usages]. intros u' Hu'.
    apply elem_of_union in Hu' as [?|Hx]; [auto|].
    by apply elem_of_singleton in Hx as ->. }
  destruct (value e =? 0); [|done].
  split; [done|]. cbn [pressed_usages]. intros u' Hu'.
  apply elem_of_difference in Hu' as [? _]. auto.
Qed.

Lemma reachable_wf (st : KeyboardState) : reachable st → wf_state st.
Proof.
  induction 1 as [|st st' e ep ep' _ IH Hstep].
  - split; [done|]. intros u Hu. by apply not_elem_of_empty in Hu.
  - apply keyboard_event_Ok_state in Hstep as ->. by apply next_state_wf.
Qed.

(** On an endpoint with no scripted failure left, a report of a well-formed
    state is written at once. *)
Lemma send_keyboard_report_accepted (m : Z) (S : gset Z)
    (cs : list (list Z * result unit)) (sl : list Z) :
  (∀ u, u ∈ S → 1 ≤ u ≤ 255) →
  send_keyboard_report m S (Endpoint [] cs sl)
  = (Ok (),
     Endpoint [] (cs ++ [(Z.land m 0xFF :: 0 :: pad6 (take 6 (sorted S)), Ok ())])
              (sl ++ [])).
Proof.
  intros HS. unfold send_keyboard_report. rewrite bind_run. unfold lift.
  rewrite build_keyboard_report_Ok by (intros u Hu; specialize (HS u Hu); lia).
  reflexivity.
Qed.

Lemma keyboard_event_accepted (e : input_event) (st : KeyboardState)
    (cs : list (list Z * result unit)) (sl : list Z) :
  wf_state st →
  ∃ cs' sl',
    keyboard_event e st (Endpoint [] cs sl)
    = (Ok (next_state e st), Endpoint [] cs' sl').
Proof.
  intros Hwf. rewrite keyboard_event_run.
  destruct (reports e) eqn:Hr.
  - rewrite bind_run.
    destruct (next_state_wf e st Hwf) as [_ Hu].
    rewrite send_keyboard_report_accepted by done. eauto.
  - rewrite next_state_silent by done. by exists cs, sl.
Qed.

(** *** Key down followed by key up *)

Lemma next_state_Down (c : Z) (st : KeyboardState) :
  next_state (Down c) st
  = match MODIFIER_KEYS !! c with
    | Some bit =>
        {| pressed_keys := pressed_keys st;
           pressed_usages := pressed_usages st;
           mod_mask := Z.lor (mod_mask st) bit |}
    | None =>
        match KEY_TO_HID !! c with
        | None => st
        | Some u =>
            {| pressed_keys := pressed_keys st ∪ {[c]};
               pressed_usages := pressed_usages st ∪ {[u]};
               mod_mask := mod_mask st |}
        end
    end.
Proof. reflexivity. Qed.

Lemma next_state_Up (c : Z) (st : KeyboardState) :
  next_state (Up c) st
  = match MODIFIER_KEYS !! c with
    | Some bit =>
        {| pressed_keys := pressed_keys st;
           pressed_usages := pressed_usages st;
           mod_mask := Z.land (mod_mask st) (Z.land (Z.lnot bit) 0xFF) |}
    | None =>
        match KEY_TO_HID !! c with
        | None => st
        | Some u =>
            {| pressed_keys := pressed_keys st ∖ {[c]};
               pressed_usages := pressed_usages st ∖ {[u]};
               mod_mask := mod_mask st |}
        end
    end.
Proof. reflexivity. Qed.

(** Setting a bit that was clear and clearing it again gives the mask back. *)
Lemma clear_after_set (m b : Z) :
  0 ≤ m ≤ 255 → Z.land m b = 0 →
  Z.land (Z.lor m b) (Z.land (Z.lnot b) 0xFF) = m.
Proof.
  intros Hm Hb. apply Z.bits_inj'. intros n Hn.
  rewrite !Z.land_spec, Z.lor_spec, Z.lnot_spec by done.
  assert (Z.testbit m n && Z.testbit b n = false) as Hmb
    by (by rewrite <- Z.land_spec, Hb, Z.bits_0).
  assert (Z.testbit m n = true → Z.testbit 0xFF n = true) as Hhi.
  { intros Hbit. destruct (decide (n < 8)) as [Hlt|Hge].
    - change 0xFF with (Z.ones 8). apply Z.ones_spec_low. lia.
    - rewrite <- (Z.mod_small m (2 ^ 8)) in Hbit by lia.
      rewrite Z.mod_pow2_bits_high in Hbit by lia. done. }
  destruct (Z.testbit m n), (Z.testbit b n); cbn in *; try done.
  by rewrite Hhi.
Qed.

(** C7, as stated, fails: with left shift held, a second down and an up of
    left shift leave the mask at 0 instead of 2; with Compose held, a down
    and an up of Menu (another key with usage 0x65) drop usage 0x65. *)
Lemma round_trip_counterexample :
  (reachable shift_held ∧ ¬ round_trip shift_held ecodes.KEY_LEFTSHIFT)
  ∧ (reachable compose_held ∧ ¬ round_trip compose_held ecodes.KEY_MENU).
Proof.
  split; split.
  - apply (reachable_step all_released shift_held (Down ecodes.KEY_LEFTSHIFT)
             (fresh_endpoint [])
             (keyboard_event (Down ecodes.KEY_LEFTSHIFT) all_released
                (fresh_endpoint [])).2);
      [constructor | vm_compute; reflexivity].
  - intros H.
    destruct (H (fresh_endpoint [])
                (next_state (Down ecodes.KEY_LEFTSHIFT) shift_held)
                (keyboard_event (Down ecodes.KEY_LEFTSHIFT) shift_held
                   (fresh_endpoint [])).2
                (next_state (Up ecodes.KEY_LEFTSHIFT)
                   (next_state (Down ecodes.KEY_LEFTSHIFT) shift_held))
                (keyboard_event (Up ecodes.KEY_LEFTSHIFT)
                   (next_state (Down ecodes.KEY_LEFTSHIFT) shift_held)
                   (keyboard_event (Down ecodes.KEY_LEFTSHIFT) shift_held
                      (fresh_endpoint [])).2).2) as [Hmask _];
      [vm_compute; reflexivity | vm_compute; reflexivity |].
    vm_compute in Hmask. discriminate Hmask.
  - apply (reachable_step all_released compose_held (Down ecodes.KEY_COMPOSE)
             (fresh_endpoint [])
             (keyboard_event (Down ecodes.KEY_COMPOSE) all_released
                (fresh_endpoint [])).2);
      [constructor | vm_compute; reflexivity].
  - intros H.
    destruct (H (fresh_endpoint [])
                (next_state (Down ecodes.KEY_MENU) compose_held)
                (keyboard_event (Down ecodes.KEY_MENU) compose_held
                   (fresh_endpoint [])).2
                (next_state (Up ecodes.KEY_MENU)
                   (next_state (Down ecodes.KEY_MENU) compose_held))
                (keyboard_event (Up ecodes.KEY_MENU)
                   (next_state (Down ecodes.KEY_MENU) compose_held)
                   (keyboard_event (Down ecodes.KEY_MENU) compose_held
                      (fresh_endpoint [])).2).2) as [_ Hset];
      [vm_compute; reflexivity | vm_compute; reflexivity |].
    assert (pressed_usages
              (next_state (Up ecodes.KEY_MENU)
                 (next_state (Down ecodes.KEY_MENU) compose_held)) = ∅)
      as Hempty by (vm_compute; reflexivity).
    rewrite Hempty in Hset.
    apply (not_elem_of_empty (C:=gset Z) 0x65).
    rewrite Hset. unfold compose_held. cbn [pressed_usages].
    by apply elem_of_singleton_2.
Qed.

Lemma round_trip_next_state (st : KeyboardState) (c : Z) :
  wf_state st → key_idle st c →
  mod_mask (next_state (Up c) (next_state (Down c) st)) = mod_mask st
  ∧ pressed_usages (next_state (Up c) (next_state (Down c) st))
    = pressed_usages st.
Proof.
  intros [Hm _] Hidle. unfold key_idle in Hidle.
  rewrite next_state_Up, next_state_Down.
  destruct (MODIFIER_KEYS !! c) as [bit|] eqn:Hmod.
  { cbn [mod_mask pressed_usages]. split; [|done].
    by apply clear_after_set. }
  destruct (KEY_TO_HID !! c) as [u|] eqn:Hkey; [|done].
  cbn [mod_mask pressed_usages]. split; [done|].
  apply set_eq. intros x.
  rewrite elem_of_difference, elem_of_union, elem_of_singleton.
  split; [intros [[?|?] ?]; done|].
  intros Hx. split; [by left|]. by intros ->.
Qed.

(** C7, amended. From a reachable state in which the key contributes nothing
    (its modifier bit is clear, or its usage is not among the pressed
    usages; a key in neither table qualifies), a down event followed by an
    up event of that key gives back the modifier mask and the pressed
    usages; and on an endpoint that accepts writes both iterations do
    return. *)
Theorem down_up_round_trip (st : KeyboardState) (c : Z) :
  reachable st →
  key_idle st c →
  round_trip st c
  ∧ (∀ (cs : list (list Z * result unit)) (sl : list Z),
       ∃ (st1 : KeyboardState) (ep1 : endpoint)
         (st2 : KeyboardState) (ep2 : endpoint),
         keyboard_event (Down c) st (Endpoint [] cs sl) = (Ok st1, ep1)
         ∧ keyboard_event (Up c) st1 ep1 = (Ok st2, ep2)).
Proof.
  intros Hreach%reachable_wf Hidle. split.
  - intros ep st1 ep1 st2 ep2 H1 H2.
    apply keyboard_event_Ok_state in H1 as ->.
    apply keyboard_event_Ok_state in H2 as ->.
    by apply round_trip_next_state.
  - intros cs sl.
    destruct (keyboard_event_accepted (Down c) st cs sl Hreach)
      as (cs1 & sl1 & H1).
    destruct (keyboard_event_accepted (Up c) (next_state (Down c) st) cs1 sl1
                (next_state_wf _ _ Hreach)) as (cs2 & sl2 & H2).
    eauto 10.
Qed.

(** Left shift is held and the key A goes down and up. *)
Lemma down_up_round_trip_witness :
  round_trip shift_held ecodes.KEY_A
  ∧ (∀ (cs : list (list Z * result unit)) (sl : list Z),
       ∃ (st1 : KeyboardState) (ep1 : endpoint)
         (st2 : KeyboardState) (ep2 : endpoint),
         keyboard_event (Down ecodes.KEY_A) shift_held (Endpoint [] cs sl)
         = (Ok st1, ep1)
         ∧ keyboard_event (Up ecodes.KEY_A) st1 ep1 = (Ok st2, ep2)).
Proof.
  apply (down_up_round_trip shift_held ecodes.KEY_A).
  - apply (reachable_step all_released shift_held (Down ecodes.KEY_LEFTSHIFT)
             (fresh_endpoint [])
             (keyboard_event (Down ecodes.KEY_LEFTSHIFT) all_released
                (fresh_endpoint [])).2);
      [constructor | vm_compute; reflexivity].
  - apply (bool_decide_unpack _). vm_compute. exact I.
Defined.

(** *** The shift-A scenario *)

(** C6, as stated, fails: the reports are not the listed ones, whose first
    three have modifier byte 0x80 or 0x82. *)
Lemma shift_a_counterexample :
  reports_of shift_a_stream
  ≠ [ [0x80; 0; 0; 0; 0; 0; 0; 0]; [0x82; 0; 0x04; 0; 0; 0; 0; 0];
      [0x80; 0; 0; 0; 0; 0; 0; 0]; [0x00; 0; 0; 0; 0; 0; 0; 0] ].
Proof. vm_compute. discriminate. Qed.

(** C6, amended. The stream [Down(LeftShift), Down(A), Up(A), Up(LeftShift)]
    from the all-released state emits exactly four reports,
    [02 00 00 00 00 00 00 00], [02 00 04 00 00 00 00 00],
    [02 00 00 00 00 00 00 00] and [00 00 00 00 00 00 00 00]: modifier byte
    0x02 while shift is held, usage 0x04 for A, one full-state report per
    state-changing event. *)
Theorem shift_a_reports :
  reports_of shift_a_stream
  = [ [0x02; 0; 0; 0; 0; 0; 0; 0]; [0x02; 0; 0x04; 0; 0; 0; 0; 0];
      [0x02; 0; 0; 0; 0; 0; 0; 0]; [0x00; 0; 0; 0; 0; 0; 0; 0] ]
  ∧ length (reports_of shift_a_stream) = 4%nat
  ∧ MODIFIER_KEYS !! ecodes.KEY_LEFTSHIFT = Some 0x02
  ∧ KEY_TO_HID !! ecodes.KEY_A = Some 0x04.
Proof. repeat split; vm_compute; reflexivity. Qed.

(** *** Two keys, one usage *)

Lemma key_slots_elem (S : gset Z) (u : Z) :
  u ∈ pad6 (take 6 (sorted S)) → u ∈ S ∨ u = 0.
Proof.
  unfold pad6. intros [Hu|Hu]%elem_of_app.
  - left. apply sorted_elem. apply elem_of_take in Hu as (i & Hi & _).
    apply list_elem_of_lookup. eauto.
  - right. by apply elem_of_replicate in Hu as [? _].
Qed.

(** C10. [KEY_COMPOSE] and [KEY_MENU] are different key codes with the same
    usage 0x65.  In a reachable state where both are held, the up event of
    either one ([c]) removes usage 0x65 from the pressed usages while the
    other key is still recorded as held, and the report written for that
    event, on an endpoint that accepts it, carries no 0x65 in its key
    slots. *)
Theorem compose_menu_alias :
  ecodes.KEY_COMPOSE ≠ ecodes.KEY_MENU
  ∧ KEY_TO_HID !! ecodes.KEY_COMPOSE = Some 0x65
  ∧ KEY_TO_HID !! ecodes.KEY_MENU = Some 0x65
  ∧ ∀ (st : KeyboardState) (c other : Z),
      reachable st →
      (c = ecodes.KEY_COMPOSE ∧ other = ecodes.KEY_MENU
       ∨ c = ecodes.KEY_MENU ∧ other = ecodes.KEY_COMPOSE) →
      c ∈ pressed_keys st →
      other ∈ pressed_keys st →
      (∀ (ep : endpoint) (st' : KeyboardState) (ep' : endpoint),
         keyboard_event (Up c) st ep = (Ok st', ep') →
         (0x65 ∉ pressed_usages st') ∧ other ∈ pressed_keys st')
      ∧ (∀ (cs : list (list Z * result unit)) (sl : list Z),
           ∃ (st' : KeyboardState) (report : list Z),
             keyboard_event (Up c) st (Endpoint [] cs sl)
             = (Ok st', Endpoint [] (cs ++ [(report, Ok ())]) (sl ++ []))
             ∧ 0x65 ∉ drop 2 report).
Proof.
  split; [done|]. split; [by vm_compute|]. split; [by vm_compute|].
  intros st c other Hreach%reachable_wf Hc Hin Hother.
  assert (MODIFIER_KEYS !! c = None ∧ KEY_TO_HID !! c = Some 0x65 ∧ c ≠ other)
    as (Hmod & Hkey & Hne)
    by (destruct Hc as [[-> ->]|[-> ->]]; repeat split; by vm_compute).
  assert (next_state (Up c) st
          = {| pressed_keys := pressed_keys st ∖ {[c]};
               pressed_usages := pressed_usages st ∖ {[0x65]};
               mod_mask := mod_mask st |}) as Hnext
    by (by rewrite next_state_Up, Hmod, Hkey).
  split.
  - intros ep st' ep' ->%keyboard_event_Ok_state. rewrite Hnext.
    cbn [pressed_usages pressed_keys]. split.
    + rewrite elem_of_difference, elem_of_singleton. by intros [_ ?].
    + apply elem_of_difference. split; [done|].
      rewrite elem_of_singleton. by intros ->.
  - intros cs sl. rewrite keyboard_event_run.
    assert (reports (Up c) = true) as ->.
    { unfold reports. cbn [type code value Up]. rewrite Hkey.
      rewrite (bool_decide_true (is_Some (Some _))) by eauto.
      by rewrite orb_true_r. }
    rewrite bind_run, Hnext. cbn [pressed_usages mod_mask].
    rewrite send_keyboard_report_accepted.
    2:{ intros u [Hu _]%elem_of_difference. by apply Hreach. }
    eexists _, _. split; [reflexivity|].
    cbn [drop]. intros [Hu|?]%key_slots_elem; [|done].
    apply elem_of_difference in Hu as [_ Hu]. by apply Hu, elem_of_singleton.
Qed.

Lemma compose_menu_alias_witness :
  (∀ (ep : endpoint) (st' : KeyboardState) (ep' : endpoint),
     keyboard_event (Up ecodes.KEY_MENU) compose_menu_held ep = (Ok st', ep') →
     (0x65 ∉ pressed_usages st') ∧ ecodes.KEY_COMPOSE ∈ pressed_keys st')
  ∧ (∀ (cs : list (list Z * result unit)) (sl : list Z),
       ∃ (st' : KeyboardState) (report : list Z),
         keyboard_event (Up ecodes.KEY_MENU) compose_menu_held
           (Endpoint [] cs sl)
         = (Ok st', Endpoint [] (cs ++ [(report, Ok ())]) (sl ++ []))
         ∧ 0x65 ∉ drop 2 report).
Proof.
  destruct compose_menu_alias as (_ & _ & _ & H).
  apply (H compose_menu_held ecodes.KEY_MENU ecodes.KEY_COMPOSE).
  - apply (reachable_step compose_held compose_menu_held
             (Down ecodes.KEY_MENU) (fresh_endpoint [])
             (keyboard_event (Down ecodes.KEY_MENU) compose_held
                (fresh_endpoint [])).2);
      [|vm_compute; reflexivity].
    apply (reachable_step all_released compose_held (Down ecodes.KEY_COMPOSE)
             (fresh_endpoint [])
             (keyboard_event (Down ecodes.KEY_COMPOSE) all_released
                (fresh_endpoint [])).2);
      [constructor | vm_compute; reflexivity].
  - right. split; reflexivity.
  - apply (bool_decide_unpack _). vm_compute. exact I.
  - apply (bool_decide_unpack _). vm_compute. exact I.
Defined.

Example compose_menu_reports :
  reports_of [ Down ecodes.KEY_COMPOSE; Down ecodes.KEY_MENU;
               Up ecodes.KEY_MENU ]
  = [ [0; 0; 0x65; 0; 0; 0; 0; 0]; [0; 0; 0x65; 0; 0; 0; 0; 0];
      [0; 0; 0; 0; 0; 0; 0; 0] ].
Proof. vm_compute. reflexivity. Qed.

(** *** Leaving the keyboard bridge *)

Lemma write_report_calls (report : list Z) (ep : endpoint) :
  calls (write_report report ep).2
  = calls ep ++ [(report, (write_report report ep).1)].
Proof.
  unfold write_report. by destruct (write_loop (pending ep) 0) as [[r sl] rest].
Qed.

Lemma send_released_run (ep : endpoint) :
  send_keyboard_report 0 ∅ ep = write_report released_report ep.
Proof. reflexivity. Qed.

Lemma send_keyboard_report_calls (m : Z) (S : gset Z) (ep : endpoint) :
  ∃ cs, calls (send_keyboard_report m S ep).2 = calls ep ++ cs.
Proof.
  unfold send_keyboard_report. rewrite bind_run. unfold lift.
  destruct (build_keyboard_report m S) as [report|x].
  - rewrite write_report_calls. eauto.
  - exists []. by rewrite app_nil_r.
Qed.

Lemma keyboard_event_calls (e : input_event) (st : KeyboardState)
    (ep : endpoint) :
  ∃ cs, calls (keyboard_event e st ep).2 = calls ep ++ cs.
Proof.
  rewrite keyboard_event_run. destruct (reports e).
  - rewrite bind_run.
    destruct (send_keyboard_report_calls (mod_mask (next_state e st))
                (pressed_usages (next_state e st)) ep) as [cs Hcs].
    destruct (send_keyboard_report _ _ ep) as [[[]|x] ep1]; eauto.
  - exists []. by rewrite app_nil_r.
Qed.

Lemma keyboard_loop_calls (items : list read_item) (st : KeyboardState)
    (ep : endpoint) :
  ∃ cs, calls (keyboard_loop items st ep).2 = calls ep ++ cs.
Proof.
  revert st ep. induction items as [|[e|x] items IH]; intros st ep.
  - exists []. by rewrite app_nil_r.
  - cbn [keyboard_loop]. rewrite bind_run.
    destruct (keyboard_event_calls e st ep) as [cs1 H1].
    destruct (keyboard_event e st ep) as [[st1|x] ep1]; [|eauto].
    destruct (IH st1 ep1) as [cs2 H2]. cbn [snd] in H1.
    exists (cs1 ++ cs2). by rewrite H2, H1, app_assoc.
  - exists []. by rewrite app_nil_r.
Qed.

Lemma delivered_snoc (ep : endpoint) (cs : list (list Z * result unit))
    (report : list Z) :
  calls ep = cs ++ [(report, Ok ())] → last (delivered ep) = Some report.
Proof.
  intros H. unfold delivered. rewrite H, omap_app. cbn. apply last_snoc.
Qed.

(** The run after its first report went through: the loop, then the
    [finally] block. *)
Lemma run_keyboard_bridge_unfold (items : list read_item)
    (ep ep1 ep2 : endpoint) (rl : result KeyboardState) :
  send_keyboard_report 0 ∅ ep = (Ok (), ep1) →
  keyboard_loop items all_released ep1 = (rl, ep2) →
  run_keyboard_bridge (Ok ()) items ep
  = match write_report released_report ep2 with
    | (Ok _, ep3) => (exit_of rl, ep3)
    | (Raise x, ep3) =>
        if is_Exception x then (exit_of rl, ep3) else (Raise x, ep3)
    end.
Proof.
  intros H0 Hl. unfold run_keyboard_bridge.
  rewrite bind_run. unfold lift at 1. rewrite bind_run, H0.
  unfold try_finally, try_except. rewrite bind_run, Hl.
  destruct rl as [st|x]; [|destruct x];
    cbn -[send_keyboard_report write_report released_report is_Exception];
    rewrite send_released_run;
    destruct (write_report released_report ep2) as [[[]|y] ep3];
    try reflexivity; destruct (is_Exception y); reflexivity.
Qed.

(** C5. Every run of the keyboard bridge, whatever the device does (events,
    an interrupt, a read error, the end of the stream) and whatever the
    endpoint does:
    - either opening the device failed and nothing was written at all, or
      the last call of [write_report] of the run carries the all-released
      report, and when that call returns the all-released report is the last
      report delivered to the host;
    - once the loop was entered, the outcome of the run is that of the loop
      (a [KeyboardInterrupt] counting as a normal return) whether the final
      write returns or fails with an [Exception]: that failure is
      swallowed. *)
Theorem released_on_every_exit (acquire : result unit)
    (items : list read_item) (ep : endpoint) :
  ((∃ x, acquire = Raise x
         ∧ run_keyboard_bridge acquire items ep = (Raise x, ep))
   ∨ (∃ (cs : list (list Z * result unit)) (res : result unit),
        calls (run_keyboard_bridge acquire items ep).2
        = calls ep ++ cs ++ [(released_report, res)]
        ∧ (res = Ok () →
           last (delivered (run_keyboard_bridge acquire items ep).2)
           = Some released_report)))
  ∧ (∀ (ep1 ep2 ep3 : endpoint) (rl : result KeyboardState)
       (rf : result unit),
       acquire = Ok () →
       send_keyboard_report 0 ∅ ep = (Ok (), ep1) →
       keyboard_loop items all_released ep1 = (rl, ep2) →
       send_keyboard_report 0 ∅ ep2 = (rf, ep3) →
       (∀ x, rf = Raise x → is_Exception x = true) →
       run_keyboard_bridge acquire items ep = (exit_of rl, ep3)).
Proof.
  split.
  - destruct acquire as [[]|x]; [right | left; eauto].
    destruct (send_keyboard_report 0 ∅ ep) as [r0 ep1] eqn:H0.
    pose proof (write_report_calls released_report ep) as Hc0.
    rewrite <- send_released_run, H0 in Hc0. cbn [fst snd] in Hc0.
    destruct r0 as [[]|x0].
    + destruct (keyboard_loop items all_released ep1) as [rl ep2] eqn:Hl.
      destruct (keyboard_loop_calls items all_released ep1) as [cs Hcs].
      rewrite Hl in Hcs. cbn [snd] in Hcs.
      rewrite (run_keyboard_bridge_unfold items ep ep1 ep2 rl H0 Hl).
      pose proof (write_report_calls released_report ep2) as Hc2.
      destruct (write_report released_report ep2) as [rf ep3].
      cbn [fst snd] in Hc2.
      assert (calls ep3
              = calls ep ++ ((released_report, Ok ()) :: cs)
                         ++ [(released_report, rf)]) as Hc3.
      { rewrite Hc2, Hcs, Hc0. by rewrite <- !app_assoc. }
      exists ((released_report, Ok ()) :: cs), rf.
      destruct rf as [[]|x]; [|destruct (is_Exception x)]; cbn [snd];
        (split; [done|]); try done.
      intros _. eapply delivered_snoc. rewrite Hc3.
      by rewrite (app_assoc (calls ep)).
    + exists [], (Raise x0).
      assert (run_keyboard_bridge (Ok ()) items ep = (Raise x0, ep1)) as ->.
      { unfold run_keyboard_bridge. rewrite bind_run. unfold lift at 1.
        by rewrite bind_run, H0. }
      cbn [snd]. split; [by rewrite Hc0|done].
  - intros ep1 ep2 ep3 rl rf -> H0 Hl Hf Hexc.
    rewrite (run_keyboard_bridge_unfold items ep ep1 ep2 rl H0 Hl).
    rewrite <- send_released_run, Hf.
    destruct rf as [[]|x]; [done|]. by rewrite (Hexc x).
Qed.

Lemma released_on_every_exit_witness :
  run_keyboard_bridge (Ok ()) interrupted_stream
    (fresh_endpoint [None; None; None; Some (OSError errno.EIO)])
  = (Ok (),
     Endpoint []
       [ (released_report, Ok ()); ([2; 0; 0; 0; 0; 0; 0; 0], Ok ());
         ([2; 0; 4; 0; 0; 0; 0; 0], Ok ());
         (released_report, Raise (OSError errno.EIO)) ]
       []).
Proof.
  apply (proj2 (released_on_every_exit (Ok ()) interrupted_stream
                  (fresh_endpoint [None; None; None; Some (OSError errno.EIO)]))
           (Endpoint [None; None; Some (OSError errno.EIO)]
              [(released_report, Ok ())] [])
           (Endpoint [Some (OSError errno.EIO)]
              [ (released_report, Ok ()); ([2; 0; 0; 0; 0; 0; 0; 0], Ok ());
                ([2; 0; 4; 0; 0; 0; 0; 0], Ok ()) ] [])
           (Endpoint []
              [ (released_report, Ok ()); ([2; 0; 0; 0; 0; 0; 0; 0], Ok ());
                ([2; 0; 4; 0; 0; 0; 0; 0], Ok ());
                (released_report, Raise (OSError errno.EIO)) ] [])
           (Raise KeyboardInterrupt) (Raise (OSError errno.EIO))).
  - reflexivity.
  - vm_compute. reflexivity.
  - vm_compute. reflexivity.
  - vm_compute. reflexivity.
  - intros x [= <-]. reflexivity.
Defined.

(** With an endpoint that accepts the final write, the interrupted run ends
    on the all-released report although two keys were held. *)
Example interrupted_run_delivers :
  delivered (run_keyboard_bridge (Ok ()) interrupted_stream
               (fresh_endpoint [])).2
  = [ released_report; [2; 0; 0; 0; 0; 0; 0; 0]; [2; 0; 4; 0; 0; 0; 0; 0];
      released_report ].
Proof. vm_compute. reflexivity. Qed.

(** *** Mouse lifecycle manager *)

Example unplugged_run_ex :
  run true unplugged_rounds (fresh_world [])
  = (Ok Finished,
     MouseWorld
       (Endpoint [] [([0; 0; 0; 0], Ok ()); ([1; 0; 0; 0], Ok ())] [])
       false
       [Grab 1 (Ok ()); Ungrab 1 (Raise (OSError errno.ENODEV))]
       [500; 1000]).
Proof. vm_compute. reflexivity. Qed.

(** *** Reports at a sync marker *)

Lemma changed_test (st : MouseState) :
  negb (dx_accum st =? 0) || negb (dy_accum st =? 0)
  || negb (wheel_accum st =? 0) || negb (buttons st =? prev_buttons st)
  = bool_decide (changed st).
Proof.
  unfold changed.
  destruct (Z.eqb_spec (dx_accum st) 0), (Z.eqb_spec (dy_accum st) 0),
    (Z.eqb_spec (wheel_accum st) 0),
    (Z.eqb_spec (buttons st) (prev_buttons st)); cbn;
    symmetry; (apply bool_decide_eq_true; tauto)
              || (apply bool_decide_eq_false; tauto).
Qed.

Lemma mouse_event_sync (st : MouseState) (v : Z) :
  mouse_event (InputEvent ecodes.EV_SYN ecodes.SYN_REPORT v) st
  = if bool_decide (changed st)
    then send_mouse_report (buttons st) (dx_accum st) (dy_accum st)
                           (wheel_accum st);;
         mret (after_report st)
    else mret st.
Proof.
  unfold mouse_event. cbn [type code value].
  change (ecodes.EV_SYN =? ecodes.EV_REL) with false.
  change (ecodes.EV_SYN =? ecodes.EV_KEY) with false.
  change ((ecodes.EV_SYN =? ecodes.EV_SYN)
          && (ecodes.SYN_REPORT =? ecodes.SYN_REPORT)) with true.
  cbv iota. by rewrite changed_test.
Qed.

Lemma send_mouse_report_run (st : MouseState) (ep : endpoint) :
  send_mouse_report (buttons st) (dx_accum st) (dy_accum st) (wheel_accum st)
    ep
  = write_report (mouse_report_of st) ep.
Proof.
  unfold send_mouse_report. rewrite bind_run. unfold lift.
  by rewrite build_mouse_report_Ok.
Qed.

(** C4. At a sync marker:
    - if an accumulator is nonzero or the buttons differ from the baseline,
      the report of the state is built and [write_report] is called with it
      (exactly one call), and when the write returns the accumulators are
      zero and the buttons are the new baseline;
    - otherwise the state is unchanged and the endpoint untouched: no report
      is built or written.
    The stream [RelX(+5), RelY(-3), Sync] yields the single report
    [00 05 FD 00] and a further [Sync] yields nothing more. *)
Theorem sync_reports_changes (st : MouseState) (ep : endpoint) (v : Z) :
  (changed st →
     build_mouse_report (buttons st) (dx_accum st) (dy_accum st)
                        (wheel_accum st)
     = Ok (mouse_report_of st)
     ∧ calls (mouse_event (InputEvent ecodes.EV_SYN ecodes.SYN_REPORT v)
                st ep).2
       = calls ep
         ++ [(mouse_report_of st, (write_report (mouse_report_of st) ep).1)]
     ∧ mouse_event (InputEvent ecodes.EV_SYN ecodes.SYN_REPORT v) st ep
       = match write_report (mouse_report_of st) ep with
         | (Ok _, ep') => (Ok (after_report st), ep')
         | (Raise x, ep') => (Raise x, ep')
         end)
  ∧ (¬ changed st →
     mouse_event (InputEvent ecodes.EV_SYN ecodes.SYN_REPORT v) st ep
     = (Ok st, ep))
  ∧ mouse_reports_of [Rel ecodes.REL_X 5; Rel ecodes.REL_Y (-3); Sync]
    = [[0x00; 0x05; 0xFD; 0x00]]
  ∧ mouse_reports_of [Rel ecodes.REL_X 5; Rel ecodes.REL_Y (-3); Sync; Sync]
    = [[0x00; 0x05; 0xFD; 0x00]].
Proof.
  split; [|split; [|split]].
  - intros Hch. split; [apply build_mouse_report_Ok|].
    rewrite mouse_event_sync, bool_decide_true by done.
    rewrite bind_run, send_mouse_report_run.
    pose proof (write_report_calls (mouse_report_of st) ep) as Hc.
    destruct (write_report (mouse_report_of st) ep) as [[[]|x] ep'];
      cbn [fst snd] in *; by split.
  - intros Hch. by rewrite mouse_event_sync, bool_decide_false by done.
  - vm_compute. reflexivity.
  - vm_compute. reflexivity.
Qed.

Lemma sync_reports_changes_witness :
  mouse_event Sync moved (fresh_endpoint [])
  = (Ok (after_report moved), Endpoint [] [([0; 5; 253; 0], Ok ())] [])
  ∧ mouse_event Sync (after_report moved)
      (Endpoint [] [([0; 5; 253; 0], Ok ())] [])
    = (Ok (after_report moved), Endpoint [] [([0; 5; 253; 0], Ok ())] []).
Proof.
  unfold Sync. split.
  - destruct (sync_reports_changes moved (fresh_endpoint []) 0)
      as (H & _).
    destruct H as (_ & _ & ->); [left; discriminate | reflexivity].
  - destruct (sync_reports_changes (after_report moved)
                (Endpoint [] [([0; 5; 253; 0], Ok ())] []) 0)
      as (_ & H & _).
    apply H. intros [H0|[H0|[H0|H0]]]; apply H0; reflexivity.
Defined.

(** The whole of [_process_mouse_events] on that stream: the neutral
    baseline written before the stream is read, then the one report. *)
Example process_mouse_events_scenario :
  delivered
    (hid (process_mouse_events
            {| dev_id := 1; dev_path := 9;
               grab_result := Ok (); ungrab_result := Ok ();
               read_loop :=
                 [ Item (Yields (Rel ecodes.REL_X 5));
                   Item (Yields (Rel ecodes.REL_Y (-3)));
                   Item (Yields Sync); Item (Yields Sync) ] |}
            (fresh_world [])).2)
  = [[0; 0; 0; 0]; [0; 5; 253; 0]].
Proof. vm_compute. reflexivity. Qed.

(** *** Losing the mouse *)

Section running_flag.
Implicit Types (w : mouse_world) (grab : bool).

Lemma on_hid_running {A : Type} (m : M A) w :
  running (on_hid m w).2 = running w.
Proof. unfold on_hid. by destruct (m (hid w)). Qed.

Lemma try_except_running {A : Type} (m h : MW A) (handles : exn → bool) w :
  (∀ w0, running (m w0).2 = running w0) →
  (∀ w0, running (h w0).2 = running w0) →
  running (try_except m handles h w).2 = running w.
Proof.
  intros Hm Hh. unfold try_except. specialize (Hm w).
  destruct (m w) as [[a|x] w1]; [done|].
  destruct (handles x); [|done]. by rewrite Hh.
Qed.

Lemma bind_running {A B : Type} (m : MW A) (f : A → MW B) w :
  (∀ w0, running (m w0).2 = running w0) →
  (∀ a w0, running (f a w0).2 = running w0) →
  running ((m ≫= f) w).2 = running w.
Proof.
  intros Hm Hf. rewrite bind_run. specialize (Hm w).
  destruct (m w) as [[a|x] w1]; [|done]. by rewrite Hf.
Qed.

Lemma release_running grab (c : device) w :
  running
    (try_except (if grab then dev_ungrab c else mret ()) is_Exception
       (mret ()) w).2
  = running w.
Proof. apply try_except_running; [|done]. by destruct grab. Qed.

Lemma cleanup_running grab (cur : option device) w :
  running (cleanup grab cur w).2 = running w.
Proof.
  destruct cur as [c|]; [|done]. unfold cleanup.
  apply bind_running.
  - intros w0. apply try_except_running; [|done].
    intros w1. apply on_hid_running.
  - intros _ w0. apply release_running.
Qed.

(** The handler of a device error writes nothing to the endpoint. *)
Lemma on_device_error_hid grab (cur : option device) w :
  hid (on_device_error grab cur w).2 = hid w.
Proof.
  destruct cur as [c|]; [|done]. unfold on_device_error.
  rewrite bind_run. unfold try_except.
  destruct grab; [|done]. unfold dev_ungrab.
  destruct (ungrab_result c) as [[]|x]; [done|].
  by destruct (is_Exception x).
Qed.

(** The manager leaves its loop only with [self.running] cleared. *)
Lemma run_loop_Finished grab (rounds : list round) (cur : option device)
    w w' :
  run_loop grab rounds cur w = (Ok Finished, w') → running w' = false.
Proof.
  revert cur w. induction rounds as [|rd rounds IH]; intros cur w.
  - cbn [run_loop]. rewrite bind_run. unfold get_running.
    destruct (running w) eqn:Hr; [done|].
    rewrite bind_run. pose proof (cleanup_running grab cur w) as Hc.
    destruct (cleanup grab cur w) as [[[]|x] w1]; [|done].
    intros [= <-]. by rewrite <- Hr.
  - cbn [run_loop]. rewrite bind_run.
    set (w0 := ((if stop_before rd then set_running false else mret ())
                : MW unit) w).
    assert (w0.1 = Ok ()) as Hw0 by (subst w0; by destruct (stop_before rd)).
    destruct w0 as [r0 w1]. cbn [fst] in Hw0. subst r0.
    rewrite bind_run. unfold get_running.
    destruct (running w1) eqn:Hr; cbn [negb].
    + rewrite bind_run.
      destruct (pick_mouse (picked rd) w1) as [[[d|]|x] w2]; [| |done].
      * rewrite bind_run.
        destruct (attach grab cur d w2) as [[cur1|x] w3]; [|done].
        rewrite bind_run.
        destruct (guarded_process grab cur1 d w3) as [[cur2|x] w4]; [|done].
        apply IH.
      * rewrite bind_run.
        destruct (nap 1000 w2) as [[[]|x] w3]; [|done]. apply IH.
    + rewrite bind_run. pose proof (cleanup_running grab cur w1) as Hc.
      destruct (cleanup grab cur w1) as [[[]|x] w2]; [|done].
      intros [= <-]. by rewrite <- Hr.
Qed.
End running_flag.

(** *** The manager survives every ordinary failure *)

Section self_healing.
Implicit Types (w : mouse_world) (ep : endpoint) (grab : bool).

Lemma steady_gentle {A : Type} (P : A → Prop) (m : MW A) :
  steady P m → gentle m.
Proof.
  intros Hm w Hw. destruct (Hm w Hw) as (Hc & a & Ha & _).
  split; [done|]. intros x Hx. congruence.
Qed.

Lemma steady_ret {A : Type} (P : A → Prop) (a : A) : P a → steady P (mret a).
Proof. intros Ha w Hw. split; [done|]. by exists a. Qed.

Lemma steady_weaken {A : Type} (P Q : A → Prop) (m : MW A) :
  (∀ a, P a → Q a) → steady P m → steady Q m.
Proof.
  intros HPQ Hm w Hw. destruct (Hm w Hw) as (Hc & a & Ha & HP). eauto.
Qed.

Lemma gentle_bind {A B : Type} (m : MW A) (f : A → MW B) :
  gentle m → (∀ a, gentle (f a)) → gentle (m ≫= f).
Proof.
  intros Hm Hf w Hw. rewrite bind_run. destruct (Hm w Hw) as [Hc Hb].
  destruct (m w) as [[a|x] w1]; [by apply Hf|].
  split; [done|]. intros y [= <-]. by apply Hb.
Qed.

Lemma steady_bind {A B : Type} (P : A → Prop) (Q : B → Prop)
    (m : MW A) (f : A → MW B) :
  steady P m → (∀ a, P a → steady Q (f a)) → steady Q (m ≫= f).
Proof.
  intros Hm Hf w Hw. rewrite bind_run.
  destruct (Hm w Hw) as (Hc & a & Ha & HP).
  destruct (m w) as [r w1]. cbn [fst snd] in *. subst r. by apply Hf.
Qed.

(** [try: m  except Exception: h] returns when [h] does. *)
Lemma steady_try_except {A : Type} (P : A → Prop) (m h : MW A) :
  gentle m → (∀ a, P a) → steady P h →
  steady P (try_except m is_Exception h).
Proof.
  intros Hm HP Hh w Hw. unfold try_except. destruct (Hm w Hw) as [Hc Hb].
  destruct (m w) as [[a|x] w1]; [split; eauto|].
  cbn [fst snd] in *. rewrite (Hb x eq_refl). by apply Hh.
Qed.

Lemma steady_nap (ms : Z) : steady (λ _, True) (nap ms).
Proof. intros w Hw. split; [done|]. by exists (). Qed.

Lemma gentle_dev_grab (d : device) :
  benign_result (grab_result d) → gentle (dev_grab d).
Proof. intros Hd w Hw. by split. Qed.

Lemma gentle_dev_ungrab (d : device) :
  benign_result (ungrab_result d) → gentle (dev_ungrab d).
Proof. intros Hd w Hw. by split. Qed.

Lemma gentle_on_hid {A : Type} (m : M A) : gentle_hid m → gentle (on_hid m).
Proof.
  intros Hm w [Hr Hep]. unfold on_hid. destruct (Hm (hid w) Hep) as [Hc Hb].
  by destruct (m (hid w)) as [r ep1].
Qed.

Lemma write_loop_calm (script : list (option exn)) (rc : nat) :
  Forall (λ o, ∀ x, o = Some x → benign x) script →
  Forall (λ o, ∀ x, o = Some x → benign x) (write_loop script rc).2
  ∧ benign_result (write_loop script rc).1.1.
Proof.
  intros Hs. revert rc. induction Hs as [|o script Ho Hs IH]; intros rc.
  { split; [constructor|done]. }
  destruct o as [x|]; [|split; [done|done]].
  assert (benign x) as Hx by (by apply Ho).
  assert (∀ rest : list (option exn),
            Forall (λ o, ∀ x, o = Some x → benign x) rest →
            Forall (λ o, ∀ x, o = Some x → benign x)
              (Raise (A:=unit) x, @nil Z, rest).2
            ∧ benign_result (Raise (A:=unit) x, @nil Z, rest).1.1) as Hraise.
  { intros rest Hrest. split; [done|]. by intros ? [= <-]. }
  destruct x; try (by apply Hraise).
  - cbn [write_loop]. destruct (negb (e =? errno.EAGAIN)); [by apply Hraise|].
    specialize (IH rc). by destruct (write_loop script rc) as [[r sl] rest].
  - cbn [write_loop].
    destruct (negb ((e =? errno.EPIPE) || (e =? errno.ENOTCONN)));
      [by apply Hraise|].
    destruct (max_retries <=? S rc)%nat; [by apply Hraise|].
    specialize (IH (S rc)).
    by destruct (write_loop script (S rc)) as [[r sl] rest].
Qed.

Lemma gentle_write_report (report : list Z) : gentle_hid (write_report report).
Proof.
  intros ep Hep. unfold write_report.
  destruct (write_loop_calm (pending ep) 0 Hep) as [H1 H2].
  by destruct (write_loop (pending ep) 0) as [[r sl] rest].
Qed.

Lemma gentle_hid_ret {A : Type} (a : A) : gentle_hid (mret a).
Proof. intros ep Hep. by split. Qed.

Lemma gentle_mouse_event (e : input_event) (st : MouseState) :
  gentle_hid (mouse_event e st).
Proof.
  unfold mouse_event.
  repeat match goal with
         | |- gentle_hid (if ?b then _ else _) => destruct b
         | |- gentle_hid (match ?o with Some _ => _ | None => _ end) =>
             destruct o
         | |- gentle_hid (mret _) => apply gentle_hid_ret
         end.
  intros ep Hep. rewrite bind_run, send_mouse_report_run.
  destruct (gentle_write_report (mouse_report_of st) ep Hep) as [H1 H2].
  destruct (write_report (mouse_report_of st) ep) as [[[]|x] ep1];
    (split; [done|]); [done|].
  intros y [= <-]. by apply H2.
Qed.

Lemma gentle_mouse_loop (items : list mouse_item) (st : MouseState) :
  Forall tame_item items → gentle (mouse_loop items st).
Proof.
  intros Hitems. revert st.
  induction Hitems as [|i items Hi Hitems IH]; intros st.
  { intros w Hw. by split. }
  destruct i as [[e|x]|]; [| |done].
  - intros w Hw. cbn [mouse_loop]. rewrite bind_run. unfold get_running.
    rewrite (proj1 Hw). cbn [negb].
    apply (gentle_bind (on_hid (mouse_event e st))
             (λ st', mouse_loop items st'));
      [apply gentle_on_hid, gentle_mouse_event | intros st'; apply IH | done].
  - intros w Hw. split; [done|]. by intros ? [= <-].
Qed.

Lemma gentle_process_mouse_events (d : device) :
  tame_device d → gentle (process_mouse_events d).
Proof.
  intros (_ & _ & Hitems). unfold process_mouse_events.
  apply gentle_bind; [|intros _; by apply gentle_mouse_loop].
  apply gentle_on_hid. intros ep Hep.
  change 0 with (buttons mouse_initial) at 1.
  rewrite (send_mouse_report_run mouse_initial).
  apply gentle_write_report, Hep.
Qed.

Lemma steady_release grab (c : device) :
  tame_device c →
  steady (λ _, True)
    (try_except (if grab then dev_ungrab c else mret ()) is_Exception
       (mret ())).
Proof.
  intros (_ & Hu & _). apply steady_try_except; [|done|by apply steady_ret].
  destruct grab; [by apply gentle_dev_ungrab|].
  by apply (steady_gentle (λ _, True)), steady_ret.
Qed.

Lemma steady_attach grab (cur : option device) (d : device) :
  tame_current cur → tame_device d →
  steady tame_current (attach grab cur d).
Proof.
  intros Hcur Hd. unfold attach.
  destruct (is_new_device cur d); [|by apply steady_ret].
  apply (steady_bind (λ _, True)); [|intros _ _; by apply steady_ret].
  destruct grab; [|by apply steady_ret].
  apply steady_try_except; [|done|by apply steady_ret].
  apply gentle_dev_grab, Hd.
Qed.

Lemma steady_on_device_error grab (cur : option device) :
  tame_current cur → steady tame_current (on_device_error grab cur).
Proof.
  intros Hcur. destruct cur as [c|]; unfold on_device_error.
  - apply (steady_bind (λ _, True)); [by apply steady_release|].
    intros _ _. apply (steady_bind (λ _, True)); [apply steady_nap|].
    intros _ _. by apply steady_ret.
  - apply (steady_bind (λ _, True)); [apply steady_nap|].
    intros _ _. by apply steady_ret.
Qed.

Lemma steady_guarded_process grab (cur : option device) (d : device) :
  tame_current cur → tame_device d →
  steady tame_current (guarded_process grab cur d).
Proof.
  intros Hcur Hd w Hw. unfold guarded_process.
  destruct (gentle_process_mouse_events d Hd w Hw) as [Hc Hb].
  destruct (process_mouse_events d w) as [[[]|x] w1]; [split; eauto|].
  cbn [fst snd] in *. specialize (Hb x eq_refl).
  destruct (is_OSError x); [by apply steady_on_device_error|].
  rewrite Hb.
  apply (steady_bind (λ _, True) tame_current (nap 500)); [apply steady_nap| |done].
  intros _ _. by apply steady_ret.
Qed.

(** As long as nobody calls [stop()] and nothing worse than an [Exception]
    happens, the manager goes through every round of the script, whatever
    the devices and the endpoint do, and is still looping at its end. *)
Lemma run_loop_self_healing grab (rounds : list round)
    (cur : option device) :
  Forall tame_round rounds → tame_current cur →
  steady (λ s, s = ScriptEnded) (run_loop grab rounds cur).
Proof.
  intros Hrounds. revert cur.
  induction Hrounds as [|rd rounds [Hstop Hpick] Hrounds IH]; intros cur Hcur.
  - intros w Hw. cbn [run_loop]. rewrite bind_run. unfold get_running.
    destruct Hw as [Hr Hep]. rewrite Hr. split; [done|]. by exists ScriptEnded.
  - intros w Hw. cbn [run_loop]. rewrite Hstop, bind_run.
    change ((mret () : MW unit) w) with (Ok (), w). cbv beta iota.
    rewrite bind_run. unfold get_running.
    rewrite (proj1 Hw). cbn [negb].
    assert (steady tame_current (pick_mouse (picked rd))) as Hpicked.
    { unfold pick_mouse.
      destruct (picked rd) as [[d|]|x]; intros w0 Hw0;
        unfold try_except, lift.
      - split; [done|]. by exists (Some d).
      - split; [done|]. by exists None.
      - rewrite Hpick. split; [done|]. by exists None. }
    refine (steady_bind tame_current (λ s, s = ScriptEnded) _ _ Hpicked _
              w Hw).
    intros [d|] Hd.
    + apply (steady_bind tame_current); [by apply steady_attach|].
      intros cur1 Hcur1.
      apply (steady_bind tame_current); [by apply steady_guarded_process|].
      intros cur2 Hcur2. by apply IH.
    + apply (steady_bind (λ _, True)); [apply steady_nap|].
      intros _ _. by apply IH.
Qed.
End self_healing.

(** C8, on the code.  The left button of the mouse is down when the device
    is unplugged; no mouse is found afterwards and the bridge is then
    stopped.  The manager tries to release the grab, goes back to searching
    (it sleeps 0.5 s, polls, sleeps 1 s) and ends only at the stop request;
    but it writes no neutral report, neither when the device is lost nor at
    shutdown: the last report the host received still has the left button
    down. *)
Theorem device_loss_leaves_button_down :
  run true unplugged_rounds (fresh_world [])
  = (Ok Finished,
     MouseWorld
       (Endpoint [] [([0; 0; 0; 0], Ok ()); ([1; 0; 0; 0], Ok ())] [])
       false
       [Grab 1 (Ok ()); Ungrab 1 (Raise (OSError errno.ENODEV))]
       [500; 1000])
  ∧ last (delivered (hid (run true unplugged_rounds (fresh_world [])).2))
    = Some [1; 0; 0; 0]
  ∧ build_mouse_report 0 0 0 0 = Ok [0; 0; 0; 0]
  ∧ (∀ (grab : bool) (cur : option device) (w : mouse_world),
       hid (on_device_error grab cur w).2 = hid w).
Proof.
  split; [vm_compute; reflexivity|].
  split; [vm_compute; reflexivity|].
  split; [vm_compute; reflexivity|].
  apply on_device_error_hid.
Qed.

(** * Part III: further properties of the code *)

(** ** Report codec, on all integers *)

(** X1. [signed_byte] is reduction modulo 256 on every integer (its two
    branches agree), and reading the byte back gives the value exactly when
    the value is a signed byte, between -128 and 127. *)
Theorem signed_byte_round_trip (v : Z) :
  signed_byte v = v `mod` 256
  ∧ 0 ≤ signed_byte v ≤ 255
  ∧ -128 ≤ decode_signed (signed_byte v) ≤ 127
  ∧ (decode_signed (signed_byte v) - v) `mod` 256 = 0
  ∧ (decode_signed (signed_byte v) = v ↔ -128 ≤ v ≤ 127).
Proof.
  pose proof (signed_byte_mod v) as Hm.
  pose proof (Z.mod_pos_bound v 256 ltac:(lia)) as Hb.
  pose proof (Z.div_mod v 256 ltac:(lia)) as Hd.
  rewrite Hm. unfold decode_signed.
  destruct (Z.leb_spec 128 (v `mod` 256)).
  - repeat split; try lia.
    + replace (v `mod` 256 - 256 - v) with ((- (v `div` 256) - 1) * 256) by lia.
      apply Z.mod_mul. lia.
  - repeat split; try lia.
    + replace (v `mod` 256 - v) with ((- (v `div` 256)) * 256) by lia.
      apply Z.mod_mul. lia.
Qed.

(** X2. [build_mouse_report] never fails: for all integers it returns four
    bytes, the first is [buttons] modulo 256, and no motion byte is 0x80:
    read back, each motion lies between -127 and 127. *)
Theorem build_mouse_report_total (buttons dx dy wheel : Z) :
  ∃ bx by_ bw : Z,
    build_mouse_report buttons dx dy wheel
    = Ok [buttons `mod` 256; bx; by_; bw]
    ∧ Forall (λ b, 0 ≤ b ≤ 255 ∧ b ≠ 0x80) [bx; by_; bw]
    ∧ Forall (λ b, -127 ≤ decode_signed b ≤ 127) [bx; by_; bw].
Proof.
  exists (signed_byte (clamp dx (-127) 127)),
         (signed_byte (clamp dy (-127) 127)),
         (signed_byte (clamp wheel (-127) 127)).
  rewrite build_mouse_report_Ok, land_255.
  assert (∀ v, (0 ≤ signed_byte (clamp v (-127) 127) ≤ 255
                ∧ signed_byte (clamp v (-127) 127) ≠ 0x80)
               ∧ -127 ≤ decode_signed (signed_byte (clamp v (-127) 127)) ≤ 127)
    as H.
  { intros v. pose proof (clamp_range v) as Hc.
    pose proof (signed_byte_range (clamp v (-127) 127)) as Hr.
    pose proof (decode_signed_byte (clamp v (-127) 127) ltac:(lia)) as Hd.
    split; [split; [done|]|lia].
    intros H80. rewrite H80 in Hd. cbn in Hd. lia. }
  split; [done|]. split; repeat constructor; apply H.
Qed.

(** X3. [clamp] with bounds in order lands in the bounds, leaves a value
    already inside alone, is idempotent and monotone; with the bounds
    swapped it returns the lower bound whatever the value. *)
Theorem clamp_bounds (v lo hi : Z) :
  (lo ≤ hi →
     lo ≤ clamp v lo hi ≤ hi
     ∧ (lo ≤ v ≤ hi → clamp v lo hi = v)
     ∧ clamp (clamp v lo hi) lo hi = clamp v lo hi)
  ∧ (∀ v', v ≤ v' → clamp v lo hi ≤ clamp v' lo hi)
  ∧ (hi < lo → clamp v lo hi = lo).
Proof. unfold clamp. repeat split; intros; lia. Qed.

Lemma clamp_bounds_witness :
  (-127 ≤ clamp 300 (-127) 127 ≤ 127
   ∧ (-127 ≤ 300 ≤ 127 → clamp 300 (-127) 127 = 300)
   ∧ clamp (clamp 300 (-127) 127) (-127) 127 = clamp 300 (-127) 127)
  ∧ clamp 5 10 0 = 10.
Proof.
  split.
  - apply (proj1 (clamp_bounds 300 (-127) 127)). lia.
  - apply (proj2 (proj2 (clamp_bounds 5 10 0))). lia.
Defined.

Lemma bytes_Raise (l : list Z) :
  ¬ Forall (λ b, 0 ≤ b ≤ 255) l → bytes l = Raise ValueError.
Proof.
  intros Hl. destruct (bytes l) as [r|x] eqn:Hb.
  - by apply bytes_inv in Hb as [_ ?].
  - unfold bytes in Hb. by destruct (forallb _ l); simplify_eq.
Qed.

Lemma six_lowest (S : gset Z) (u : Z) :
  u ∈ take 6 (sorted S) ↔ u ∈ S ∧ (rank S u < 6)%nat.
Proof.
  rewrite take_strict by apply sorted_strict.
  by rewrite sorted_elem, rank_sorted.
Qed.

(** X4. For any integer mask and any set of integers,
    [build_keyboard_report] looks at the six lowest members only: if they
    are all in [0,255] it returns eight bytes starting with the mask modulo
    256, however large the other members are; if one of them is not, it
    raises [ValueError]. *)
Theorem build_keyboard_report_range (m : Z) (S : gset Z) :
  ((∀ u, u ∈ S → (rank S u < 6)%nat → 0 ≤ u ≤ 255) →
     ∃ keys : list Z,
       build_keyboard_report m S = Ok (m `mod` 256 :: 0 :: keys)
       ∧ length keys = 6%nat)
  ∧ ((∃ u, u ∈ S ∧ (rank S u < 6)%nat ∧ ¬ 0 ≤ u ≤ 255) →
     build_keyboard_report m S = Raise ValueError).
Proof.
  unfold build_keyboard_report. cbn [app]. split.
  - intros HS. exists (pad6 (take 6 (sorted S))).
    rewrite <- land_255. split.
    + apply bytes_Ok. constructor; [apply land_255_range|].
      constructor; [lia|]. unfold pad6. apply Forall_app. split.
      * apply Forall_forall. intros u Hu.
        apply six_lowest in Hu as [Hu Hr]. by apply HS.
      * apply Forall_replicate. lia.
    + unfold pad6. rewrite length_app, length_replicate, length_take. lia.
  - intros (u & Hu & Hr & Hout). apply bytes_Raise.
    intros Hall. apply Hout.
    apply Forall_cons in Hall as [_ Hall]. apply Forall_cons in Hall as [_ Hall].
    unfold pad6 in Hall. apply Forall_app in Hall as [Hall _].
    rewrite Forall_forall in Hall. apply Hall. by apply six_lowest.
Qed.

Lemma build_keyboard_report_range_witness :
  (∃ keys : list Z,
     build_keyboard_report (-1) seven_usages = Ok ((-1) `mod` 256 :: 0 :: keys)
     ∧ length keys = 6%nat)
  ∧ build_keyboard_report 0 {[ 300 ]} = Raise ValueError.
Proof.
  split.
  - apply (proj1 (build_keyboard_report_range (-1) seven_usages)).
    intros u Hu Hr.
    unfold seven_usages in Hu.
    repeat (apply elem_of_union in Hu as [Hu|Hu]);
      apply elem_of_singleton in Hu; subst u; try lia.
    vm_compute in Hr. lia.
  - apply (proj2 (build_keyboard_report_range 0 {[ 300 ]})).
    exists 300. split; [by apply elem_of_singleton|].
    split; [vm_compute; lia | lia].
Defined.

(** ** Endpoint writer, on every script *)

(** The script of the endpoint as one call of the writer consumes it. *)
Lemma write_loop_decompose (script : list (option exn)) (rc : nat) :
  ∃ pre : list (option exn),
    Forall (λ o, is_retried o = true) pre
    ∧ (write_loop script rc).1.2 = pause_after <$> pre
    ∧ ((script = pre ∧ (write_loop script rc).2 = []
        ∧ (write_loop script rc).1.1 = Ok ())
       ∨ (script = pre ++ None :: (write_loop script rc).2
          ∧ (write_loop script rc).1.1 = Ok ())
       ∨ (∃ x, script = pre ++ Some x :: (write_loop script rc).2
               ∧ (write_loop script rc).1.1 = Raise x)).
Proof.
  revert rc. induction script as [|o script IH]; intros rc.
  { exists []. repeat split; auto. }
  destruct o as [x|].
  2:{ exists []. split; [constructor|]. split; [done|]. right. by left. }
  assert (∃ pre : list (option exn),
            Forall (λ o, is_retried o = true) pre
            ∧ (Raise (A:=unit) x, @nil Z, script).1.2 = pause_after <$> pre
            ∧ ((Some x :: script = pre ∧ (Raise (A:=unit) x, @nil Z, script).2 = []
                ∧ (Raise (A:=unit) x, @nil Z, script).1.1 = Ok ())
               ∨ (Some x :: script = pre ++ None :: (Raise (A:=unit) x, @nil Z, script).2
                  ∧ (Raise (A:=unit) x, @nil Z, script).1.1 = Ok ())
               ∨ (∃ y, Some x :: script
                       = pre ++ Some y :: (Raise (A:=unit) x, @nil Z, script).2
                       ∧ (Raise (A:=unit) x, @nil Z, script).1.1 = Raise y)))
    as Hraise.
  { exists []. split; [constructor|]. split; [done|]. right. right. by exists x. }
  assert (∀ rc' d,
            retried x = true → pause_after (Some x) = d →
            ∃ pre : list (option exn),
              Forall (λ o, is_retried o = true) pre
              ∧ d :: (write_loop script rc').1.2 = pause_after <$> pre
              ∧ ((Some x :: script = pre ∧ (write_loop script rc').2 = []
                  ∧ (write_loop script rc').1.1 = Ok ())
                 ∨ (Some x :: script = pre ++ None :: (write_loop script rc').2
                    ∧ (write_loop script rc').1.1 = Ok ())
                 ∨ (∃ y, Some x :: script
                         = pre ++ Some y :: (write_loop script rc').2
                         ∧ (write_loop script rc').1.1 = Raise y))) as Hretry.
  { intros rc' d Hx Hd. destruct (IH rc') as (pre & Hpre & Hsl & Hcases).
    exists (Some x :: pre). split; [by constructor|].
    split; [by rewrite fmap_cons, Hd, Hsl|].
    destruct Hcases as [(-> & ? & ?)|[[Hs ?]|(y & Hs & ?)]].
    - by left.
    - right. left. split; [|done]. by rewrite Hs at 1.
    - right. right. exists y. split; [|done]. by rewrite Hs at 1. }
  destruct x; try apply Hraise.
  - cbn [write_loop]. destruct (e =? errno.EAGAIN) eqn:He; cbn [negb];
      [|apply Hraise].
    specialize (Hretry rc 10 He eq_refl).
    by destruct (write_loop script rc) as [[r sl] rest].
  - cbn [write_loop].
    destruct ((e =? errno.EPIPE) || (e =? errno.ENOTCONN)) eqn:He; cbn [negb];
      [|apply Hraise].
    destruct (max_retries <=? S rc)%nat; [apply Hraise|].
    specialize (Hretry (S rc) 100 He eq_refl).
    by destruct (write_loop script (S rc)) as [[r sl] rest].
Qed.


Lemma write_loop_Raise_in (script : list (option exn)) (rc : nat) (x : exn) :
  (write_loop script rc).1.1 = Raise x → Some x ∈ script.
Proof.
  intros Hr. destruct (write_loop_decompose script rc) as (pre & _ & _ & Hcases).
  destruct Hcases as [(_ & _ & H)|[[_ H]|(y & Hs & H)]]; try congruence.
  rewrite H in Hr. injection Hr as ->.
  rewrite Hs. apply elem_of_app. right. left.
Qed.

Lemma write_loop_disconnects (pre rest : list (option exn)) (rc : nat) :
  Forall (λ o, is_retried o = true) pre →
  (rc < max_retries)%nat →
  (max_retries ≤ rc + length (filter (λ o, is_disconnect o = true) pre))%nat →
  ∃ e : Z, (write_loop (pre ++ rest) rc).1.1 = Raise (BrokenPipeError e).
Proof.
  intros Hs. revert rc. induction Hs as [|o pre Ho Hs IH]; intros rc Hrc Hn.
  { cbn in Hn. lia. }
  destruct o as [[e|e| | | |]|]; try done; cbn in Ho.
  - rewrite filter_cons_False in Hn by (cbn; congruence).
    cbn [write_loop app]. rewrite Ho. cbn [negb].
    destruct (IH rc Hrc Hn) as [e' He'].
    destruct (write_loop (pre ++ rest) rc) as [[r sl] rest']. eauto.
  - rewrite filter_cons_True in Hn by done. cbn [length] in Hn.
    cbn [write_loop app]. rewrite Ho. cbn [negb].
    destruct (Nat.leb_spec max_retries (S rc)); [eauto|].
    destruct (IH (S rc)) as [e' He']; [lia..|].
    destruct (write_loop (pre ++ rest) (S rc)) as [[r sl] rest']. eauto.
Qed.

(** X6. The retry bound counts every broken pipe of one call, not only
    consecutive ones: not-ready failures in between do not reset the
    counter.  If the script starts with retried failures only, a hundred
    broken pipes among them, the call raises [BrokenPipeError] to its
    caller, whatever follows. *)
Theorem write_report_counts_every_disconnect (report : list Z)
    (pre rest : list (option exn)) (cs : list (list Z * result unit))
    (sl0 : list Z) :
  Forall (λ o, is_retried o = true) pre →
  (100 ≤ length (filter (λ o, is_disconnect o = true) pre))%nat →
  ∃ e : Z,
    (write_report report (Endpoint (pre ++ rest) cs sl0)).1
    = Raise (BrokenPipeError e).
Proof.
  intros Hs Hn. unfold write_report. cbn [pending].
  destruct (write_loop_disconnects pre rest 0 Hs) as [e He];
    [unfold max_retries; lia | unfold max_retries; lia |].
  destruct (write_loop (pre ++ rest) 0) as [[r sl] rest']. eauto.
Qed.

Lemma write_report_counts_every_disconnect_witness :
  ∃ e : Z,
    (write_report released_report
       (Endpoint ((replicate 60 disconnected ++ replicate 5 not_ready
                   ++ replicate 40 disconnected) ++ [None]) [] [])).1
    = Raise (BrokenPipeError e).
Proof.
  apply (write_report_counts_every_disconnect released_report
           (replicate 60 disconnected ++ replicate 5 not_ready
            ++ replicate 40 disconnected) [None] [] []).
  - apply (bool_decide_unpack _). vm_compute. exact I.
  - vm_compute. lia.
Defined.

(** X7. The writer of the stand-alone scripts and the writer of the combined
    bridge do the same on every script without a retried broken pipe; they
    part on a broken pipe, which the stand-alone writer hands to its caller
    at once, without a sleep, while the combined one sleeps and retries. *)
Theorem standalone_writer_agrees (script : list (option exn)) (rc : nat) :
  (Forall (λ o, is_disconnect o = false) script →
     Standalone.write_loop script = write_loop script rc)
  ∧ Standalone.write_loop (disconnected :: script)
    = (Raise (BrokenPipeError errno.EPIPE), [], script)
  ∧ ((rc + 1 < max_retries)%nat →
     write_loop (disconnected :: None :: script) rc = (Ok (), [100], script)).
Proof.
  split; [|split; [done|]].
  - induction 1 as [|o script Ho Hs IH]; [done|].
    destruct o as [[e|e| | | |]|]; try done.
    + cbn [Standalone.write_loop write_loop].
      destruct (negb (e =? errno.EAGAIN)); [done|]. by rewrite IH.
    + cbn in Ho. cbn [Standalone.write_loop write_loop]. by rewrite Ho.
  - intros Hrc. rewrite write_loop_disconnected_step.
    destruct (Nat.leb_spec max_retries (S rc)); [lia|done].
Qed.

Lemma standalone_writer_agrees_witness :
  Standalone.write_loop [not_ready; Some (OSError errno.EIO); None]
  = write_loop [not_ready; Some (OSError errno.EIO); None] 0
  ∧ write_loop [disconnected; None] 0 = (Ok (), [100], []).
Proof.
  destruct (standalone_writer_agrees
              [not_ready; Some (OSError errno.EIO); None] 0) as (H & _ & _).
  destruct (standalone_writer_agrees [] 0) as (_ & _ & H').
  split.
  - apply H. repeat constructor.
  - apply H'. unfold max_retries. lia.
Defined.

(** ** Keyboard translator, on every stream *)

(** X8. An event that is not a key event, and an auto-repeat event of any
    key, known or not, leave the state as it is and the endpoint untouched:
    no report, no exception. *)
Theorem keyboard_ignores (e : input_event) (st : KeyboardState)
    (ep : endpoint) :
  type e ≠ ecodes.EV_KEY ∨ value e = 2 →
  keyboard_event e st ep = (Ok st, ep).
Proof.
  intros He. unfold keyboard_event.
  destruct (Z.eqb_spec (type e) ecodes.EV_KEY) as [Ht|Ht]; [|done].
  destruct He as [?|Hv]; [done|]. by rewrite Hv.
Qed.

Lemma keyboard_ignores_witness :
  keyboard_event (InputEvent ecodes.EV_REL ecodes.REL_X 5) shift_held
    (fresh_endpoint [disconnected])
  = (Ok shift_held, fresh_endpoint [disconnected])
  ∧ keyboard_event (Repeat ecodes.KEY_A) shift_held
      (fresh_endpoint [disconnected])
    = (Ok shift_held, fresh_endpoint [disconnected]).
Proof.
  split.
  - apply (keyboard_ignores (InputEvent ecodes.EV_REL ecodes.REL_X 5)).
    left. discriminate.
  - apply (keyboard_ignores (Repeat ecodes.KEY_A)). right. reflexivity.
Defined.

Lemma write_report_Raise_in (report : list Z) (ep ep' : endpoint) (x : exn) :
  write_report report ep = (Raise x, ep') → Some x ∈ pending ep.
Proof.
  unfold write_report. intros H. apply (write_loop_Raise_in _ 0).
  destruct (write_loop (pending ep) 0) as [[r sl] rest]. by injection H.
Qed.

Lemma write_report_pending (report : list Z) (ep : endpoint) :
  pending (write_report report ep).2 `suffix_of` pending ep.
Proof.
  unfold write_report.
  destruct (write_loop_decompose (pending ep) 0) as (pre & _ & _ & Hcases).
  destruct (write_loop (pending ep) 0) as [[r sl] rest]. cbn [fst snd] in *.
  destruct Hcases as [(_ & -> & _)|[[-> _]|(y & -> & _)]].
  - apply suffix_nil.
  - by apply suffix_app_r, suffix_cons_r.
  - by apply suffix_app_r, suffix_cons_r.
Qed.

Lemma report_of_Ok (st : KeyboardState) :
  wf_state st →
  build_keyboard_report (mod_mask st) (pressed_usages st) = Ok (report_of st).
Proof.
  intros [_ Hu]. apply build_keyboard_report_Ok.
  intros u Hin. specialize (Hu u Hin). lia.
Qed.

Lemma keyboard_event_Raise_in (e : input_event) (st : KeyboardState)
    (ep ep' : endpoint) (x : exn) :
  wf_state st →
  keyboard_event e st ep = (Raise x, ep') → Some x ∈ pending ep.
Proof.
  intros Hwf. rewrite keyboard_event_run. destruct (reports e); [|done].
  rewrite bind_run. unfold send_keyboard_report. rewrite bind_run.
  unfold lift. rewrite (report_of_Ok _ (next_state_wf e st Hwf)).
  destruct (write_report _ ep) as [[[]|y] ep1] eqn:Hw; [done|].
  intros [= <- <-]. by eapply write_report_Raise_in.
Qed.

Lemma keyboard_event_pending (e : input_event) (st : KeyboardState)
    (ep : endpoint) :
  wf_state st →
  pending (keyboard_event e st ep).2 `suffix_of` pending ep.
Proof.
  intros Hwf. rewrite keyboard_event_run. destruct (reports e); [|done].
  rewrite bind_run. unfold send_keyboard_report. rewrite bind_run.
  unfold lift. rewrite (report_of_Ok _ (next_state_wf e st Hwf)).
  pose proof (write_report_pending (report_of (next_state e st)) ep) as Hs.
  by destruct (write_report _ ep) as [[[]|y] ep1].
Qed.

(** X9. The keyboard loop has no failure of its own: started in a reachable
    state, whatever it raises was raised by the device stream or scripted by
    the endpoint.  In particular building a report never raises
    [ValueError] during a run. *)
Theorem keyboard_loop_raises_only_io (items : list read_item)
    (st : KeyboardState) (ep ep' : endpoint) (x : exn) :
  reachable st →
  keyboard_loop items st ep = (Raise x, ep') →
  Raises x ∈ items ∨ Some x ∈ pending ep.
Proof.
  intros Hwf%reachable_wf. revert st ep Hwf.
  induction items as [|[e|y] items IH]; intros st ep Hwf; [done| |].
  - cbn [keyboard_loop]. rewrite bind_run.
    pose proof (keyboard_event_pending e st ep Hwf) as Hsuf.
    destruct (keyboard_event e st ep) as [[st1|y] ep1] eqn:He.
    + intros Hl. apply keyboard_event_Ok_state in He as ->.
      destruct (IH _ _ (next_state_wf e st Hwf) Hl) as [?|Hin].
      * left. by right.
      * right. cbn [snd] in Hsuf. destruct Hsuf as [k ->].
        apply elem_of_app. by right.
    + intros [= <- <-]. right. by eapply keyboard_event_Raise_in.
  - intros [= <- <-]. left. by left.
Qed.

Lemma keyboard_loop_raises_only_io_witness :
  Raises (OSError errno.EIO)
    ∈ [Yields (Down ecodes.KEY_A); Raises (OSError errno.ENODEV)]
  ∨ Some (OSError errno.EIO) ∈ pending (fresh_endpoint [Some (OSError errno.EIO)]).
Proof.
  apply (keyboard_loop_raises_only_io
           [Yields (Down ecodes.KEY_A); Raises (OSError errno.ENODEV)]
           all_released (fresh_endpoint [Some (OSError errno.EIO)])
           (Endpoint [] [([0; 0; 4; 0; 0; 0; 0; 0], Raise (OSError errno.EIO))] [])
           (OSError errno.EIO)).
  - constructor.
  - vm_compute. reflexivity.
Defined.

Lemma ret_run {S A : Type} (a : A) (s : S) :
  (mret a : ST S A) s = (Ok a, s).
Proof. reflexivity. Qed.

Lemma state_after_wf (st : KeyboardState) (es : list input_event) :
  wf_state st → wf_state (state_after st es).
Proof.
  revert st. induction es as [|e es IH]; intros st Hwf; [done|].
  cbn. apply IH. by apply next_state_wf.
Qed.

Lemma snapshots_length (st : KeyboardState) (es : list input_event) :
  length (snapshots st es) = length (filter (λ e, reports e = true) es).
Proof.
  revert st. induction es as [|e es IH]; intros st; [done|].
  cbn [snapshots]. rewrite length_app, IH.
  destruct (reports e) eqn:Hr.
  - by rewrite filter_cons_True.
  - by rewrite filter_cons_False by congruence.
Qed.

Lemma report_of_length (st : KeyboardState) : length (report_of st) = 8%nat.
Proof.
  unfold report_of, pad6. cbn [length].
  rewrite length_app, length_replicate, length_take. lia.
Qed.

(** X10. On an endpoint that accepts every write, the loop started in a
    reachable state goes through any stream of events without raising: it
    ends in the state computed by the pure transition function, and it
    delivers exactly the reports of the states after each reporting event
    (a down, an up or an odd value of a known key), one per such event,
    each of eight bytes. *)
Theorem keyboard_loop_snapshots (st : KeyboardState) (es : list input_event)
    (cs : list (list Z * result unit)) (sl : list Z) :
  reachable st →
  keyboard_loop (Yields <$> es) st (Endpoint [] cs sl)
  = (Ok (state_after st es),
     Endpoint [] (cs ++ ((λ r, (r, Ok ())) <$> snapshots st es)) sl)
  ∧ length (snapshots st es) = length (filter (λ e, reports e = true) es)
  ∧ Forall (λ r, length r = 8%nat) (snapshots st es).
Proof.
  intros Hwf%reachable_wf. split; [|split; [apply snapshots_length|]].
  - revert st cs Hwf. induction es as [|e es IH]; intros st cs Hwf.
    { cbn. by rewrite app_nil_r. }
    cbn [fmap list_fmap keyboard_loop snapshots state_after fold_left].
    rewrite bind_run, keyboard_event_run.
    pose proof (next_state_wf e st Hwf) as Hwf'.
    destruct (reports e) eqn:Hr.
    + rewrite bind_run.
      rewrite send_keyboard_report_accepted by apply Hwf'.
      rewrite ret_run, app_nil_r.
      rewrite (IH (next_state e st) _ Hwf').
      cbn [app fmap list_fmap]. by rewrite <- app_assoc.
    + rewrite ret_run.
      rewrite <- (next_state_silent e st Hr) at 1.
      by rewrite (IH (next_state e st) _ Hwf').
  - clear Hwf. revert st. induction es as [|e es IH]; intros st; [constructor|].
    cbn [snapshots]. apply Forall_app. split; [|apply IH].
    destruct (reports e); [|constructor].
    constructor; [apply report_of_length|constructor].
Qed.

Lemma keyboard_loop_snapshots_witness :
  keyboard_loop (Yields <$> [Down ecodes.KEY_A; Repeat ecodes.KEY_A])
    shift_held (Endpoint [] [] [])
  = (Ok (state_after shift_held [Down ecodes.KEY_A; Repeat ecodes.KEY_A]),
     Endpoint []
       ([] ++ ((λ r, (r, Ok ()))
               <$> snapshots shift_held
                     [Down ecodes.KEY_A; Repeat ecodes.KEY_A])) [])
  ∧ length (snapshots shift_held [Down ecodes.KEY_A; Repeat ecodes.KEY_A])
    = length (filter (λ e, reports e = true)
                [Down ecodes.KEY_A; Repeat ecodes.KEY_A])
  ∧ Forall (λ r, length r = 8%nat)
      (snapshots shift_held [Down ecodes.KEY_A; Repeat ecodes.KEY_A]).
Proof.
  apply (keyboard_loop_snapshots shift_held
           [Down ecodes.KEY_A; Repeat ecodes.KEY_A] [] []).
  apply (reachable_step all_released shift_held (Down ecodes.KEY_LEFTSHIFT)
           (fresh_endpoint [])
           (keyboard_event (Down ecodes.KEY_LEFTSHIFT) all_released
              (fresh_endpoint [])).2);
    [constructor | vm_compute; reflexivity].
Defined.

Lemma keyboard_loop_Ok_state (es : list input_event) (st st' : KeyboardState)
    (ep ep' : endpoint) :
  keyboard_loop (Yields <$> es) st ep = (Ok st', ep') →
  st' = state_after st es.
Proof.
  revert st ep. induction es as [|e es IH]; intros st ep.
  { by intros [= <- _]. }
  cbn [fmap list_fmap keyboard_loop]. rewrite bind_run.
  destruct (keyboard_event e st ep) as [[st1|x] ep1] eqn:He; [|done].
  apply keyboard_event_Ok_state in He as ->. apply IH.
Qed.

Lemma state_after_snoc (st : KeyboardState) (es : list input_event)
    (e : input_event) :
  state_after st (es ++ [e]) = next_state e (state_after st es).
Proof. unfold state_after. by rewrite fold_left_app. Qed.

Lemma MODIFIER_KEYS_disjoint_bits (k k' b b' : Z) :
  MODIFIER_KEYS !! k = Some b → MODIFIER_KEYS !! k' = Some b' →
  k ≠ k' → Z.land b' b = 0.
Proof.
  intros Hk Hk' Hne.
  assert (map_Forall (λ k b, map_Forall (λ k' b',
            k ≠ k' → Z.land b' b = 0) MODIFIER_KEYS) MODIFIER_KEYS) as H
    by (apply (bool_decide_unpack _); vm_compute; exact I).
  by apply (H k b Hk k' b' Hk').
Qed.

Lemma MODIFIER_KEYS_single_bit (k b : Z) :
  MODIFIER_KEYS !! k = Some b → ∃ i, 0 ≤ i < 8 ∧ b = 2 ^ i.
Proof.
  intros Hk.
  assert (map_Forall (λ _ b,
            Exists (λ i, b = 2 ^ i) [0; 1; 2; 3; 4; 5; 6; 7]) MODIFIER_KEYS)
    as H by (apply (bool_decide_unpack _); vm_compute; exact I).
  specialize (H k b Hk). cbn in H.
  apply Exists_exists in H as (i & Hi & ->). exists i. split; [|done].
  repeat (apply elem_of_cons in Hi as [-> | Hi]; [lia|]).
  by apply elem_of_nil in Hi.
Qed.

Lemma land_lor_other (m b b' : Z) :
  Z.land b' b = 0 → Z.land (Z.lor m b') b = Z.land m b.
Proof. intros H. by rewrite Z.land_lor_distr_l, H, Z.lor_0_r. Qed.

Lemma land_clear_other (m b b' : Z) :
  Z.land b' b = 0 → 0 ≤ b ≤ 255 →
  Z.land (Z.land m (Z.land (Z.lnot b') 0xFF)) b = Z.land m b.
Proof.
  intros H Hb. rewrite <- !Z.land_assoc. f_equal.
  rewrite (Z.land_comm 0xFF b), land_255_small by done.
  apply Z.bits_inj'. intros n Hn.
  rewrite Z.land_spec, Z.lnot_spec by done.
  assert (Z.testbit b' n && Z.testbit b n = false) as Hbb
    by (by rewrite <- Z.land_spec, H, Z.bits_0).
  by destruct (Z.testbit b' n), (Z.testbit b n).
Qed.

Lemma land_lor_own (m b : Z) : Z.land (Z.lor m b) b = b.
Proof.
  apply Z.bits_inj'. intros n Hn. rewrite Z.land_spec, Z.lor_spec.
  by destruct (Z.testbit m n), (Z.testbit b n).
Qed.

Lemma land_clear_own (m b : Z) :
  Z.land (Z.land m (Z.land (Z.lnot b) 0xFF)) b = 0.
Proof.
  apply Z.bits_inj'. intros n Hn.
  rewrite !Z.land_spec, Z.lnot_spec, Z.bits_0 by done.
  by destruct (Z.testbit m n), (Z.testbit b n), (Z.testbit 0xFF n).
Qed.

Lemma usage_after (st : KeyboardState) (es : list input_event) (u : Z) :
  u ∈ pressed_usages (state_after st es)
  ↔ match last (filter (λ e, acts_on_usage u e = true) es) with
    | Some e => value e = 1
    | None => u ∈ pressed_usages st
    end.
Proof.
  induction es as [|e es IH] using rev_ind; [done|].
  rewrite state_after_snoc, filter_app.
  destruct (acts_on_usage u e) eqn:Hact.
  - rewrite filter_cons_True, filter_nil, last_snoc by done.
    unfold acts_on_usage in Hact.
    apply andb_true_iff in Hact as [Hact Hkey].
    apply andb_true_iff in Hact as [Hact Hmod].
    apply andb_true_iff in Hact as [Htype Hval].
    apply bool_decide_eq_true in Hkey, Hmod.
    unfold next_state. rewrite Htype, Hmod, Hkey. cbn [negb].
    apply orb_true_iff in Hval as [Hv|Hv]; apply Z.eqb_eq in Hv; rewrite Hv;
      cbn [Z.eqb Pos.eqb pressed_usages].
    + rewrite elem_of_union, elem_of_singleton. tauto.
    + rewrite elem_of_difference, elem_of_singleton. split; [tauto|done].
  - rewrite filter_cons_False, filter_nil, app_nil_r by congruence.
    rewrite <- IH. unfold next_state.
    unfold acts_on_usage in Hact.
    destruct (type e =? ecodes.EV_KEY); cbn [negb andb] in *; [|done].
    destruct (value e =? 2); [done|].
    destruct (MODIFIER_KEYS !! code e) as [bit|] eqn:Hmod; [done|].
    rewrite bool_decide_true in Hact by done. cbn [andb] in Hact.
    destruct (KEY_TO_HID !! code e) as [u'|] eqn:Hkey; [|done].
    destruct (value e =? 1); cbn [orb andb] in Hact.
    { apply bool_decide_eq_false in Hact. cbn [pressed_usages].
      rewrite elem_of_union, elem_of_singleton.
      split; [intros [? | ->]; [done|congruence] | tauto]. }
    destruct (value e =? 0); cbn [orb andb] in Hact; [|done].
    apply bool_decide_eq_false in Hact. cbn [pressed_usages].
    rewrite elem_of_difference, elem_of_singleton.
    split; [tauto|]. intros ?. split; [done|]. intros ->. congruence.
Qed.

Lemma modifier_after (st : KeyboardState) (es : list input_event)
    (k bit : Z) :
  MODIFIER_KEYS !! k = Some bit →
  Z.land (mod_mask (state_after st es)) bit
  = match last (filter (λ e, acts_on_key k e = true) es) with
    | Some e => if value e =? 1 then bit else 0
    | None => Z.land (mod_mask st) bit
    end.
Proof.
  intros Hk.
  pose proof (MODIFIER_KEYS_range _ _ Hk) as Hbit. cbn in Hbit.
  induction es as [|e es IH] using rev_ind; [done|].
  rewrite state_after_snoc, filter_app.
  destruct (acts_on_key k e) eqn:Hact.
  - rewrite filter_cons_True, filter_nil, last_snoc by done.
    unfold acts_on_key in Hact.
    apply andb_true_iff in Hact as [Hact Hcode].
    apply andb_true_iff in Hact as [Htype Hval].
    apply Z.eqb_eq in Hcode.
    unfold next_state. rewrite Htype, Hcode, Hk. cbn [negb].
    apply orb_true_iff in Hval as [Hv|Hv]; apply Z.eqb_eq in Hv; rewrite Hv;
      cbn [Z.eqb Pos.eqb mod_mask].
    + apply land_lor_own.
    + apply land_clear_own.
  - rewrite filter_cons_False, filter_nil, app_nil_r by congruence.
    rewrite <- IH. unfold next_state.
    unfold acts_on_key in Hact.
    destruct (type e =? ecodes.EV_KEY); cbn [negb andb] in *; [|done].
    destruct (value e =? 2); [done|].
    destruct (MODIFIER_KEYS !! code e) as [bit'|] eqn:Hmod.
    2:{ destruct (KEY_TO_HID !! code e); [|done].
        destruct (value e =? 1); [done|]. by destruct (value e =? 0). }
    cbn [mod_mask].
    destruct (value e =? 1); cbn [orb andb] in Hact.
    { apply Z.eqb_neq in Hact. apply land_lor_other.
      by apply (MODIFIER_KEYS_disjoint_bits k (code e)). }
    destruct (value e =? 0); cbn [orb andb] in Hact; [|done].
    apply Z.eqb_neq in Hact. apply land_clear_other; [|done].
    by apply (MODIFIER_KEYS_disjoint_bits k (code e)).
Qed.

(** X11. The state of the translator is decided, usage by usage and modifier
    by modifier, by the last down or up event that concerns it.  After any
    stream processed from the all-released state: a usage is pressed exactly
    when the last down/up event of a regular key with that usage was a down;
    the bit of a modifier key is set exactly when the last down/up event of
    that key was a down, and is clear otherwise. *)
Theorem state_is_last_action (es : list input_event) (ep ep' : endpoint)
    (st' : KeyboardState) :
  keyboard_loop (Yields <$> es) all_released ep = (Ok st', ep') →
  (∀ u : Z,
     u ∈ pressed_usages st'
     ↔ ∃ e, last (filter (λ e, acts_on_usage u e = true) es) = Some e
            ∧ value e = 1)
  ∧ (∀ k bit : Z,
       MODIFIER_KEYS !! k = Some bit →
       (Z.land (mod_mask st') bit = bit
        ↔ ∃ e, last (filter (λ e, acts_on_key k e = true) es) = Some e
               ∧ value e = 1)
       ∧ (Z.land (mod_mask st') bit = bit ∨ Z.land (mod_mask st') bit = 0)).
Proof.
  intros ->%keyboard_loop_Ok_state. split.
  - intros u. rewrite usage_after.
    destruct (last _) as [e|];
      [split; [eauto | by intros (e' & [= <-] & ?)]|].
    cbn. split; [by intros ?%not_elem_of_empty|by intros (? & ? & _)].
  - intros k bit Hk. rewrite (modifier_after _ _ k bit Hk).
    destruct (MODIFIER_KEYS_single_bit k bit Hk) as (i & Hi & ->).
    assert (2 ^ i ≠ 0) as Hnz by (apply Z.pow_nonzero; lia).
    destruct (last _) as [e|].
    + destruct (Z.eqb_spec (value e) 1) as [Hv|Hv]; split; try tauto.
      * split; [eauto|done].
      * split; [by intros ?%eq_sym|]. intros (e' & [= <-] & ?). done.
    + cbn [all_released mod_mask]. rewrite Z.land_0_l. split; [|tauto].
      split; [by intros ?%eq_sym|by intros (? & ? & _)].
Qed.

Lemma state_is_last_action_witness :
  (∀ u : Z,
     u ∈ pressed_usages (state_after all_released shift_a_stream)
     ↔ ∃ e, last (filter (λ e, acts_on_usage u e = true) shift_a_stream)
            = Some e ∧ value e = 1)
  ∧ (∀ k bit : Z,
       MODIFIER_KEYS !! k = Some bit →
       (Z.land (mod_mask (state_after all_released shift_a_stream)) bit = bit
        ↔ ∃ e, last (filter (λ e, acts_on_key k e = true) shift_a_stream)
               = Some e ∧ value e = 1)
       ∧ (Z.land (mod_mask (state_after all_released shift_a_stream)) bit
          = bit
          ∨ Z.land (mod_mask (state_after all_released shift_a_stream)) bit
            = 0)).
Proof.
  apply (state_is_last_action shift_a_stream (fresh_endpoint [])
           (keyboard_loop (Yields <$> shift_a_stream) all_released
              (fresh_endpoint [])).2).
  vm_compute. reflexivity.
Defined.

Lemma MODIFIER_KEYS_not_usage (k : Z) :
  is_Some (MODIFIER_KEYS !! k) → KEY_TO_HID !! k = None.
Proof.
  intros [b Hk].
  assert (map_Forall (λ k _, KEY_TO_HID !! k = None) MODIFIER_KEYS) as H
    by (apply (bool_decide_unpack _); vm_compute; exact I).
  by apply (H k b).
Qed.

(** X12. In every reachable state the recorded keys and the pressed usages
    fit together: every pressed usage is the usage of a key recorded as
    pressed, and every key recorded as pressed is a regular key of the
    usage table, never a modifier. *)
Theorem usages_have_keys (st : KeyboardState) :
  reachable st →
  (∀ u, u ∈ pressed_usages st →
        ∃ c, c ∈ pressed_keys st ∧ KEY_TO_HID !! c = Some u)
  ∧ (∀ c, c ∈ pressed_keys st →
          MODIFIER_KEYS !! c = None ∧ is_Some (KEY_TO_HID !! c)).
Proof.
  induction 1 as [|st st' e ep ep' _ [IHu IHk] Hstep].
  { split; intros ? Hin; by apply not_elem_of_empty in Hin. }
  apply keyboard_event_Ok_state in Hstep as ->. unfold next_state.
  destruct (negb _); [done|]. destruct (value e =? 2); [done|].
  destruct (MODIFIER_KEYS !! code e) as [bit|] eqn:Hmod; [done|].
  destruct (KEY_TO_HID !! code e) as [u0|] eqn:Hkey; [|done].
  destruct (value e =? 1).
  { cbn [pressed_usages pressed_keys]. split.
    - intros u [Hu|Hu]%elem_of_union.
      + destruct (IHu u Hu) as (c & Hc & Hcu). exists c.
        split; [|done]. apply elem_of_union. by left.
      + apply elem_of_singleton in Hu as ->. exists (code e).
        split; [|done]. apply elem_of_union. right. by apply elem_of_singleton.
    - intros c [Hc|Hc]%elem_of_union; [by apply IHk|].
      apply elem_of_singleton in Hc as ->. eauto. }
  destruct (value e =? 0); [|done].
  cbn [pressed_usages pressed_keys]. split.
  - intros u [Hu Hne]%elem_of_difference.
    destruct (IHu u Hu) as (c & Hc & Hcu). exists c. split; [|done].
    apply elem_of_difference. split; [done|].
    intros ->%elem_of_singleton. apply Hne, elem_of_singleton. congruence.
  - intros c [Hc _]%elem_of_difference. by apply IHk.
Qed.

Lemma usages_have_keys_witness :
  (∀ u, u ∈ pressed_usages compose_menu_held →
        ∃ c, c ∈ pressed_keys compose_menu_held ∧ KEY_TO_HID !! c = Some u)
  ∧ (∀ c, c ∈ pressed_keys compose_menu_held →
          MODIFIER_KEYS !! c = None ∧ is_Some (KEY_TO_HID !! c)).
Proof.
  apply (usages_have_keys compose_menu_held).
  apply (reachable_step compose_held compose_menu_held
           (Down ecodes.KEY_MENU) (fresh_endpoint [])
           (keyboard_event (Down ecodes.KEY_MENU) compose_held
              (fresh_endpoint [])).2);
    [|vm_compute; reflexivity].
  apply (reachable_step all_released compose_held (Down ecodes.KEY_COMPOSE)
           (fresh_endpoint [])
           (keyboard_event (Down ecodes.KEY_COMPOSE) all_released
              (fresh_endpoint [])).2);
    [constructor | vm_compute; reflexivity].
Defined.

(** X13. The first report of every run of the keyboard bridge is the
    all-released baseline: either opening the device failed, the run raises
    that failure and nothing is written, or the first call of [write_report]
    of the run carries the all-released report and has the outcome of the
    endpoint writer on the endpoint as the run found it; and if that first
    call fails, it is the only one and its exception is the outcome of the
    run. *)
Theorem first_report_released (acquire : result unit)
    (items : list read_item) (ep : endpoint) :
  (∃ x, acquire = Raise x
        ∧ run_keyboard_bridge acquire items ep = (Raise x, ep))
  ∨ (acquire = Ok ()
     ∧ ∃ (r : result unit) (cs : list (list Z * result unit)),
         calls (run_keyboard_bridge acquire items ep).2
         = calls ep ++ (released_report, r) :: cs
         ∧ r = (write_report released_report ep).1
         ∧ (∀ x, r = Raise x →
                 cs = []
                 ∧ run_keyboard_bridge acquire items ep
                   = (Raise x, (write_report released_report ep).2))).
Proof.
  destruct acquire as [[]|x]; [right; split; [done|] | left; eauto].
  destruct (send_keyboard_report 0 ∅ ep) as [r0 ep1] eqn:H0.
  pose proof (write_report_calls released_report ep) as Hc0.
  rewrite <- send_released_run, H0 in Hc0. cbn [fst snd] in Hc0.
  rewrite <- send_released_run, H0. cbn [fst snd].
  destruct r0 as [[]|x0].
  - destruct (keyboard_loop items all_released ep1) as [rl ep2] eqn:Hl.
    destruct (keyboard_loop_calls items all_released ep1) as [cs Hcs].
    rewrite Hl in Hcs. cbn [snd] in Hcs.
    rewrite (run_keyboard_bridge_unfold items ep ep1 ep2 rl H0 Hl).
    pose proof (write_report_calls released_report ep2) as Hc2.
    destruct (write_report released_report ep2) as [rf ep3].
    cbn [fst snd] in Hc2.
    exists (Ok ()), (cs ++ [(released_report, rf)]).
    split; [|done].
    assert (calls ep3
            = calls ep ++ (released_report, Ok ())
                          :: cs ++ [(released_report, rf)]) as Hc3
      by (rewrite Hc2, Hcs, Hc0; by rewrite <- !app_assoc).
    destruct rf as [[]|x]; [done|]. by destruct (is_Exception x).
  - exists (Raise x0), [].
    assert (run_keyboard_bridge (Ok ()) items ep = (Raise x0, ep1)) as ->.
    { unfold run_keyboard_bridge. rewrite bind_run. unfold lift at 1.
      by rewrite bind_run, H0. }
    cbn [fst snd]. split; [done|]. split; [done|]. by intros x [= <-].
Qed.

(** The endpoint fails the first write with [EIO]: the run ends there. *)
Lemma first_report_released_witness :
  run_keyboard_bridge (Ok ()) [Yields (Down ecodes.KEY_A)]
    (fresh_endpoint [Some (OSError errno.EIO)])
  = (Raise (OSError errno.EIO),
     (write_report released_report
        (fresh_endpoint [Some (OSError errno.EIO)])).2).
Proof.
  destruct (first_report_released (Ok ()) [Yields (Down ecodes.KEY_A)]
              (fresh_endpoint [Some (OSError errno.EIO)]))
    as [(x & H & _) | (_ & r & cs & _ & Hr' & Hr)].
  - discriminate H.
  - exact (proj2 (Hr (OSError errno.EIO) Hr')).
Defined.

(** X14. The tables are well formed: no key code is both a modifier and a
    regular key; usages lie between 1 and 255, so none is the padding value
    0; the eight modifier keys carry eight different single bits of the
    modifier byte, and the three mouse buttons three different single bits
    below 8. *)
Theorem tables_well_formed :
  (∀ k, is_Some (MODIFIER_KEYS !! k) → KEY_TO_HID !! k = None)
  ∧ (∀ k u, KEY_TO_HID !! k = Some u → 1 ≤ u ≤ 255)
  ∧ (∀ k b, MODIFIER_KEYS !! k = Some b → ∃ i, 0 ≤ i < 8 ∧ b = 2 ^ i)
  ∧ (∀ k k' b, MODIFIER_KEYS !! k = Some b → MODIFIER_KEYS !! k' = Some b →
               k = k')
  ∧ size MODIFIER_KEYS = 8%nat
  ∧ (∀ k b, BUTTON_MAP !! k = Some b → b = 1 ∨ b = 2 ∨ b = 4)
  ∧ (∀ k k' b, BUTTON_MAP !! k = Some b → BUTTON_MAP !! k' = Some b → k = k')
  ∧ size BUTTON_MAP = 3%nat.
Proof.
  split; [apply MODIFIER_KEYS_not_usage|].
  split; [intros k u Hk; apply (KEY_TO_HID_range k u Hk)|].
  split; [apply MODIFIER_KEYS_single_bit|].
  split.
  { intros k k' b Hk Hk'. destruct (decide (k = k')) as [|Hne]; [done|].
    pose proof (MODIFIER_KEYS_disjoint_bits k k' b b Hk Hk' Hne) as H0.
    rewrite Z.land_diag in H0.
    destruct (MODIFIER_KEYS_single_bit k b Hk) as (i & Hi & ->).
    exfalso. revert H0. apply Z.pow_nonzero; lia. }
  split; [by vm_compute|].
  assert (map_Forall (λ _ b, b = 1 ∨ b = 2 ∨ b = 4) BUTTON_MAP) as Hb
    by (apply (bool_decide_unpack _); vm_compute; exact I).
  assert (map_Forall (λ k b, map_Forall (λ k' b', b = b' → k = k')
            BUTTON_MAP) BUTTON_MAP) as Hinj
    by (apply (bool_decide_unpack _); vm_compute; exact I).
  split; [intros k b Hk; apply (Hb k b Hk)|].
  split; [|by vm_compute].
  intros k k' b Hk Hk'. by apply (Hinj k b Hk k' b Hk').
Qed.

Lemma tables_well_formed_witness :
  KEY_TO_HID !! ecodes.KEY_LEFTSHIFT = None
  ∧ 1 ≤ 0x65 ≤ 255
  ∧ (∃ i, 0 ≤ i < 8 ∧ 0x80 = 2 ^ i).
Proof.
  destruct tables_well_formed as (H1 & H2 & H3 & _).
  split; [|split].
  - apply H1. exists 0x02. vm_compute. reflexivity.
  - apply (H2 ecodes.KEY_MENU). vm_compute. reflexivity.
  - apply (H3 ecodes.KEY_RIGHTMETA). vm_compute. reflexivity.
Defined.

(** ** Mouse translator, on every stream *)

Lemma land_7 (v : Z) : Z.land v 7 = v `mod` 8.
Proof. change 7 with (Z.ones 3). by rewrite Z.land_ones by lia. Qed.

Lemma lor_3bits (a b : Z) : 0 ≤ a ≤ 7 → 0 ≤ b ≤ 7 → 0 ≤ Z.lor a b ≤ 7.
Proof.
  intros Ha Hb.
  rewrite <- (Z.mod_small a 8), <- (Z.mod_small b 8) by lia.
  rewrite <- !land_7, <- Z.land_lor_distr_l, land_7.
  pose proof (Z.mod_pos_bound (Z.lor a b) 8). lia.
Qed.

Lemma land_3bits (a b : Z) : 0 ≤ a ≤ 7 → 0 ≤ Z.land a b ≤ 7.
Proof.
  intros Ha. split; [apply Z.land_nonneg; lia|].
  rewrite <- (Z.mod_small a 8) by lia.
  rewrite <- land_7, <- Z.land_assoc, (Z.land_comm 7 b), Z.land_assoc, land_7.
  pose proof (Z.mod_pos_bound (Z.land a b) 8). lia.
Qed.

Lemma BUTTON_MAP_range (k b : Z) : BUTTON_MAP !! k = Some b → 0 ≤ b ≤ 7.
Proof.
  intros Hk.
  assert (map_Forall (λ _ b, 0 ≤ b ≤ 7) BUTTON_MAP) as H
    by (apply (bool_decide_unpack _); vm_compute; exact I).
  apply (H k b Hk).
Qed.

(** The state an iteration of the mouse loop leaves behind when it does not
    raise. *)
Lemma mouse_event_Ok_buttons (e : input_event) (st st' : MouseState)
    (ep ep' : endpoint) :
  mouse_event e st ep = (Ok st', ep') →
  0 ≤ buttons st ≤ 7 → 0 ≤ prev_buttons st ≤ 7 →
  0 ≤ buttons st' ≤ 7 ∧ 0 ≤ prev_buttons st' ≤ 7.
Proof.
  intros Hev Hb Hp. unfold mouse_event in Hev.
  destruct (type e =? ecodes.EV_REL).
  { destruct (code e =? ecodes.REL_X); [by injection Hev as <- _|].
    destruct (code e =? ecodes.REL_Y); [by injection Hev as <- _|].
    destruct (code e =? ecodes.REL_WHEEL); by injection Hev as <- _. }
  destruct (type e =? ecodes.EV_KEY).
  { destruct (BUTTON_MAP !! code e) as [bit|] eqn:Hbit;
      [|by injection Hev as <- _].
    apply BUTTON_MAP_range in Hbit.
    destruct (value e =? 1).
    { injection Hev as <- _. cbn. split; [by apply lor_3bits|done]. }
    destruct (value e =? 0); [|by injection Hev as <- _].
    injection Hev as <- _. cbn. split; [by apply land_3bits|done]. }
  destruct ((type e =? ecodes.EV_SYN) && (code e =? ecodes.SYN_REPORT));
    [|by injection Hev as <- _].
  destruct (negb _ || _ || _ || _); [|by injection Hev as <- _].
  rewrite bind_run in Hev.
  destruct (send_mouse_report _ _ _ _ ep) as [[[]|x] ep1]; [|done].
  by injection Hev as <- _.
Qed.

(** X15. In every state the mouse loop can reach, the button mask and the
    baseline lie between 0 and 7, so byte 0 of every report is the button
    mask itself, untruncated. *)
Theorem mouse_buttons_in_range (st : MouseState) :
  mouse_reachable st →
  0 ≤ buttons st ≤ 7
  ∧ 0 ≤ prev_buttons st ≤ 7
  ∧ head (mouse_report_of st) = Some (buttons st).
Proof.
  intros Hreach.
  assert (0 ≤ buttons st ≤ 7 ∧ 0 ≤ prev_buttons st ≤ 7) as [Hb Hp].
  { induction Hreach as [|st st' e ep ep' _ [IHb IHp] Hstep]; [done|].
    by eapply mouse_event_Ok_buttons. }
  repeat split; try lia.
  unfold mouse_report_of. cbn [head]. by rewrite land_255_small by lia.
Qed.

(** The left and the middle button are down. *)
Lemma mouse_buttons_in_range_witness :
  0 ≤ 5 ≤ 7 ∧ 0 ≤ 0 ≤ 7
  ∧ head (mouse_report_of
            {| buttons := 5; prev_buttons := 0;
               dx_accum := 0; dy_accum := 0; wheel_accum := 0 |})
    = Some 5.
Proof.
  apply (mouse_buttons_in_range
           {| buttons := 5; prev_buttons := 0;
              dx_accum := 0; dy_accum := 0; wheel_accum := 0 |}).
  apply (mouse_reachable_step
           {| buttons := 1; prev_buttons := 0;
              dx_accum := 0; dy_accum := 0; wheel_accum := 0 |} _
           (Down ecodes.BTN_MIDDLE) (fresh_endpoint []) (fresh_endpoint []));
    [|vm_compute; reflexivity].
  apply (mouse_reachable_step mouse_initial _
           (Down ecodes.BTN_LEFT) (fresh_endpoint []) (fresh_endpoint []));
    [constructor | vm_compute; reflexivity].
Defined.

Lemma mouse_event_rel (e : input_event) (st : MouseState) (ep : endpoint) :
  type e = ecodes.EV_REL →
  mouse_event e st ep = (Ok (add_motion st [e]), ep).
Proof.
  intros Ht. unfold mouse_event, add_motion, rel_sum. cbn [foldr].
  rewrite Ht. cbn [Z.eqb Pos.eqb ecodes.EV_REL andb].
  destruct st as [b p dx dy dw]. cbn [buttons prev_buttons dx_accum dy_accum
                                      wheel_accum].
  destruct (Z.eqb_spec (code e) ecodes.REL_X) as [Hc|_].
  { rewrite Hc. cbn. rewrite ret_run. repeat f_equal; lia. }
  destruct (Z.eqb_spec (code e) ecodes.REL_Y) as [Hc|_].
  { rewrite Hc. cbn. rewrite ret_run. repeat f_equal; lia. }
  destruct (Z.eqb_spec (code e) ecodes.REL_WHEEL) as [Hc|_].
  { rewrite ret_run. repeat f_equal; lia. }
  rewrite ret_run. repeat f_equal; lia.
Qed.

Lemma add_motion_cons (st : MouseState) (e : input_event)
    (es : list input_event) :
  add_motion (add_motion st [e]) es = add_motion st (e :: es).
Proof.
  unfold add_motion, rel_sum. cbn [foldr buttons prev_buttons dx_accum
                                    dy_accum wheel_accum].
  f_equal;
    match goal with
    | |- context [if ?b then _ else _] => destruct b; lia
    end.
Qed.

Lemma mouse_loop_motion (es : list input_event) (rest : list mouse_item)
    (st : MouseState) (w : mouse_world) :
  Forall (λ e, type e = ecodes.EV_REL) es →
  running w = true →
  mouse_loop (((λ e, Item (Yields e)) <$> es) ++ rest) st w
  = mouse_loop rest (add_motion st es) w.
Proof.
  intros Hes Hr. revert st. induction Hes as [|e es He Hes IH]; intros st.
  { cbn. f_equal. unfold add_motion, rel_sum. cbn. destruct st; cbn.
    f_equal; lia. }
  cbn [fmap list_fmap app mouse_loop]. rewrite bind_run.
  unfold get_running. rewrite Hr. cbn [negb]. rewrite bind_run.
  unfold on_hid. rewrite (mouse_event_rel e st (hid w) He).
  destruct w as [ep r dl ns]. cbn [hid running dev_log naps] in *.
  by rewrite IH, add_motion_cons.
Qed.

(** X16. A frame of relative-motion events followed by a sync marker, from
    the initial state on an endpoint that accepts every write: nothing is
    written before the marker; at the marker one report goes out whose
    motion bytes are the sums of the X, Y and wheel values of the frame,
    each clamped to [-127,127], unless the three sums are zero, in which
    case nothing is written.  Motion beyond the clamp is not carried over to
    the next frame. *)
Theorem mouse_frame (es : list input_event) :
  Forall (λ e, type e = ecodes.EV_REL) es →
  mouse_reports_of (es ++ [Sync])
  = (if decide (rel_sum ecodes.REL_X es = 0 ∧ rel_sum ecodes.REL_Y es = 0
                ∧ rel_sum ecodes.REL_WHEEL es = 0)
     then []
     else [[ 0;
             signed_byte (clamp (rel_sum ecodes.REL_X es) (-127) 127);
             signed_byte (clamp (rel_sum ecodes.REL_Y es) (-127) 127);
             signed_byte (clamp (rel_sum ecodes.REL_WHEEL es) (-127) 127) ]])
  ∧ mouse_reports_of es = []
  ∧ mouse_reports_of (es ++ [Sync; Sync]) = mouse_reports_of (es ++ [Sync]).
Proof.
  intros Hes.
  assert (∀ tail : list input_event,
            mouse_reports_of (es ++ tail)
            = delivered
                (hid (mouse_loop ((λ e, Item (Yields e)) <$> tail)
                        (add_motion mouse_initial es) (fresh_world [])).2))
    as Hsplit.
  { intros tail. unfold mouse_reports_of.
    by rewrite fmap_app, mouse_loop_motion. }
  assert (∀ more : list input_event,
    delivered
      (hid (mouse_loop ((λ e, Item (Yields e)) <$> (Sync :: more))
              (add_motion mouse_initial es) (fresh_world [])).2)
    = if decide (rel_sum ecodes.REL_X es = 0 ∧ rel_sum ecodes.REL_Y es = 0
                 ∧ rel_sum ecodes.REL_WHEEL es = 0)
      then delivered
             (hid (mouse_loop ((λ e, Item (Yields e)) <$> more)
                     mouse_initial (fresh_world [])).2)
      else delivered
             (hid (mouse_loop ((λ e, Item (Yields e)) <$> more)
                     mouse_initial
                     (MouseWorld
                        (Endpoint []
                           [(mouse_report_of (add_motion mouse_initial es),
                             Ok ())] [])
                        true [] [])).2)) as Hsync.
  { intros more. cbn [fmap list_fmap mouse_loop]. rewrite bind_run.
    unfold get_running, fresh_world. cbn [running negb]. rewrite bind_run.
    unfold on_hid. cbn [hid]. unfold Sync. rewrite mouse_event_sync.
    unfold changed. cbn [add_motion mouse_initial buttons prev_buttons
                           dx_accum dy_accum wheel_accum]. rewrite !Z.add_0_l.
    destruct (decide (rel_sum ecodes.REL_X es = 0 ∧ _)) as [(Hx & Hy & Hw)|Hn].
    - rewrite bool_decide_false by (rewrite Hx, Hy, Hw; tauto).
      rewrite ret_run. cbn [running dev_log naps].
      do 2 f_equal. unfold add_motion, mouse_initial.
      cbn [buttons prev_buttons dx_accum dy_accum wheel_accum].
      by rewrite Hx, Hy, Hw.
    - rewrite bool_decide_true.
      2:{ destruct (decide (rel_sum ecodes.REL_X es = 0)); [|tauto].
          destruct (decide (rel_sum ecodes.REL_Y es = 0)); [|tauto].
          destruct (decide (rel_sum ecodes.REL_WHEEL es = 0)); tauto. }
      rewrite bind_run.
      change (send_mouse_report 0 (rel_sum ecodes.REL_X es)
                (rel_sum ecodes.REL_Y es) (rel_sum ecodes.REL_WHEEL es))
        with (send_mouse_report
                (buttons (add_motion mouse_initial es))
                (0 + rel_sum ecodes.REL_X es)
                (0 + rel_sum ecodes.REL_Y es)
                (0 + rel_sum ecodes.REL_WHEEL es)).
      change (0 + rel_sum ecodes.REL_X es)
        with (dx_accum (add_motion mouse_initial es)).
      change (0 + rel_sum ecodes.REL_Y es)
        with (dy_accum (add_motion mouse_initial es)).
      change (0 + rel_sum ecodes.REL_WHEEL es)
        with (wheel_accum (add_motion mouse_initial es)).
      rewrite send_mouse_report_run. reflexivity. }
  split; [|split].
  - rewrite Hsplit, Hsync. destruct (decide _); [done|].
    cbn. unfold mouse_report_of, add_motion, mouse_initial.
    cbn [buttons prev_buttons dx_accum dy_accum wheel_accum].
    by rewrite !Z.add_0_l.
  - rewrite <- (app_nil_r es), Hsplit. reflexivity.
  - rewrite !Hsplit, !Hsync. destruct (decide _); [|]; reflexivity.
Qed.

Lemma mouse_frame_witness :
  mouse_reports_of
    ([Rel ecodes.REL_X 100; Rel ecodes.REL_X 100; Rel ecodes.REL_Y (-3)]
     ++ [Sync])
  = (if decide
          (rel_sum ecodes.REL_X
             [Rel ecodes.REL_X 100; Rel ecodes.REL_X 100;
              Rel ecodes.REL_Y (-3)] = 0
           ∧ rel_sum ecodes.REL_Y
               [Rel ecodes.REL_X 100; Rel ecodes.REL_X 100;
                Rel ecodes.REL_Y (-3)] = 0
           ∧ rel_sum ecodes.REL_WHEEL
               [Rel ecodes.REL_X 100; Rel ecodes.REL_X 100;
                Rel ecodes.REL_Y (-3)] = 0)
     then []
     else [[ 0;
             signed_byte
               (clamp (rel_sum ecodes.REL_X
                         [Rel ecodes.REL_X 100; Rel ecodes.REL_X 100;
                          Rel ecodes.REL_Y (-3)]) (-127) 127);
             signed_byte
               (clamp (rel_sum ecodes.REL_Y
                         [Rel ecodes.REL_X 100; Rel ecodes.REL_X 100;
                          Rel ecodes.REL_Y (-3)]) (-127) 127);
             signed_byte
               (clamp (rel_sum ecodes.REL_WHEEL
                         [Rel ecodes.REL_X 100; Rel ecodes.REL_X 100;
                          Rel ecodes.REL_Y (-3)]) (-127) 127) ]]).
Proof.
  apply (mouse_frame
           [Rel ecodes.REL_X 100; Rel ecodes.REL_X 100; Rel ecodes.REL_Y (-3)]).
  repeat constructor.
Defined.

Example mouse_frame_saturates :
  mouse_reports_of
    [Rel ecodes.REL_X 100; Rel ecodes.REL_X 100; Rel ecodes.REL_Y (-3); Sync]
  = [[0; 127; 253; 0]].
Proof. vm_compute. reflexivity. Qed.

(** ** Mouse lifecycle manager, on every script *)

(** X17. Once [stop()] has been called, the event loop writes nothing more:
    whatever the device still delivers, the endpoint, the device log and the
    sleeps are left as they are, and the loop ends at the next event (or
    raises what the device raises). *)
Theorem stopped_loop_is_silent (items : list mouse_item) (st : MouseState)
    (w : mouse_world) :
  running w = false →
  (mouse_loop items st w).2 = w
  ∧ (mouse_loop (StopRequested :: items) st w).2 = w
  ∧ ∀ (e : input_event) (rest : list mouse_item),
      mouse_loop (Item (Yields e) :: rest) st w = (Ok (), w).
Proof.
  intros Hr.
  assert (∀ items, (mouse_loop items st w).2 = w) as Hall.
  { clear items. intros items.
    induction items as [|[[e|x]|] items IH]; [done| | |].
    - cbn [mouse_loop]. rewrite bind_run. unfold get_running. by rewrite Hr.
    - done.
    - cbn [mouse_loop]. rewrite bind_run. unfold set_running.
      destruct w as [ep r dl ns]. cbn in Hr. subst r. exact IH. }
  split; [apply Hall|]. split; [apply Hall|].
  intros e rest. cbn [mouse_loop]. rewrite bind_run. unfold get_running.
  by rewrite Hr.
Qed.

Lemma stopped_loop_is_silent_witness :
  (mouse_loop [Item (Yields Sync)] moved
     (MouseWorld (fresh_endpoint []) false [] [])).2
  = MouseWorld (fresh_endpoint []) false [] [].
Proof.
  apply (stopped_loop_is_silent [Item (Yields Sync)] moved
           (MouseWorld (fresh_endpoint []) false [] [])).
  reflexivity.
Defined.

Lemma neutral_send (ep : endpoint) :
  send_mouse_report 0 0 0 0 ep = write_report [0; 0; 0; 0] ep.
Proof. reflexivity. Qed.

Lemma neutral_attempt (w : mouse_world) :
  try_except (on_hid (send_mouse_report 0 0 0 0)) is_Exception (mret ()) w
  = match write_report [0; 0; 0; 0] (hid w) with
    | (Ok _, ep1) =>
        (Ok (), MouseWorld ep1 (running w) (dev_log w) (naps w))
    | (Raise x, ep1) =>
        if is_Exception x
        then (Ok (), MouseWorld ep1 (running w) (dev_log w) (naps w))
        else (Raise x, MouseWorld ep1 (running w) (dev_log w) (naps w))
    end.
Proof.
  unfold try_except, on_hid. rewrite neutral_send.
  destruct (write_report [0; 0; 0; 0] (hid w)) as [[[]|x] ep1]; [done|].
  by destruct (is_Exception x).
Qed.

Lemma release_attempt (grab : bool) (c : device) (w : mouse_world) :
  hid (try_except (if grab then dev_ungrab c else mret ())
         is_Exception (mret ()) w).2 = hid w
  ∧ dev_log (try_except (if grab then dev_ungrab c else mret ())
               is_Exception (mret ()) w).2
    = dev_log w
      ++ (if grab then [Ungrab (dev_id c) (ungrab_result c)] else [])
  ∧ (benign_result (ungrab_result c) →
     (try_except (if grab then dev_ungrab c else mret ())
        is_Exception (mret ()) w).1 = Ok ()).
Proof.
  unfold try_except. destruct grab.
  - unfold dev_ungrab. destruct (ungrab_result c) as [[]|x] eqn:Hu; [done|].
    destruct (is_Exception x) eqn:Hx; cbn; (split; [done|]);
      (split; [done|]); [done|].
    intros Hb. specialize (Hb x eq_refl). unfold benign in Hb. congruence.
  - cbn. by rewrite app_nil_r.
Qed.

(** X18. The cleanup on exit.  With no device attached it does nothing.
    With a device attached it calls [write_report] exactly once, with the
    neutral report; if that call returns or fails with an [Exception] it
    then releases the grab (when grabbing was asked for), swallows a failure
    of either step that is an [Exception], and returns. *)
Theorem cleanup_neutral (grab : bool) (c : device) (w : mouse_world) :
  cleanup grab None w = (Ok (), w)
  ∧ calls (hid (cleanup grab (Some c) w).2)
    = calls (hid w)
      ++ [([0; 0; 0; 0], (write_report [0; 0; 0; 0] (hid w)).1)]
  ∧ (benign_result (write_report [0; 0; 0; 0] (hid w)).1 →
     dev_log (cleanup grab (Some c) w).2
     = dev_log w
       ++ (if grab then [Ungrab (dev_id c) (ungrab_result c)] else [])
     ∧ (benign_result (ungrab_result c) →
        (cleanup grab (Some c) w).1 = Ok ())).
Proof.
  split; [done|].
  unfold cleanup. rewrite bind_run, neutral_attempt.
  pose proof (write_report_calls [0; 0; 0; 0] (hid w)) as Hc.
  destruct (write_report [0; 0; 0; 0] (hid w)) as [r ep1].
  cbn [fst snd] in *.
  destruct (release_attempt grab c
              (MouseWorld ep1 (running w) (dev_log w) (naps w)))
    as (Hh & Hd & Hr).
  destruct r as [[]|x].
  - split; [by rewrite Hh|]. intros _. by split.
  - destruct (is_Exception x) eqn:Hx.
    + split; [by rewrite Hh|]. intros _. by split.
    + split; [done|]. intros Hb. specialize (Hb x eq_refl).
      unfold benign in Hb. congruence.
Qed.

Lemma cleanup_neutral_witness :
  dev_log (cleanup true (Some unplugged_mouse)
             (fresh_world [Some (OSError errno.EIO)])).2
  = [] ++ [Ungrab 1 (Raise (OSError errno.ENODEV))]
  ∧ (benign_result (ungrab_result unplugged_mouse) →
     (cleanup true (Some unplugged_mouse)
        (fresh_world [Some (OSError errno.EIO)])).1 = Ok ()).
Proof.
  apply (proj2 (proj2 (cleanup_neutral true unplugged_mouse
                         (fresh_world [Some (OSError errno.EIO)])))).
  intros x [= <-]. reflexivity.
Defined.

(** X19. The manager is self-healing: as long as nobody calls [stop()] and
    neither the devices nor the endpoint raise anything worse than an
    [Exception], [run] goes through every round of the script, whatever
    fails, without raising and without leaving its loop. *)
Theorem manager_self_healing (grab : bool) (rounds : list round)
    (w : mouse_world) :
  Forall tame_round rounds →
  calm w →
  (run grab rounds w).1 = Ok ScriptEnded ∧ calm (run grab rounds w).2.
Proof.
  intros Hrounds Hw.
  destruct (run_loop_self_healing grab rounds None Hrounds I w Hw)
    as (Hc & s & Hs & ->).
  by split.
Qed.

Lemma manager_self_healing_witness :
  (run true (take 2 unplugged_rounds)
     (fresh_world [None; Some (OSError errno.EIO)])).1
  = Ok ScriptEnded
  ∧ calm (run true (take 2 unplugged_rounds)
            (fresh_world [None; Some (OSError errno.EIO)])).2.
Proof.
  apply (manager_self_healing true (take 2 unplugged_rounds)
           (fresh_world [None; Some (OSError errno.EIO)])).
  - repeat constructor; cbn; try (intros x [= <-]; reflexivity);
      try (intros x [=]).
  - split; [reflexivity|]. repeat constructor; intros x [=]; subst x;
      reflexivity.
Defined.

Lemma mouse_loop_stop_seen (items : list mouse_item) (st : MouseState)
    (w : mouse_world) :
  running w = true →
  running (mouse_loop items st w).2 = false →
  StopRequested ∈ items.
Proof.
  revert st w. induction items as [|[[e|x]|] items IH]; intros st w Hr.
  - cbn. congruence.
  - cbn [mouse_loop]. rewrite bind_run. unfold get_running. rewrite Hr.
    cbn [negb]. rewrite bind_run.
    pose proof (on_hid_running (mouse_event e st) w) as Hh.
    destruct (on_hid (mouse_event e st) w) as [[st1|x] w1];
      cbn [snd] in Hh.
    + intros Hf. right. apply (IH st1 w1); [congruence|done].
    + cbn. congruence.
  - cbn. congruence.
  - intros _. left.
Qed.

Lemma attach_running (grab : bool) (cur : option device) (d : device)
    (w : mouse_world) :
  running (attach grab cur d w).2 = running w.
Proof.
  unfold attach. destruct (is_new_device cur d); [|done].
  apply bind_running; [|done].
  intros w0. destruct grab; [|done].
  by apply try_except_running.
Qed.

Lemma on_device_error_running (grab : bool) (cur : option device)
    (w : mouse_world) :
  running (on_device_error grab cur w).2 = running w.
Proof.
  destruct cur as [c|]; unfold on_device_error; [|done].
  apply bind_running; [apply release_running|done].
Qed.

Lemma guarded_process_stop_seen (grab : bool) (cur : option device)
    (d : device) (w : mouse_world) :
  running w = true →
  running (guarded_process grab cur d w).2 = false →
  StopRequested ∈ read_loop d.
Proof.
  intros Hr. unfold guarded_process, process_mouse_events.
  rewrite bind_run.
  pose proof (on_hid_running (send_mouse_report 0 0 0 0) w) as Hh.
  destruct (on_hid (send_mouse_report 0 0 0 0) w) as [[[]|x] w1];
    cbn [snd] in Hh.
  - pose proof (mouse_loop_stop_seen (read_loop d) mouse_initial w1
                  ltac:(congruence)) as Hseen.
    destruct (mouse_loop (read_loop d) mouse_initial w1) as [[[]|x] w2];
      cbn [snd] in Hseen; [done|].
    destruct (is_OSError x).
    + by rewrite on_device_error_running.
    + by destruct (is_Exception x).
  - destruct (is_OSError x).
    + rewrite on_device_error_running. congruence.
    + destruct (is_Exception x); [rewrite bind_run; unfold nap|];
        cbn; intros; congruence.
Qed.

Lemma run_loop_stop_seen (grab : bool) (rounds : list round)
    (cur : option device) (w : mouse_world) :
  running w = true →
  running (run_loop grab rounds cur w).2 = false →
  Exists stop_in rounds.
Proof.
  revert cur w. induction rounds as [|rd rounds IH]; intros cur w Hr.
  { cbn [run_loop]. rewrite bind_run. unfold get_running. rewrite Hr.
    cbn. intros. congruence. }
  destruct (stop_before rd) eqn:Hstop.
  { intros _. left. by left. }
  cbn [run_loop]. rewrite Hstop, bind_run, ret_run, bind_run.
  unfold get_running. rewrite Hr. cbn [negb]. rewrite bind_run.
  unfold pick_mouse, try_except, lift.
  destruct (picked rd) as [[d|]|x] eqn:Hpick.
  - rewrite bind_run. pose proof (attach_running grab cur d w) as Ha.
    destruct (attach grab cur d w) as [[cur1|x] w1]; cbn [snd] in Ha;
      [|cbn; intros; congruence].
    rewrite bind_run.
    pose proof (guarded_process_stop_seen grab cur1 d w1 ltac:(congruence))
      as Hg.
    destruct (guarded_process grab cur1 d w1) as [[cur2|x] w2];
      cbn [snd] in Hg.
    + destruct (running w2) eqn:Hr2.
      * intros Hf. right. by apply (IH cur2 w2).
      * intros _. left. right. exists d. split; [done|]. by apply Hg.
    + intros Hf. left. right. exists d. split; [done|]. by apply Hg.
  - rewrite bind_run. unfold nap. intros Hf. right.
    apply (IH None (MouseWorld (hid w) (running w) (dev_log w)
                      (naps w ++ [1000])) Hr Hf).
  - destruct (is_Exception x); [|cbn; intros; congruence].
    rewrite ret_run, bind_run. unfold nap. intros Hf. right.
    apply (IH None (MouseWorld (hid w) (running w) (dev_log w)
                      (naps w ++ [1000])) Hr Hf).
Qed.

(** X20. Only an explicit stop request ends the manager: if [run], started
    with the bridge running, leaves its loop and returns, then [stop()] was
    called during the run (before a loop test or while a device was being
    read), and [self.running] is false at the end. *)
Theorem manager_stops_only_on_request (grab : bool) (rounds : list round)
    (w w' : mouse_world) :
  running w = true →
  run grab rounds w = (Ok Finished, w') →
  running w' = false ∧ Exists stop_in rounds.
Proof.
  intros Hr Hrun.
  assert (running w' = false) as Hf by (by eapply run_loop_Finished).
  split; [done|].
  apply (run_loop_stop_seen grab rounds None w Hr).
  unfold run in Hrun. by rewrite Hrun.
Qed.

Lemma manager_stops_only_on_request_witness :
  running
    (MouseWorld
       (Endpoint [] [([0; 0; 0; 0], Ok ()); ([1; 0; 0; 0], Ok ())] [])
       false
       [Grab 1 (Ok ()); Ungrab 1 (Raise (OSError errno.ENODEV))]
       [500; 1000]) = false
  ∧ Exists stop_in unplugged_rounds.
Proof.
  apply (manager_stops_only_on_request true unplugged_rounds (fresh_world [])).
  - reflexivity.
  - vm_compute. reflexivity.
Defined.

Lemma run_loop_searching (grab : bool) (rounds : list round)
    (cur : option device) (w : mouse_world) :
  Forall no_mouse rounds →
  running w = true →
  run_loop grab rounds cur w
  = (Ok ScriptEnded,
     MouseWorld (hid w) true (dev_log w)
       (naps w ++ replicate (length rounds) 1000)).
Proof.
  intros Hrounds. revert cur w.
  induction Hrounds as [|rd rounds [Hstop Hpick] Hrounds IH]; intros cur w Hr.
  { cbn [run_loop]. rewrite bind_run. unfold get_running. rewrite Hr.
    rewrite ret_run. destruct w as [ep r dl ns]. cbn in *. subst r.
    by rewrite app_nil_r. }
  cbn [run_loop]. rewrite Hstop, bind_run, ret_run, bind_run.
  unfold get_running. rewrite Hr. cbn [negb]. rewrite bind_run.
  assert (pick_mouse (picked rd) w = (Ok None, w)) as ->.
  { unfold pick_mouse, try_except, lift.
    destruct Hpick as [->|(x & -> & Hx)]; [done|]. by rewrite Hx. }
  rewrite bind_run. unfold nap at 1.
  rewrite IH by done. cbn [hid dev_log naps length replicate].
  by rewrite <- app_assoc.
Qed.

(** One round without a mouse. *)
Lemma run_loop_no_mouse (grab : bool) (rd : round) (rounds : list round)
    (cur : option device) (w : mouse_world) :
  no_mouse rd →
  running w = true →
  run_loop grab (rd :: rounds) cur w
  = run_loop grab rounds None
      (MouseWorld (hid w) true (dev_log w) (naps w ++ [1000])).
Proof.
  intros [Hstop Hpick] Hr.
  cbn [run_loop]. rewrite Hstop, bind_run, ret_run, bind_run.
  unfold get_running. rewrite Hr. cbn [negb]. rewrite bind_run.
  assert (pick_mouse (picked rd) w = (Ok None, w)) as ->.
  { unfold pick_mouse, try_except, lift.
    destruct Hpick as [->|(x & -> & Hx)]; [done|]. by rewrite Hx. }
  rewrite bind_run. unfold nap at 1. by rewrite Hr.
Qed.

(** A search followed by further rounds: the further rounds are run with no
    current device. *)
Lemma run_loop_searching_then (grab : bool) (rd : round)
    (searching rest : list round) (cur : option device) (w : mouse_world) :
  Forall no_mouse (rd :: searching) →
  running w = true →
  run_loop grab ((rd :: searching) ++ rest) cur w
  = run_loop grab rest None
      (MouseWorld (hid w) true (dev_log w)
         (naps w ++ replicate (length (rd :: searching)) 1000)).
Proof.
  intros Hrounds. revert rd cur w Hrounds.
  induction searching as [|rd' searching IH]; intros rd cur w Hrounds Hr;
    apply Forall_cons in Hrounds as [Hrd Hrounds];
    change ((rd :: ?l) ++ rest) with (rd :: (l ++ rest));
    rewrite (run_loop_no_mouse grab rd _ cur w Hrd Hr).
  - done.
  - rewrite IH by done. cbn [hid dev_log naps length replicate].
    by rewrite <- app_assoc.
Qed.

(** X21. While no mouse is found the manager only sleeps: over rounds in
    which [pick_mouse_device()] returns nothing or fails with an
    [Exception], and without a stop request, it sleeps one second per round,
    writes nothing to the endpoint, touches no device and keeps looping; and
    it forgets any current device, so that the rounds after the search are
    run with none, and a stop request right after the search ends the run
    with no report written and no device released. *)
Theorem searching_only_sleeps (grab : bool) (rd : round)
    (searching rest : list round) (cur : option device) (w : mouse_world) :
  Forall no_mouse (rd :: searching) →
  running w = true →
  run_loop grab (rd :: searching) cur w
  = (Ok ScriptEnded,
     MouseWorld (hid w) true (dev_log w)
       (naps w ++ replicate (length (rd :: searching)) 1000))
  ∧ run_loop grab ((rd :: searching) ++ rest) cur w
    = run_loop grab rest None
        (MouseWorld (hid w) true (dev_log w)
           (naps w ++ replicate (length (rd :: searching)) 1000))
  ∧ ∀ p : result (option device),
      run_loop grab
        ((rd :: searching) ++ [{| stop_before := true; picked := p |}]) cur w
      = (Ok Finished,
         MouseWorld (hid w) false (dev_log w)
           (naps w ++ replicate (length (rd :: searching)) 1000)).
Proof.
  intros Hrounds Hr. split; [by apply run_loop_searching|].
  split; [by apply run_loop_searching_then|].
  intros p. by rewrite run_loop_searching_then.
Qed.

(** The mouse of the last round is still the current device when the search
    begins; the broken pipe scripted for the endpoint is never met. *)
Lemma searching_only_sleeps_witness :
  run_loop true
    ([ {| stop_before := false; picked := Ok None |};
       {| stop_before := false; picked := Raise RuntimeError |} ]
     ++ [ {| stop_before := true; picked := Ok (Some unplugged_mouse) |} ])
    (Some unplugged_mouse) (fresh_world [disconnected])
  = (Ok Finished,
     MouseWorld (hid (fresh_world [disconnected])) false
       (dev_log (fresh_world [disconnected]))
       (naps (fresh_world [disconnected]) ++ replicate 2 1000)).
Proof.
  destruct (searching_only_sleeps true
              {| stop_before := false; picked := Ok None |}
              [ {| stop_before := false; picked := Raise RuntimeError |} ]
              [] (Some unplugged_mouse) (fresh_world [disconnected]))
    as (_ & _ & H).
  - constructor; [split; [reflexivity | left; reflexivity]|].
    constructor; [|constructor].
    split; [reflexivity|]. right. exists RuntimeError. split; reflexivity.
  - reflexivity.
  - exact (H (Ok (Some unplugged_mouse))).
Defined.

Lemma mouse_event_accepting (e : input_event) (st : MouseState)
    (cs : list (list Z * result unit)) (sl : list Z) :
  ∃ (st' : MouseState) (cs' : list (list Z * result unit)),
    mouse_event e st (Endpoint [] cs sl) = (Ok st', Endpoint [] cs' sl).
Proof.
  unfold mouse_event.
  repeat match goal with
         | |- ∃ _ _, (if ?b then _ else _) _ = _ => destruct b
         | |- ∃ _ _, (match ?o with Some _ => _ | None => _ end) _ = _ =>
             destruct o
         | |- ∃ _ _, mret _ _ = _ => by eexists _, _
         end.
  rewrite bind_run, send_mouse_report_run.
  unfold write_report. cbn. rewrite app_nil_r. by eexists _, _.
Qed.

Lemma mouse_loop_accepting (pre : list input_event) (rest : list mouse_item)
    (st : MouseState) (cs : list (list Z * result unit)) (sl : list Z)
    (dl : list dev_action) (ns : list Z) :
  ∃ (st' : MouseState) (cs' : list (list Z * result unit)),
    mouse_loop (((λ e, Item (Yields e)) <$> pre) ++ rest) st
      (MouseWorld (Endpoint [] cs sl) true dl ns)
    = mouse_loop rest st' (MouseWorld (Endpoint [] cs' sl) true dl ns).
Proof.
  revert st cs. induction pre as [|e pre IH]; intros st cs.
  { by exists st, cs. }
  cbn [fmap list_fmap app mouse_loop]. rewrite bind_run.
  unfold get_running. cbn [running negb]. rewrite bind_run.
  unfold on_hid. cbn [hid running dev_log naps].
  destruct (mouse_event_accepting e st cs sl) as (st1 & cs1 & ->).
  apply IH.
Qed.

(** X22. A stop request while a mouse is attached.  The endpoint accepts
    every write, a mouse is found and read, and [stop()] is called before
    one of its events arrives: the manager stops reading at that event,
    leaves its loop, writes the neutral report as its last report, releases
    the grab it took (when grabbing was asked for) and returns. *)
Theorem stop_while_attached (grab : bool) (d : device)
    (pre : list input_event) (e : input_event) (post : list mouse_item)
    (cs : list (list Z * result unit)) (sl : list Z)
    (dl : list dev_action) (ns : list Z) :
  read_loop d
  = ((λ e, Item (Yields e)) <$> pre) ++ StopRequested :: Item (Yields e) :: post →
  benign_result (grab_result d) →
  benign_result (ungrab_result d) →
  ∃ cs' : list (list Z * result unit),
    run grab [ {| stop_before := false; picked := Ok (Some d) |} ]
      (MouseWorld (Endpoint [] cs sl) true dl ns)
    = (Ok Finished,
       MouseWorld (Endpoint [] (cs' ++ [([0; 0; 0; 0], Ok ())]) sl) false
         (dl ++ (if grab
                 then [ Grab (dev_id d) (grab_result d);
                        Ungrab (dev_id d) (ungrab_result d) ]
                 else []))
         ns).
Proof.
  intros Hloop Hgrab Hungrab.
  unfold run. cbn [run_loop stop_before picked].
  rewrite bind_run, ret_run, bind_run. unfold get_running at 1.
  cbn [running negb]. rewrite bind_run.
  unfold pick_mouse, try_except at 1, lift. rewrite bind_run.
  (* attach *)
  assert (attach grab None d (MouseWorld (Endpoint [] cs sl) true dl ns)
          = (Ok (Some d),
             MouseWorld (Endpoint [] cs sl) true
               (dl ++ (if grab then [Grab (dev_id d) (grab_result d)] else []))
               ns)) as ->.
  { unfold attach. cbn [is_new_device]. rewrite bind_run.
    destruct grab; [|by rewrite !ret_run, app_nil_r].
    unfold try_except, dev_grab. cbn [hid running dev_log naps].
    destruct (grab_result d) as [[]|x] eqn:Hg; [by rewrite ret_run|].
    rewrite (Hgrab x eq_refl). by rewrite !ret_run. }
  rewrite bind_run.
  (* the device is read until the stop request is seen *)
  assert (∃ cs1,
            guarded_process grab (Some d) d
              (MouseWorld (Endpoint [] cs sl) true
                 (dl ++ (if grab then [Grab (dev_id d) (grab_result d)] else []))
                 ns)
            = (Ok (Some d),
               MouseWorld (Endpoint [] cs1 sl) false
                 (dl ++ (if grab then [Grab (dev_id d) (grab_result d)] else []))
                 ns)) as [cs1 ->].
  { unfold guarded_process, process_mouse_events. rewrite bind_run.
    unfold on_hid. cbn [hid running dev_log naps]. rewrite neutral_send.
    unfold write_report. cbn [pending write_loop calls slept].
    rewrite app_nil_r, Hloop.
    destruct (mouse_loop_accepting pre
                (StopRequested :: Item (Yields e) :: post) mouse_initial
                (cs ++ [([0; 0; 0; 0], Ok ())]) sl
                (dl ++ (if grab then [Grab (dev_id d) (grab_result d)] else []))
                ns) as (st' & cs1 & ->).
    exists cs1. reflexivity. }
  (* the loop test fails and the cleanup runs *)
  cbn [run_loop]. rewrite bind_run. unfold get_running.
  cbn [running]. rewrite bind_run.
  unfold cleanup. rewrite bind_run, neutral_attempt.
  unfold write_report. cbn [hid pending write_loop calls slept running
                              dev_log naps].
  rewrite app_nil_r.
  exists cs1. unfold try_except.
  destruct grab.
  - unfold dev_ungrab. cbn [hid running dev_log naps].
    rewrite <- app_assoc. cbn [app].
    destruct (ungrab_result d) as [[]|x] eqn:Hu; [by rewrite ret_run|].
    rewrite (Hungrab x eq_refl). by rewrite !ret_run.
  - by rewrite !ret_run, !app_nil_r.
Qed.

(** The left button goes down, then the bridge is stopped. *)
Lemma stop_while_attached_witness :
  ∃ cs' : list (list Z * result unit),
    run true
      [ {| stop_before := false;
           picked :=
             Ok (Some {| dev_id := 2; dev_path := 9;
                         grab_result := Ok (); ungrab_result := Ok ();
                         read_loop :=
                           ((λ e, Item (Yields e))
                            <$> [Down ecodes.BTN_LEFT; Sync])
                           ++ StopRequested :: Item (Yields Sync) :: [] |}) |} ]
      (MouseWorld (Endpoint [] [] []) true [] [])
    = (Ok Finished,
       MouseWorld (Endpoint [] (cs' ++ [([0; 0; 0; 0], Ok ())]) []) false
         ([] ++ [Grab 2 (Ok ()); Ungrab 2 (Ok ())]) []).
Proof.
  apply (stop_while_attached true
           {| dev_id := 2; dev_path := 9;
              grab_result := Ok (); ungrab_result := Ok ();
              read_loop :=
                ((λ e, Item (Yields e)) <$> [Down ecodes.BTN_LEFT; Sync])
                ++ StopRequested :: Item (Yields Sync) :: [] |}
           [Down ecodes.BTN_LEFT; Sync] Sync [] [] [] [] []).
  - reflexivity.
  - intros x [=].
  - intros x [=].
Defined.

(** ** Choosing the input device *)

Lemma open_devices_Ok (listed : list (result node)) (devs : list node) :
  open_devices listed = Ok devs ↔ listed = Ok <$> devs.
Proof.
  revert devs. induction listed as [|[d|x] listed IH]; intros devs; cbn.
  - split; [intros [= <-]; done | by destruct devs].
  - destruct (open_devices listed) as [ds|y] eqn:Ho.
    + split.
      * intros [= <-]. cbn. f_equal. by apply IH.
      * destruct devs as [|d' devs]; [done|]. intros [= -> Hl].
        apply IH in Hl. by injection Hl as ->.
    + split; [done|]. destruct devs as [|d' devs]; [done|].
      intros [= -> Hl]. by apply IH in Hl.
  - split; [done | by destruct devs].
Qed.

Lemma open_devices_Raise (before : list node) (x : exn)
    (after : list (result node)) :
  open_devices ((Ok <$> before) ++ Raise x :: after) = Raise x.
Proof. induction before as [|d before IH]; cbn; [done | by rewrite IH]. Qed.

Lemma select_Ok (test : gmap Z (list Z) → bool) (devs found : list node) :
  select test devs = Ok found →
  Forall (λ d, ∃ caps, node_capabilities d = Ok caps) devs
  ∧ ∀ d, d ∈ found ↔ d ∈ devs ∧ qualifies test d.
Proof.
  revert found. induction devs as [|d devs IH]; intros found; cbn.
  - intros [= <-]. split; [constructor|]. intros d.
    rewrite !elem_of_nil. tauto.
  - destruct (node_capabilities d) as [caps|x] eqn:Hc; [|done].
    destruct (select test devs) as [fs|x]; [|done]. intros [= <-].
    destruct (IH fs eq_refl) as [Hall Hin]. split.
    { constructor; eauto. }
    intros d'. rewrite (elem_of_cons devs). destruct (test caps) eqn:Ht.
    + rewrite elem_of_cons, Hin. split.
      * intros [-> | [? ?]]; [|tauto]. split; [by left|]. by exists caps.
      * intros [[-> | ?] ?]; [by left | right; tauto].
    + rewrite Hin. split; [tauto|]. intros [[-> | ?] Hq]; [|tauto].
      destruct Hq as (caps' & Hc' & Ht'). congruence.
Qed.

Lemma select_Raise (test : gmap Z (list Z) → bool) (before : list node)
    (d : node) (x : exn) (after : list node) :
  Forall (λ d, ∃ caps, node_capabilities d = Ok caps) before →
  node_capabilities d = Raise x →
  select test (before ++ d :: after) = Raise x.
Proof.
  intros Hb Hd. induction Hb as [|b before [caps Hc] _ IH]; cbn.
  - by rewrite Hd.
  - by rewrite Hc, IH.
Qed.

Lemma select_total (test : gmap Z (list Z) → bool) (devs : list node) :
  Forall (λ d, ∃ caps, node_capabilities d = Ok caps) devs →
  ∃ found, select test devs = Ok found.
Proof.
  induction 1 as [|d devs [caps Hc] _ [found IH]]; cbn; [by eexists|].
  rewrite Hc, IH. by eexists.
Qed.

Section sorting.
Context {A K : Type} `{Lexico K} `{!StrictOrder (@lexico K _)}
  `{!TrichotomyT (@lexico K _)} `{∀ k1 k2 : K, Decision (lexico k1 k2)}.
Variable key : A → K.

Lemma head_insert_by (a : A) (l : list A) :
  head (insert_by key a l)
  = Some (match head l with
          | Some b => if bool_decide (lexico (key b) (key a)) then b else a
          | None => a
          end).
Proof. destruct l as [|b l]; cbn; [done|]. by case_bool_decide. Qed.

(** The head of the sorted list is an element with a least key. *)
Lemma sort_by_head (l : list A) (d : A) :
  head (sort_by key l) = Some d →
  d ∈ l ∧ ∀ d', d' ∈ l → ¬ lexico (key d') (key d).
Proof.
  revert d. induction l as [|a l IH]; intros d; [done|].
  change (sort_by key (a :: l)) with (insert_by key a (sort_by key l)).
  rewrite head_insert_by.
  destruct (head (sort_by key l)) as [b|] eqn:Hh.
  - destruct (IH b eq_refl) as [Hb Hmin]. case_bool_decide as Hlt.
    + intros [= <-]. split; [by right|].
      intros d' [-> | Hd']%elem_of_cons; [|by apply Hmin].
      intros Hab. by apply (irreflexivity lexico (key b)); trans (key a).
    + intros [= <-]. split; [by left|].
      intros d' [-> | Hd']%elem_of_cons; [apply irreflexivity, _|].
      intros Hd. apply (Hmin d' Hd').
      destruct (trichotomyT lexico (key b) (key a)) as [[Hba | Heq] | Hab].
      * done.
      * by rewrite Heq.
      * by trans (key a).
  - intros [= <-]. destruct l as [|a' l].
    2:{ change (sort_by key (a' :: l))
          with (insert_by key a' (sort_by key l)) in Hh.
        by rewrite head_insert_by in Hh. }
    split; [by left|]. intros d' ->%list_elem_of_singleton.
    apply irreflexivity, _.
Qed.

Lemma sort_by_head_Some (a : A) (l : list A) :
  is_Some (head (sort_by key (a :: l))).
Proof.
  change (sort_by key (a :: l)) with (insert_by key a (sort_by key l)).
  rewrite head_insert_by. eauto.
Qed.
End sorting.

Section picking_facts.
Variable lower : str → str.

Lemma first_sorted_least (word : str) (d0 : node) (found : list node) :
  first_sorted lower word d0 found ∈ d0 :: found
  ∧ ∀ d', d' ∈ d0 :: found →
      ¬ lexico (sort_key lower word d')
               (sort_key lower word (first_sorted lower word d0 found)).
Proof.
  unfold first_sorted.
  destruct (sort_by_head_Some (sort_key lower word) d0 found) as [d Hd].
  rewrite Hd. cbn [default]. by apply sort_by_head.
Qed.

(** What a least sort key means: a device whose name has the word is
    preferred, and among devices alike in that the least path wins. *)
Lemma least_key (word : str) (d d' : node) :
  ¬ lexico (sort_key lower word d') (sort_key lower word d) →
  (named lower word d' = true → named lower word d = true)
  ∧ (named lower word d' = named lower word d →
     ¬ lexico (node_path d') (node_path d)).
Proof.
  unfold sort_key, named.
  destruct (contains word (lower (default [] (node_name d')))),
    (contains word (lower (default [] (node_name d)))); intros Hle;
    (split; [try done | intros Heq; try done]).
  - intros Hlt. apply Hle. by right.
  - exfalso. apply Hle. by left.
  - intros Hlt. apply Hle. by right.
Qed.

(** The devices a picker chooses from. *)
Lemma picked_from (test : gmap Z (list Z) → bool) (word : str)
    (listed : list (result node)) (d0 : node) (found : list node)
    (devs : list node) :
  open_devices listed = Ok devs →
  select test devs = Ok (d0 :: found) →
  listed = Ok <$> devs
  ∧ first_sorted lower word d0 found ∈ devs
  ∧ qualifies test (first_sorted lower word d0 found)
  ∧ (∀ d', d' ∈ devs → qualifies test d' →
       ¬ lexico (sort_key lower word d')
                (sort_key lower word (first_sorted lower word d0 found)))
  ∧ (∀ d', d' ∈ devs → qualifies test d' →
       named lower word d' = true →
       named lower word (first_sorted lower word d0 found) = true)
  ∧ (∀ d', d' ∈ devs → qualifies test d' →
       named lower word d'
       = named lower word (first_sorted lower word d0 found) →
       ¬ lexico (node_path d') (node_path (first_sorted lower word d0 found))).
Proof.
  intros Ho Hs. apply open_devices_Ok in Ho.
  destruct (select_Ok _ _ _ Hs) as [_ Hin].
  destruct (first_sorted_least word d0 found) as [Hmem Hmin].
  apply Hin in Hmem as [Hmem Hq].
  assert (∀ d', d' ∈ devs → qualifies test d' →
            ¬ lexico (sort_key lower word d')
                (sort_key lower word (first_sorted lower word d0 found)))
    as Hleast.
  { intros d' Hd' Hq'. apply Hmin, Hin. done. }
  repeat split; try done.
  - intros d' Hd' Hq'. by apply least_key, Hleast.
  - intros d' Hd' Hq'. by apply least_key, Hleast.
Qed.
End picking_facts.

Lemma mouse_like_spec (caps : gmap Z (list Z)) :
  mouse_like caps = true
  ↔ ecodes.REL_X ∈ default [] (caps !! ecodes.EV_REL)
    ∧ ecodes.REL_Y ∈ default [] (caps !! ecodes.EV_REL)
    ∧ (ecodes.BTN_LEFT ∈ default [] (caps !! ecodes.EV_KEY)
       ∨ ecodes.BTN_RIGHT ∈ default [] (caps !! ecodes.EV_KEY)).
Proof.
  unfold mouse_like. cbn [existsb].
  rewrite !andb_true_iff, !orb_true_iff, !bool_decide_eq_true.
  change BTN_MOUSE with ecodes.BTN_LEFT. intuition congruence.
Qed.

(** X23. When [pick_keyboard_device] returns a device, every listed path was
    opened, and the device is one of them, passes the keyboard test (the
    codes of A, Enter and Space among its [EV_KEY] capabilities) and has a
    least sort key among the devices that pass: if any of them has
    "keyboard" in its lower-cased name the chosen one has, and among those
    alike in that no path is smaller, paths being compared as strings. *)
Theorem pick_keyboard_device_least (lower : str → str)
    (listed : list (result node)) (d : node) :
  pick_keyboard_device lower listed = Ok d →
  ∃ devs : list node,
    listed = Ok <$> devs
    ∧ d ∈ devs
    ∧ qualifies keyboard_like d
    ∧ (∀ d', d' ∈ devs → qualifies keyboard_like d' →
         ¬ lexico (sort_key lower keyboard_word d')
                  (sort_key lower keyboard_word d))
    ∧ (∀ d', d' ∈ devs → qualifies keyboard_like d' →
         named lower keyboard_word d' = true →
         named lower keyboard_word d = true)
    ∧ (∀ d', d' ∈ devs → qualifies keyboard_like d' →
         named lower keyboard_word d' = named lower keyboard_word d →
         ¬ lexico (node_path d') (node_path d)).
Proof.
  unfold pick_keyboard_device.
  destruct (open_devices listed) as [devs|x] eqn:Ho; [|done].
  destruct (select keyboard_like devs) as [[|d0 found]|x] eqn:Hs; try done.
  intros [= <-]. exists devs. by eapply picked_from.
Qed.

(** The named keyboard at [event10] wins over the one at [event2], the
    string ["/dev/input/event10"] being the smaller one, and over the
    unnamed device at [event1]. *)
Lemma pick_keyboard_device_least_witness :
  pick_keyboard_device ascii_lower (Ok <$> attached) = Ok usb_keyboard
  ∧ ∃ devs : list node,
      Ok <$> attached = Ok <$> devs
      ∧ usb_keyboard ∈ devs
      ∧ qualifies keyboard_like usb_keyboard
      ∧ (∀ d', d' ∈ devs → qualifies keyboard_like d' →
           ¬ lexico (sort_key ascii_lower keyboard_word d')
                    (sort_key ascii_lower keyboard_word usb_keyboard))
      ∧ (∀ d', d' ∈ devs → qualifies keyboard_like d' →
           named ascii_lower keyboard_word d' = true →
           named ascii_lower keyboard_word usb_keyboard = true)
      ∧ (∀ d', d' ∈ devs → qualifies keyboard_like d' →
           named ascii_lower keyboard_word d'
           = named ascii_lower keyboard_word usb_keyboard →
           ¬ lexico (node_path d') (node_path usb_keyboard)).
Proof.
  split; [vm_compute; reflexivity|].
  apply (pick_keyboard_device_least ascii_lower (Ok <$> attached)
           usb_keyboard).
  vm_compute; reflexivity.
Defined.

(** X24. The mouse pickers.  A device passes the mouse test exactly when it
    reports [REL_X] and [REL_Y] and one of [BTN_LEFT] and [BTN_RIGHT]
    ([BTN_MOUSE] is the code of [BTN_LEFT]); the picker of the stand-alone
    script differs from that of the combined bridge only in raising
    [RuntimeError] where the latter returns [None]; and a device that is
    returned is an opened device that passes the test with a least sort
    key: one with "mouse" in its lower-cased name if there is any, and with
    the least path among those alike in that. *)
Theorem pick_mouse_device_least (lower : str → str)
    (listed : list (result node)) :
  (∀ caps : gmap Z (list Z),
     mouse_like caps = true
     ↔ ecodes.REL_X ∈ default [] (caps !! ecodes.EV_REL)
       ∧ ecodes.REL_Y ∈ default [] (caps !! ecodes.EV_REL)
       ∧ (ecodes.BTN_LEFT ∈ default [] (caps !! ecodes.EV_KEY)
          ∨ ecodes.BTN_RIGHT ∈ default [] (caps !! ecodes.EV_KEY)))
  ∧ standalone_pick_mouse_device lower listed
    = match pick_mouse_device lower listed with
      | Ok (Some d) => Ok d
      | Ok None => Raise RuntimeError
      | Raise x => Raise x
      end
  ∧ ∀ d : node,
      pick_mouse_device lower listed = Ok (Some d) →
      ∃ devs : list node,
        listed = Ok <$> devs
        ∧ d ∈ devs
        ∧ qualifies mouse_like d
        ∧ (∀ d', d' ∈ devs → qualifies mouse_like d' →
             ¬ lexico (sort_key lower mouse_word d')
                      (sort_key lower mouse_word d))
        ∧ (∀ d', d' ∈ devs → qualifies mouse_like d' →
             named lower mouse_word d' = true →
             named lower mouse_word d = true)
        ∧ (∀ d', d' ∈ devs → qualifies mouse_like d' →
             named lower mouse_word d' = named lower mouse_word d →
             ¬ lexico (node_path d') (node_path d)).
Proof.
  split; [apply mouse_like_spec|]. split.
  - unfold standalone_pick_mouse_device, pick_mouse_device.
    destruct (open_devices listed) as [devs|x]; [|done].
    by destruct (select mouse_like devs) as [[|d0 found]|x].
  - intros d. unfold pick_mouse_device.
    destruct (open_devices listed) as [devs|x] eqn:Ho; [|done].
    destruct (select mouse_like devs) as [[|d0 found]|x] eqn:Hs; try done.
    intros [= <-]. exists devs. by eapply picked_from.
Qed.

(** The named mouse at [event5] wins over the trackpoint at [event3]. *)
Lemma pick_mouse_device_least_witness :
  pick_mouse_device ascii_lower (Ok <$> attached) = Ok (Some optical_mouse)
  ∧ standalone_pick_mouse_device ascii_lower (Ok <$> attached)
    = Ok optical_mouse
  ∧ ∃ devs : list node,
      Ok <$> attached = Ok <$> devs
      ∧ optical_mouse ∈ devs
      ∧ qualifies mouse_like optical_mouse
      ∧ (∀ d', d' ∈ devs → qualifies mouse_like d' →
           ¬ lexico (sort_key ascii_lower mouse_word d')
                    (sort_key ascii_lower mouse_word optical_mouse))
      ∧ (∀ d', d' ∈ devs → qualifies mouse_like d' →
           named ascii_lower mouse_word d' = true →
           named ascii_lower mouse_word optical_mouse = true)
      ∧ (∀ d', d' ∈ devs → qualifies mouse_like d' →
           named ascii_lower mouse_word d'
           = named ascii_lower mouse_word optical_mouse →
           ¬ lexico (node_path d') (node_path optical_mouse)).
Proof.
  split; [vm_compute; reflexivity|].
  split; [vm_compute; reflexivity|].
  destruct (pick_mouse_device_least ascii_lower (Ok <$> attached))
    as (_ & _ & H).
  apply (H optical_mouse). vm_compute; reflexivity.
Defined.

(** X25. How picking fails.  A listed path that cannot be opened, or a
    device whose [capabilities()] call raises, makes both pickers raise that
    exception, whatever else is listed, a usable keyboard or mouse included.
    When every path opens and every device answers,
    [pick_keyboard_device] raises [RuntimeError] exactly when no device
    passes the keyboard test and [pick_mouse_device] returns [None] exactly
    when none passes the mouse test; otherwise they return a device. *)
Theorem pick_failures (lower : str → str) (listed : list (result node)) :
  (∀ (before : list node) (x : exn) (after : list (result node)),
     listed = (Ok <$> before) ++ Raise x :: after →
     pick_keyboard_device lower listed = Raise x
     ∧ pick_mouse_device lower listed = Raise x)
  ∧ (∀ (before : list node) (d : node) (x : exn) (after : list node),
       listed = Ok <$> (before ++ d :: after) →
       Forall (λ d, ∃ caps, node_capabilities d = Ok caps) before →
       node_capabilities d = Raise x →
       pick_keyboard_device lower listed = Raise x
       ∧ pick_mouse_device lower listed = Raise x)
  ∧ (∀ devs : list node,
       listed = Ok <$> devs →
       Forall (λ d, ∃ caps, node_capabilities d = Ok caps) devs →
       (pick_keyboard_device lower listed = Raise RuntimeError
        ↔ ∀ d, d ∈ devs → ¬ qualifies keyboard_like d)
       ∧ (pick_mouse_device lower listed = Ok None
          ↔ ∀ d, d ∈ devs → ¬ qualifies mouse_like d)
       ∧ ((∃ d, pick_keyboard_device lower listed = Ok d)
          ∨ pick_keyboard_device lower listed = Raise RuntimeError)
       ∧ ∃ o, pick_mouse_device lower listed = Ok o).
Proof.
  split; [|split].
  - intros before x after ->.
    unfold pick_keyboard_device, pick_mouse_device.
    by rewrite open_devices_Raise.
  - intros before d x after -> Hb Hd.
    unfold pick_keyboard_device, pick_mouse_device.
    rewrite (proj2 (open_devices_Ok _ _) eq_refl).
    by rewrite !(select_Raise _ before d x after Hb Hd).
  - intros devs -> Hall.
    unfold pick_keyboard_device, pick_mouse_device.
    rewrite (proj2 (open_devices_Ok _ _) eq_refl).
    destruct (select_total keyboard_like devs Hall) as [ks Hks].
    destruct (select_total mouse_like devs Hall) as [ms Hms].
    rewrite Hks, Hms.
    destruct (select_Ok _ _ _ Hks) as [_ Hkin].
    destruct (select_Ok _ _ _ Hms) as [_ Hmin].
    split; [|split; [|split]].
    + destruct ks as [|d0 ks]; split; try done.
      * intros _ d Hd Hq. by apply (elem_of_nil d), Hkin.
      * intros Hno. exfalso. apply (Hno d0); apply Hkin; by left.
    + destruct ms as [|d0 ms]; split; try done.
      * intros _ d Hd Hq. by apply (elem_of_nil d), Hmin.
      * intros Hno. exfalso. apply (Hno d0); apply Hmin; by left.
    + destruct ks as [|d0 ks]; [by right | left; eauto].
    + destruct ms as [|d0 ms]; eauto.
Qed.

(** An unreadable node hides the keyboard listed before it; a device that
    vanished hides the mouse; with the power button alone nothing is
    found. *)
Lemma pick_failures_witness :
  (pick_keyboard_device ascii_lower
     ((Ok <$> [usb_keyboard]) ++ Raise (OSError 13) :: [Ok optical_mouse])
   = Raise (OSError 13)
   ∧ pick_mouse_device ascii_lower
       ((Ok <$> [usb_keyboard]) ++ Raise (OSError 13) :: [Ok optical_mouse])
     = Raise (OSError 13))
  ∧ (pick_keyboard_device ascii_lower
       (Ok <$> ([usb_keyboard; optical_mouse] ++ vanished :: []))
     = Raise (OSError errno.ENODEV)
     ∧ pick_mouse_device ascii_lower
         (Ok <$> ([usb_keyboard; optical_mouse] ++ vanished :: []))
       = Raise (OSError errno.ENODEV))
  ∧ (pick_keyboard_device ascii_lower (Ok <$> [power_button])
     = Raise RuntimeError
     ↔ ∀ d, d ∈ [power_button] → ¬ qualifies keyboard_like d).
Proof.
  split; [|split].
  - destruct (pick_failures ascii_lower
                ((Ok <$> [usb_keyboard]) ++ Raise (OSError 13)
                   :: [Ok optical_mouse])) as (H & _ & _).
    by apply (H [usb_keyboard] (OSError 13) [Ok optical_mouse]).
  - destruct (pick_failures ascii_lower
                (Ok <$> ([usb_keyboard; optical_mouse] ++ vanished :: [])))
      as (_ & H & _).
    apply (H [usb_keyboard; optical_mouse] vanished (OSError errno.ENODEV) []).
    + reflexivity.
    + repeat constructor; eexists; reflexivity.
    + reflexivity.
  - destruct (pick_failures ascii_lower (Ok <$> [power_button]))
      as (_ & _ & H).
    destruct (H [power_button]) as (Hk & _).
    + reflexivity.
    + repeat constructor; eexists; reflexivity.
    + exact Hk.
Defined.

(** ** The stand-alone mouse bridge *)

Lemma standalone_write_report_calls (report : list Z) (ep : endpoint) :
  calls (Standalone.write_report report ep).2
  = calls ep ++ [(report, (Standalone.write_report report ep).1)].
Proof.
  unfold Standalone.write_report.
  by destruct (Standalone.write_loop (pending ep)) as [[r sl] rest].
Qed.

Lemma standalone_send_neutral (ep : endpoint) :
  StandaloneMouse.send_mouse_report 0 0 0 0 ep
  = Standalone.write_report neutral_report ep.
Proof. reflexivity. Qed.

Lemma standalone_send_mouse_report_calls (b dx dy w : Z) (ep : endpoint) :
  ∃ cs, calls (StandaloneMouse.send_mouse_report b dx dy w ep).2
        = calls ep ++ cs.
Proof.
  unfold StandaloneMouse.send_mouse_report. rewrite bind_run. unfold lift.
  rewrite build_mouse_report_Ok, standalone_write_report_calls. eauto.
Qed.

Lemma standalone_mouse_event_calls (e : input_event) (st : MouseState)
    (ep : endpoint) :
  ∃ cs, calls (StandaloneMouse.mouse_event e st ep).2 = calls ep ++ cs.
Proof.
  unfold StandaloneMouse.mouse_event.
  repeat match goal with
         | |- ∃ _, calls ((if ?b then _ else _) _).2 = _ => destruct b
         | |- ∃ _, calls ((match ?o with Some _ => _ | None => _ end) _).2 = _
             => destruct o
         | |- ∃ _, calls (mret _ _).2 = _ => by exists []; rewrite app_nil_r
         end.
  rewrite bind_run.
  destruct (standalone_send_mouse_report_calls (buttons st) (dx_accum st)
              (dy_accum st) (wheel_accum st) ep) as [cs Hcs].
  destruct (StandaloneMouse.send_mouse_report _ _ _ _ ep) as [[[]|x] ep1];
    eauto.
Qed.

Lemma standalone_mouse_loop_calls (items : list read_item) (st : MouseState)
    (ep : endpoint) :
  ∃ cs, calls (StandaloneMouse.mouse_loop items st ep).2 = calls ep ++ cs.
Proof.
  revert st ep. induction items as [|[e|x] items IH]; intros st ep.
  - exists []. by rewrite app_nil_r.
  - cbn [StandaloneMouse.mouse_loop]. rewrite bind_run.
    destruct (standalone_mouse_event_calls e st ep) as [cs1 H1].
    destruct (StandaloneMouse.mouse_event e st ep) as [[st1|x] ep1]; [|eauto].
    destruct (IH st1 ep1) as [cs2 H2]. cbn [snd] in H1.
    exists (cs1 ++ cs2). by rewrite H2, H1, app_assoc.
  - exists []. by rewrite app_nil_r.
Qed.

(** The run after its first report went through: the loop, then the
    [finally] block. *)
Lemma standalone_main_unfold (items : list read_item)
    (ep ep1 ep2 : endpoint) (rl : result MouseState) :
  Standalone.write_report neutral_report ep = (Ok (), ep1) →
  StandaloneMouse.mouse_loop items mouse_initial ep1 = (rl, ep2) →
  StandaloneMouse.main (Ok ()) items ep
  = match Standalone.write_report neutral_report ep2 with
    | (Ok _, ep3) => (status_of rl, ep3)
    | (Raise x, ep3) =>
        if is_Exception x then (status_of rl, ep3) else (Raise x, ep3)
    end.
Proof.
  intros H0 Hl. unfold StandaloneMouse.main.
  rewrite bind_run. unfold lift at 1. rewrite bind_run.
  rewrite standalone_send_neutral, H0. rewrite bind_run.
  unfold try_finally, try_except. rewrite bind_run, Hl.
  destruct rl as [st|x]; [|destruct x];
    cbn -[StandaloneMouse.send_mouse_report Standalone.write_report
          neutral_report is_Exception];
    rewrite standalone_send_neutral;
    destruct (Standalone.write_report neutral_report ep2) as [[[]|y] ep3];
    try reflexivity; destruct (is_Exception y); reflexivity.
Qed.

Lemma standalone_mouse_event_accepting (e : input_event) (st : MouseState)
    (cs : list (list Z * result unit)) (sl : list Z) :
  ∃ (st' : MouseState) (cs' : list (list Z * result unit)),
    StandaloneMouse.mouse_event e st (Endpoint [] cs sl)
    = (Ok st', Endpoint [] cs' sl).
Proof.
  unfold StandaloneMouse.mouse_event.
  repeat match goal with
         | |- ∃ _ _, (if ?b then _ else _) _ = _ => destruct b
         | |- ∃ _ _, (match ?o with Some _ => _ | None => _ end) _ = _ =>
             destruct o
         | |- ∃ _ _, mret _ _ = _ => by eexists _, _
         end.
  rewrite bind_run. unfold StandaloneMouse.send_mouse_report.
  rewrite bind_run. unfold lift. rewrite build_mouse_report_Ok.
  unfold Standalone.write_report. cbn. rewrite app_nil_r. by eexists _, _.
Qed.

Lemma standalone_mouse_loop_accepting (es : list input_event)
    (rest : list read_item) (st : MouseState)
    (cs : list (list Z * result unit)) (sl : list Z) :
  ∃ (st' : MouseState) (cs' : list (list Z * result unit)),
    StandaloneMouse.mouse_loop ((Yields <$> es) ++ rest) st (Endpoint [] cs sl)
    = StandaloneMouse.mouse_loop rest st' (Endpoint [] cs' sl).
Proof.
  revert st cs. induction es as [|e es IH]; intros st cs.
  { by exists st, cs. }
  cbn [fmap list_fmap app StandaloneMouse.mouse_loop]. rewrite bind_run.
  destruct (standalone_mouse_event_accepting e st cs sl) as (st1 & cs1 & ->).
  apply IH.
Qed.

(** X26. Every run of the stand-alone mouse bridge: either the lines before
    the first report failed and nothing was written, or the last call of
    [write_report] of the run carries the neutral report, and when that call
    returns the neutral report is the last report delivered to the host.  In
    particular, when the device is lost ([read_loop] raises) while the
    endpoint accepts writes, the neutral report is delivered before the
    exception leaves [main]; an interrupt gives exit status 0. *)
Theorem standalone_mouse_neutral_on_exit (acquire : result unit)
    (items : list read_item) (ep : endpoint) :
  ((∃ x, acquire = Raise x
         ∧ StandaloneMouse.main acquire items ep = (Raise x, ep))
   ∨ (∃ (cs : list (list Z * result unit)) (res : result unit),
        calls (StandaloneMouse.main acquire items ep).2
        = calls ep ++ cs ++ [(neutral_report, res)]
        ∧ (res = Ok () →
           last (delivered (StandaloneMouse.main acquire items ep).2)
           = Some neutral_report)))
  ∧ (∀ (es : list input_event) (x : exn),
       acquire = Ok () → pending ep = [] →
       items = (Yields <$> es) ++ [Raises x] →
       (StandaloneMouse.main acquire items ep).1
       = match x with KeyboardInterrupt => Ok 0 | _ => Raise x end
       ∧ last (delivered (StandaloneMouse.main acquire items ep).2)
         = Some neutral_report).
Proof.
  split.
  - destruct acquire as [[]|x]; [right | left; eauto].
    destruct (Standalone.write_report neutral_report ep) as [r0 ep1] eqn:H0.
    pose proof (standalone_write_report_calls neutral_report ep) as Hc0.
    rewrite H0 in Hc0. cbn [fst snd] in Hc0.
    destruct r0 as [[]|x0].
    + destruct (StandaloneMouse.mouse_loop items mouse_initial ep1)
        as [rl ep2] eqn:Hl.
      destruct (standalone_mouse_loop_calls items mouse_initial ep1)
        as [cs Hcs].
      rewrite Hl in Hcs. cbn [snd] in Hcs.
      rewrite (standalone_main_unfold items ep ep1 ep2 rl H0 Hl).
      pose proof (standalone_write_report_calls neutral_report ep2) as Hc2.
      destruct (Standalone.write_report neutral_report ep2) as [rf ep3].
      cbn [fst snd] in Hc2.
      assert (calls ep3
              = calls ep ++ ((neutral_report, Ok ()) :: cs)
                         ++ [(neutral_report, rf)]) as Hc3.
      { rewrite Hc2, Hcs, Hc0. by rewrite <- !app_assoc. }
      exists ((neutral_report, Ok ()) :: cs), rf.
      destruct rf as [[]|x]; [|destruct (is_Exception x)]; cbn [snd];
        (split; [done|]); try done.
      intros _. eapply delivered_snoc. rewrite Hc3.
      by rewrite (app_assoc (calls ep)).
    + exists [], (Raise x0).
      unfold StandaloneMouse.main. rewrite bind_run. unfold lift at 1.
      rewrite bind_run, standalone_send_neutral, H0. cbn [snd].
      by rewrite Hc0.
  - intros es x -> Hp ->. destruct ep as [p cs sl]. cbn in Hp. subst p.
    assert (Standalone.write_report neutral_report (Endpoint [] cs sl)
            = (Ok (), Endpoint [] (cs ++ [(neutral_report, Ok ())]) sl))
      as H0.
    { unfold Standalone.write_report. cbn. by rewrite app_nil_r. }
    destruct (standalone_mouse_loop_accepting es [Raises x] mouse_initial
                (cs ++ [(neutral_report, Ok ())]) sl) as (st' & cs' & Hl).
    cbn [StandaloneMouse.mouse_loop] in Hl. unfold raise in Hl.
    rewrite (standalone_main_unfold _ _ _ _ _ H0 Hl).
    unfold Standalone.write_report. cbn [pending Standalone.write_loop].
    cbn [fst snd calls slept]. split.
    + by destruct x.
    + by eapply delivered_snoc.
Qed.

(** The left button is down when the mouse is unplugged: the stand-alone
    bridge releases it before it dies of the [OSError]. *)
Lemma standalone_mouse_neutral_on_exit_witness :
  StandaloneMouse.main (Ok ()) unplugged_stream (fresh_endpoint [])
  = (Raise (OSError errno.ENODEV),
     Endpoint [] [ (neutral_report, Ok ()); ([1; 0; 0; 0], Ok ());
                   (neutral_report, Ok ()) ] [])
  ∧ (StandaloneMouse.main (Ok ()) unplugged_stream (fresh_endpoint [])).1
    = Raise (OSError errno.ENODEV)
  ∧ last (delivered
            (StandaloneMouse.main (Ok ()) unplugged_stream
               (fresh_endpoint [])).2)
    = Some neutral_report.
Proof.
  split; [vm_compute; reflexivity|].
  destruct (standalone_mouse_neutral_on_exit (Ok ()) unplugged_stream
              (fresh_endpoint [])) as [_ H].
  apply (H [InputEvent ecodes.EV_KEY ecodes.BTN_LEFT 1;
            InputEvent ecodes.EV_SYN ecodes.SYN_REPORT 0]
           (OSError errno.ENODEV)); reflexivity.
Defined.

(** ** The usage table of the stand-alone keyboard bridge *)

Lemma dict_of_snoc (entries : list (Z * Z)) (k v : Z) :
  dict_of (entries ++ [(k, v)]) = <[k := v]> (dict_of entries).
Proof. unfold dict_of. by rewrite fold_left_app. Qed.

Lemma add_aliases_cons (getattr : string → option Z) (name : string)
    (hid : Z) (aliases : list (string * Z)) (table : gmap Z Z) :
  StandaloneKeyboard.add_aliases getattr ((name, hid) :: aliases) table
  = StandaloneKeyboard.add_aliases getattr aliases
      match getattr name with
      | Some code =>
          match table !! code with
          | None => <[code := hid]> table
          | Some _ => table
          end
      | None => table
      end.
Proof. reflexivity. Qed.

Lemma add_aliases_keeps (getattr : string → option Z)
    (aliases : list (string * Z)) (table : gmap Z Z) (k v : Z) :
  table !! k = Some v →
  StandaloneKeyboard.add_aliases getattr aliases table !! k = Some v.
Proof.
  revert table. induction aliases as [|[name hid] aliases IH]; intros table Hk;
    [done|].
  rewrite add_aliases_cons. apply IH.
  destruct (getattr name) as [code|]; [|done].
  destruct (table !! code) eqn:Hc; [done|].
  rewrite lookup_insert_ne; [done|]. intros ->. congruence.
Qed.

Lemma add_aliases_new (getattr : string → option Z)
    (aliases : list (string * Z)) (table : gmap Z Z) (k v : Z) :
  table !! k = None →
  StandaloneKeyboard.add_aliases getattr aliases table !! k = Some v →
  ∃ name, (name, v) ∈ aliases ∧ getattr name = Some k.
Proof.
  revert table. induction aliases as [|[name hid] aliases IH]; intros table Hk.
  { cbn. congruence. }
  rewrite add_aliases_cons. destruct (getattr name) as [code|] eqn:Hg.
  - destruct (table !! code) eqn:Hc.
    + intros H. destruct (IH table Hk H) as (n & Hn & Hgn).
      exists n. split; [by right | done].
    + destruct (decide (code = k)) as [->|Hne].
      * intros H.
        rewrite (add_aliases_keeps getattr aliases (<[k:=hid]> table) k hid)
          in H by apply lookup_insert_eq.
        injection H as <-. exists name. split; [by left | done].
      * intros H.
        destruct (IH (<[code:=hid]> table)) as (n & Hn & Hgn);
          [by rewrite lookup_insert_ne | done |].
        exists n. split; [by right | done].
  - intros H. destruct (IH table Hk H) as (n & Hn & Hgn).
    exists n. split; [by right | done].
Qed.

(** X27. The alias loop of the stand-alone keyboard bridge never replaces an
    entry of the table, and a key it adds comes from an alias whose name the
    installed [ecodes] defines.  With an [ecodes] that defines
    [KEY_ZENKAKUHANKAKU], the table the stand-alone bridge works with maps
    that key to usage 0x35, the usage of [KEY_GRAVE], where the combined
    bridge maps it to 0x94; on every other key code the two tables agree.
    With an [ecodes] that does not define the name the table is left as it
    is and the key has no usage. *)
Theorem jis_aliases_merge (getattr : string → option Z) :
  (∀ (aliases : list (string * Z)) (table : gmap Z Z) (k v : Z),
     table !! k = Some v →
     StandaloneKeyboard.add_aliases getattr aliases table !! k = Some v)
  ∧ (∀ (aliases : list (string * Z)) (table : gmap Z Z) (k v : Z),
       table !! k = None →
       StandaloneKeyboard.add_aliases getattr aliases table !! k = Some v →
       ∃ name, (name, v) ∈ aliases ∧ getattr name = Some k)
  ∧ (getattr "KEY_ZENKAKUHANKAKU"%string = Some ecodes.KEY_ZENKAKUHANKAKU →
     StandaloneKeyboard.add_aliases getattr StandaloneKeyboard.JIS_ALIASES
       StandaloneKeyboard.KEY_TO_HID !! ecodes.KEY_ZENKAKUHANKAKU
     = Some 0x35
     ∧ StandaloneKeyboard.add_aliases getattr StandaloneKeyboard.JIS_ALIASES
         StandaloneKeyboard.KEY_TO_HID !! ecodes.KEY_GRAVE
       = Some 0x35
     ∧ KEY_TO_HID !! ecodes.KEY_ZENKAKUHANKAKU = Some 0x94
     ∧ ∀ k : Z,
         k ≠ ecodes.KEY_ZENKAKUHANKAKU →
         StandaloneKeyboard.add_aliases getattr StandaloneKeyboard.JIS_ALIASES
           StandaloneKeyboard.KEY_TO_HID !! k
         = KEY_TO_HID !! k)
  ∧ (getattr "KEY_ZENKAKUHANKAKU"%string = None →
     StandaloneKeyboard.add_aliases getattr StandaloneKeyboard.JIS_ALIASES
       StandaloneKeyboard.KEY_TO_HID
     = StandaloneKeyboard.KEY_TO_HID
     ∧ StandaloneKeyboard.KEY_TO_HID !! ecodes.KEY_ZENKAKUHANKAKU = None).
Proof.
  split; [intros; by apply add_aliases_keeps|].
  split; [intros; by eapply add_aliases_new|].
  assert (StandaloneKeyboard.KEY_TO_HID !! ecodes.KEY_ZENKAKUHANKAKU = None)
    as Hnone by (vm_compute; reflexivity).
  split.
  - intros Hg.
    assert (StandaloneKeyboard.add_aliases getattr
              StandaloneKeyboard.JIS_ALIASES StandaloneKeyboard.KEY_TO_HID
            = <[ecodes.KEY_ZENKAKUHANKAKU := 0x35]>
                StandaloneKeyboard.KEY_TO_HID) as ->.
    { unfold StandaloneKeyboard.add_aliases, StandaloneKeyboard.JIS_ALIASES.
      cbn [fold_left fst snd]. by rewrite Hg, Hnone. }
    split; [apply lookup_insert_eq|].
    split; [rewrite lookup_insert_ne by done; vm_compute; reflexivity|].
    split; [vm_compute; reflexivity|].
    intros k Hk. rewrite lookup_insert_ne by done.
    change KEY_TO_HID
      with (<[ecodes.KEY_ZENKAKUHANKAKU := 0x94]>
              StandaloneKeyboard.KEY_TO_HID).
    by rewrite lookup_insert_ne.
  - intros Hg. split; [|done].
    unfold StandaloneKeyboard.add_aliases, StandaloneKeyboard.JIS_ALIASES.
    cbn [fold_left fst snd]. by rewrite Hg.
Qed.

Lemma jis_aliases_merge_witness :
  (StandaloneKeyboard.add_aliases ecodes_getattr
     StandaloneKeyboard.JIS_ALIASES StandaloneKeyboard.KEY_TO_HID
     !! ecodes.KEY_A = Some 0x04)
  ∧ (StandaloneKeyboard.add_aliases ecodes_getattr
       StandaloneKeyboard.JIS_ALIASES StandaloneKeyboard.KEY_TO_HID
       !! ecodes.KEY_ZENKAKUHANKAKU = Some 0x35
     ∧ StandaloneKeyboard.add_aliases ecodes_getattr
         StandaloneKeyboard.JIS_ALIASES StandaloneKeyboard.KEY_TO_HID
         !! ecodes.KEY_A = KEY_TO_HID !! ecodes.KEY_A)
  ∧ (StandaloneKeyboard.add_aliases old_ecodes_getattr
       StandaloneKeyboard.JIS_ALIASES StandaloneKeyboard.KEY_TO_HID
     = StandaloneKeyboard.KEY_TO_HID).
Proof.
  split; [|split].
  - destruct (jis_aliases_merge ecodes_getattr) as (H & _).
    apply H. vm_compute; reflexivity.
  - destruct (jis_aliases_merge ecodes_getattr) as (_ & _ & H & _).
    destruct H as (H1 & _ & _ & H4); [reflexivity|].
    split; [exact H1|]. apply H4. vm_compute. discriminate.
  - destruct (jis_aliases_merge old_ecodes_getattr) as (_ & _ & _ & H).
    destruct H as [H _]; [reflexivity | exact H].
Defined.

(** ** The stand-alone keyboard bridge *)

Lemma write_loop_agrees (script : list (option exn)) (rc : nat) :
  Forall (λ o, is_disconnect o = false) script →
  Standalone.write_loop script = write_loop script rc.
Proof.
  induction 1 as [|o script Ho Hs IH]; [done|].
  destruct o as [[e|e| | | |]|]; try done.
  - cbn [Standalone.write_loop write_loop].
    destruct (negb (e =? errno.EAGAIN)); [done|]. by rewrite IH.
  - cbn in Ho. cbn [Standalone.write_loop write_loop]. by rewrite Ho.
Qed.

Lemma write_report_agrees (report : list Z) (ep : endpoint) :
  Forall (λ o, is_disconnect o = false) (pending ep) →
  Standalone.write_report report ep = write_report report ep.
Proof.
  intros Hp. unfold Standalone.write_report, write_report.
  by rewrite (write_loop_agrees _ 0 Hp).
Qed.

Lemma Forall_suffix {A : Type} (P : A → Prop) (l1 l2 : list A) :
  l1 `suffix_of` l2 → Forall P l2 → Forall P l1.
Proof. intros [k ->] H. by apply Forall_app in H as [_ H]. Qed.

Lemma send_report_agrees (m : Z) (S : gset Z) (ep : endpoint) :
  Forall (λ o, is_disconnect o = false) (pending ep) →
  StandaloneKeyboard.send_report m S ep = send_keyboard_report m S ep.
Proof.
  intros Hp. unfold StandaloneKeyboard.send_report, send_keyboard_report.
  rewrite !bind_run. unfold lift.
  destruct (build_keyboard_report m S); [|done].
  by apply write_report_agrees.
Qed.

Lemma send_keyboard_report_pending (m : Z) (S : gset Z) (ep : endpoint) :
  pending (send_keyboard_report m S ep).2 `suffix_of` pending ep.
Proof.
  unfold send_keyboard_report. rewrite bind_run. unfold lift.
  destruct (build_keyboard_report m S); [apply write_report_pending | done].
Qed.

Lemma keyboard_event_suffix (e : input_event) (st : KeyboardState)
    (ep : endpoint) :
  pending (keyboard_event e st ep).2 `suffix_of` pending ep.
Proof.
  rewrite keyboard_event_run. destruct (reports e); [|done].
  rewrite bind_run.
  pose proof (send_keyboard_report_pending (mod_mask (next_state e st))
                (pressed_usages (next_state e st)) ep) as H.
  by destruct (send_keyboard_report _ _ ep) as [[[]|x] ep1].
Qed.

Lemma keyboard_loop_suffix (items : list read_item) (st : KeyboardState)
    (ep : endpoint) :
  pending (keyboard_loop items st ep).2 `suffix_of` pending ep.
Proof.
  revert st ep. induction items as [|[e|x] items IH]; intros st ep; [done| |done].
  cbn [keyboard_loop]. rewrite bind_run.
  pose proof (keyboard_event_suffix e st ep) as H1.
  destruct (keyboard_event e st ep) as [[st1|x] ep1]; [|done].
  etrans; [apply IH | done].
Qed.

Lemma standalone_keyboard_event_agrees (table : gmap Z Z) (e : input_event)
    (st : KeyboardState) (ep : endpoint) :
  table !! code e = KEY_TO_HID !! code e →
  Forall (λ o, is_disconnect o = false) (pending ep) →
  StandaloneKeyboard.keyboard_event table e st ep = keyboard_event e st ep.
Proof.
  intros Ht Hp. unfold StandaloneKeyboard.keyboard_event, keyboard_event.
  rewrite Ht.
  destruct (negb (type e =? ecodes.EV_KEY)); [done|].
  destruct (value e =? 2); [done|].
  destruct (MODIFIER_KEYS !! code e) as [bit|].
  - rewrite !bind_run. by rewrite send_report_agrees.
  - destruct (KEY_TO_HID !! code e) as [u|]; [|done].
    rewrite !bind_run. by rewrite send_report_agrees.
Qed.

Lemma standalone_keyboard_loop_agrees (table : gmap Z Z)
    (items : list read_item) (st : KeyboardState) (ep : endpoint) :
  Forall (λ it, match it with
                | Yields e => table !! code e = KEY_TO_HID !! code e
                | Raises _ => True
                end) items →
  Forall (λ o, is_disconnect o = false) (pending ep) →
  StandaloneKeyboard.keyboard_loop table items st ep
  = keyboard_loop items st ep.
Proof.
  intros Hi. revert st ep.
  induction Hi as [|[e|x] items He _ IH]; intros st ep Hp; [done| |done].
  cbn [StandaloneKeyboard.keyboard_loop keyboard_loop]. rewrite !bind_run.
  rewrite (standalone_keyboard_event_agrees table e st ep He Hp).
  pose proof (keyboard_event_suffix e st ep) as Hs.
  destruct (keyboard_event e st ep) as [[st1|x] ep1]; [|done].
  apply IH. by eapply Forall_suffix.
Qed.

(** The runs of the two keyboard bridges, step by step. *)
Lemma run_keyboard_bridge_steps (acquire : result unit)
    (items : list read_item) (ep : endpoint) :
  run_keyboard_bridge acquire items ep
  = match acquire with
    | Raise x => (Raise x, ep)
    | Ok _ =>
        match send_keyboard_report 0 ∅ ep with
        | (Raise x, ep1) => (Raise x, ep1)
        | (Ok _, ep1) =>
            let '(rl, ep2) := keyboard_loop items all_released ep1 in
            match send_keyboard_report 0 ∅ ep2 with
            | (Ok _, ep3) => (exit_of rl, ep3)
            | (Raise x, ep3) =>
                if is_Exception x then (exit_of rl, ep3) else (Raise x, ep3)
            end
        end
    end.
Proof.
  destruct acquire as [[]|x]; [|done].
  unfold run_keyboard_bridge. rewrite bind_run. unfold lift at 1.
  rewrite bind_run.
  destruct (send_keyboard_report 0 ∅ ep) as [[[]|x0] ep1] eqn:H0; [|done].
  destruct (keyboard_loop items all_released ep1) as [rl ep2] eqn:Hl.
  unfold try_finally, try_except. rewrite bind_run, Hl.
  destruct rl as [st|x]; [|destruct x];
    cbn -[send_keyboard_report is_Exception];
    destruct (send_keyboard_report 0 ∅ ep2) as [[[]|y] ep3];
    try reflexivity; destruct (is_Exception y); reflexivity.
Qed.

Lemma standalone_keyboard_main_steps (getattr : string → option Z)
    (acquire : result unit) (items : list read_item) (ep : endpoint) :
  StandaloneKeyboard.main getattr acquire items ep
  = match acquire with
    | Raise x => (Raise x, ep)
    | Ok _ =>
        match StandaloneKeyboard.send_report 0 ∅ ep with
        | (Raise x, ep1) => (Raise x, ep1)
        | (Ok _, ep1) =>
            let '(rl, ep2) :=
              StandaloneKeyboard.keyboard_loop
                (StandaloneKeyboard.add_aliases getattr
                   StandaloneKeyboard.JIS_ALIASES
                   StandaloneKeyboard.KEY_TO_HID)
                items all_released ep1 in
            match StandaloneKeyboard.send_report 0 ∅ ep2 with
            | (Ok _, ep3) => (exit_status (exit_of rl), ep3)
            | (Raise x, ep3) =>
                if is_Exception x then (exit_status (exit_of rl), ep3)
                else (Raise x, ep3)
            end
        end
    end.
Proof.
  destruct acquire as [[]|x]; [|done].
  unfold StandaloneKeyboard.main. cbv zeta. rewrite bind_run.
  unfold lift at 1. rewrite bind_run.
  destruct (StandaloneKeyboard.send_report 0 ∅ ep) as [[[]|x0] ep1] eqn:H0;
    [|done].
  rewrite bind_run.
  destruct (StandaloneKeyboard.keyboard_loop _ items all_released ep1)
    as [rl ep2] eqn:Hl.
  unfold try_finally, try_except. rewrite bind_run, Hl.
  destruct rl as [st|x]; [|destruct x];
    cbn -[StandaloneKeyboard.send_report is_Exception];
    destruct (StandaloneKeyboard.send_report 0 ∅ ep2) as [[[]|y] ep3];
    try reflexivity; destruct (is_Exception y); reflexivity.
Qed.

Lemma merged_table_agrees (getattr : string → option Z) (k : Z) :
  getattr "KEY_ZENKAKUHANKAKU"%string = Some ecodes.KEY_ZENKAKUHANKAKU
  ∨ getattr "KEY_ZENKAKUHANKAKU"%string = None →
  k ≠ ecodes.KEY_ZENKAKUHANKAKU →
  StandaloneKeyboard.add_aliases getattr StandaloneKeyboard.JIS_ALIASES
    StandaloneKeyboard.KEY_TO_HID !! k
  = KEY_TO_HID !! k.
Proof.
  intros Hg Hk.
  change KEY_TO_HID
    with (<[ecodes.KEY_ZENKAKUHANKAKU := 0x94]>
            StandaloneKeyboard.KEY_TO_HID).
  rewrite (lookup_insert_ne _ ecodes.KEY_ZENKAKUHANKAKU k) by done.
  unfold StandaloneKeyboard.add_aliases, StandaloneKeyboard.JIS_ALIASES.
  cbn [fold_left fst snd]. destruct Hg as [-> | ->]; [|done].
  assert (StandaloneKeyboard.KEY_TO_HID !! ecodes.KEY_ZENKAKUHANKAKU = None)
    as -> by (vm_compute; reflexivity).
  by rewrite lookup_insert_ne.
Qed.

(** X28. The stand-alone keyboard bridge and the keyboard bridge of the
    combined program are interchangeable as long as the endpoint raises no
    broken pipe ([EPIPE], [ENOTCONN]) and the Zenkaku/Hankaku key is not
    touched: on the same device stream and the same endpoint they make the
    same calls of [write_report] with the same results and the same sleeps,
    and the stand-alone [main] returns 0 where [run_keyboard_bridge] returns
    and raises what it raises. *)
Theorem standalone_keyboard_agrees (getattr : string → option Z)
    (acquire : result unit) (items : list read_item) (ep : endpoint) :
  getattr "KEY_ZENKAKUHANKAKU"%string = Some ecodes.KEY_ZENKAKUHANKAKU
  ∨ getattr "KEY_ZENKAKUHANKAKU"%string = None →
  Forall (λ o, is_disconnect o = false) (pending ep) →
  Forall (spares ecodes.KEY_ZENKAKUHANKAKU) items →
  StandaloneKeyboard.main getattr acquire items ep
  = (exit_status (run_keyboard_bridge acquire items ep).1,
     (run_keyboard_bridge acquire items ep).2).
Proof.
  intros Hg Hp Hi.
  rewrite standalone_keyboard_main_steps, run_keyboard_bridge_steps.
  destruct acquire as [[]|x]; [|done].
  rewrite (send_report_agrees 0 ∅ ep Hp).
  pose proof (send_keyboard_report_pending 0 ∅ ep) as Hs1.
  destruct (send_keyboard_report 0 ∅ ep) as [[[]|x0] ep1]; [|done].
  cbn [snd] in Hs1. pose proof (Forall_suffix _ _ _ Hs1 Hp) as Hp1.
  rewrite standalone_keyboard_loop_agrees; [|..|done].
  2:{ eapply Forall_impl; [exact Hi|]. intros [e|x] He; [|done].
      by apply merged_table_agrees. }
  pose proof (keyboard_loop_suffix items all_released ep1) as Hs2.
  destruct (keyboard_loop items all_released ep1) as [rl ep2].
  cbn [snd] in Hs2. pose proof (Forall_suffix _ _ _ Hs2 Hp1) as Hp2.
  rewrite (send_report_agrees 0 ∅ ep2 Hp2).
  destruct (send_keyboard_report 0 ∅ ep2) as [[[]|y] ep3]; [done|].
  by destruct (is_Exception y).
Qed.

(** Shift and A are held when the process is interrupted; the endpoint is
    not ready at first and fails the final write with [EIO]. *)
Lemma standalone_keyboard_agrees_witness :
  StandaloneKeyboard.main ecodes_getattr (Ok ()) interrupted_stream
    (fresh_endpoint [not_ready; None; None; None; Some (OSError errno.EIO)])
  = (exit_status
       (run_keyboard_bridge (Ok ()) interrupted_stream
          (fresh_endpoint
             [not_ready; None; None; None; Some (OSError errno.EIO)])).1,
     (run_keyboard_bridge (Ok ()) interrupted_stream
        (fresh_endpoint
           [not_ready; None; None; None; Some (OSError errno.EIO)])).2).
Proof.
  apply (standalone_keyboard_agrees ecodes_getattr (Ok ())
           interrupted_stream
           (fresh_endpoint
              [not_ready; None; None; None; Some (OSError errno.EIO)])).
  - left. reflexivity.
  - repeat constructor.
  - repeat constructor; vm_compute; discriminate.
Defined.

(** X29. The event handling of the stand-alone mouse bridge and that of the
    combined bridge are the same function as long as the endpoint raises no
    broken pipe: same next state, same calls of [write_report], same sleeps.
    The one branch the stand-alone script has in addition, for the
    horizontal wheel, does nothing: such an event changes neither the state
    nor the endpoint, in either bridge. *)
Theorem standalone_mouse_event_agrees (e : input_event) (st : MouseState)
    (ep : endpoint) :
  (Forall (λ o, is_disconnect o = false) (pending ep) →
   StandaloneMouse.mouse_event e st ep = mouse_event e st ep)
  ∧ (type e = ecodes.EV_REL → code e = ecodes.REL_HWHEEL →
     StandaloneMouse.mouse_event e st ep = (Ok st, ep)
     ∧ mouse_event e st ep = (Ok st, ep)).
Proof.
  split.
  - intros Hp. unfold StandaloneMouse.mouse_event, mouse_event.
    repeat match goal with
           | |- (if ?b then _ else _) _ = _ => destruct b
           | |- (match ?o with Some _ => _ | None => _ end) _ = _ =>
               destruct o
           end; try reflexivity.
    rewrite !bind_run.
    unfold StandaloneMouse.send_mouse_report, send_mouse_report.
    rewrite !bind_run. unfold lift. rewrite build_mouse_report_Ok.
    by rewrite write_report_agrees.
  - intros Ht Hc. unfold StandaloneMouse.mouse_event, mouse_event.
    by rewrite Ht, Hc.
Qed.

Lemma standalone_mouse_event_agrees_witness :
  StandaloneMouse.mouse_event
    (InputEvent ecodes.EV_SYN ecodes.SYN_REPORT 0)
    {| buttons := 1; prev_buttons := 0;
       dx_accum := 300; dy_accum := -2; wheel_accum := 0 |}
    (fresh_endpoint [not_ready; None])
  = mouse_event
      (InputEvent ecodes.EV_SYN ecodes.SYN_REPORT 0)
      {| buttons := 1; prev_buttons := 0;
         dx_accum := 300; dy_accum := -2; wheel_accum := 0 |}
      (fresh_endpoint [not_ready; None])
  ∧ StandaloneMouse.mouse_event
      (InputEvent ecodes.EV_REL ecodes.REL_HWHEEL 3) mouse_initial
      (fresh_endpoint [disconnected])
    = (Ok mouse_initial, fresh_endpoint [disconnected]).
Proof.
  split.
  - destruct (standalone_mouse_event_agrees
                (InputEvent ecodes.EV_SYN ecodes.SYN_REPORT 0)
                {| buttons := 1; prev_buttons := 0;
                   dx_accum := 300; dy_accum := -2; wheel_accum := 0 |}
                (fresh_endpoint [not_ready; None])) as [H _].
    apply H. repeat constructor.
  - destruct (standalone_mouse_event_agrees
                (InputEvent ecodes.EV_REL ecodes.REL_HWHEEL 3) mouse_initial
                (fresh_endpoint [disconnected])) as [_ H].
    destruct H as [H _]; [reflexivity | reflexivity | exact H].
Defined.
